(** * Black-swan detector: alert gate, evaluators and severity scorer

    A shallow embedding of [src/modules/black_swan_detector.py] (class
    [BlackSwanDetector]) and the properties of its alerting pipeline.

    Conventions of the embedding.
    - Python/numpy floats are [float64]: an exact rational or one of the
      IEEE special values.  Rounding and signed zeros are not modelled; the
      special values follow IEEE 754 as numpy applies it (division by zero
      yields an infinity or NaN, it does not raise).
    - [datetime] is a number of microseconds, [date] a number of days.
    - The detector's methods run in a small state monad over a [World]: the
      detector object, the number of [datetime.now()] calls and of data
      pipeline requests made so far, and the trace of outward effects
      (callback invocations and sleeps).  Logging and plot files are left
      out: no method reads them back.
    - pandas and numpy operations whose numerics are not spelled out in the
      repository (square root, quantiles, correlation matrices, number
      formatting) are fields of the [External] interface, and so is whether
      a plot can be drawn: the two methods that save plots name the file
      after a reading of the clock, which they take once the plot is drawn.

    The module [Connector] embeds the part of [src/modules/live_trading.py]
    (class [LiveTradingConnector]) that the exchange is called through: the
    rate limiter, the retries, the error handler and the orderbook cache,
    in a state monad of its own. *)

From Stdlib Require Import QArith Qabs Qminmax ZArith Lia Lqa Ascii String List.
From stdpp Require Import gmap strings list.
Import ListNotations.

Local Open Scope string_scope.
Local Open Scope list_scope.
Local Open Scope Z_scope.

(** ** Floating-point values *)

Inductive float64 : Type :=
  | Fin (q : Q)
  | PInf
  | NInf
  | NaN.

Declare Scope float_scope.
Delimit Scope float_scope with fl.
Bind Scope float_scope with float64.

Module Float.

Definition is_nan (x : float64) : bool :=
  match x with NaN => true | _ => false end.

Definition Qltb (a b : Q) : bool := negb (Qle_bool b a).

(** Sign of a finite value, zero counting as positive zero. *)
Definition nonneg (a : Q) : bool := Qle_bool 0 a.

Definition neg (x : float64) : float64 :=
  match x with
  | Fin a => Fin (- a)
  | PInf => NInf
  | NInf => PInf
  | NaN => NaN
  end.

Definition add (x y : float64) : float64 :=
  match x, y with
  | NaN, _ | _, NaN => NaN
  | Fin a, Fin b => Fin (a + b)
  | PInf, NInf | NInf, PInf => NaN
  | PInf, _ | _, PInf => PInf
  | NInf, _ | _, NInf => NInf
  end.

Definition sub (x y : float64) : float64 := add x (neg y).

Definition mul (x y : float64) : float64 :=
  match x, y with
  | NaN, _ | _, NaN => NaN
  | Fin a, Fin b => Fin (a * b)
  | Fin a, PInf | PInf, Fin a =>
      if Qeq_bool a 0 then NaN else if nonneg a then PInf else NInf
  | Fin a, NInf | NInf, Fin a =>
      if Qeq_bool a 0 then NaN else if nonneg a then NInf else PInf
  | PInf, PInf | NInf, NInf => PInf
  | PInf, NInf | NInf, PInf => NInf
  end.

Definition div (x y : float64) : float64 :=
  match x, y with
  | NaN, _ | _, NaN => NaN
  | Fin a, Fin b =>
      if Qeq_bool b 0 then
        if Qeq_bool a 0 then NaN else if nonneg a then PInf else NInf
      else Fin (a / b)
  | Fin _, PInf | Fin _, NInf => Fin 0
  | PInf, Fin b => if nonneg b then PInf else NInf
  | NInf, Fin b => if nonneg b then NInf else PInf
  | PInf, PInf | PInf, NInf | NInf, PInf | NInf, NInf => NaN
  end.

Definition abs (x : float64) : float64 :=
  match x with
  | Fin a => Fin (Qabs a)
  | PInf | NInf => PInf
  | NaN => NaN
  end.

(** [x < y]; every comparison with NaN is false. *)
Definition ltb (x y : float64) : bool :=
  match x, y with
  | NaN, _ | _, NaN => false
  | Fin a, Fin b => Qltb a b
  | NInf, Fin _ | NInf, PInf | Fin _, PInf => true
  | _, _ => false
  end.

Definition gtb (x y : float64) : bool := ltb y x.

(** [x <= y] *)
Definition leb (x y : float64) : bool :=
  match x, y with
  | NaN, _ | _, NaN => false
  | Fin a, Fin b => Qle_bool a b
  | NInf, _ | _, PInf => true
  | _, _ => false
  end.

(** Equality of values (finite values up to the fraction's form); NaN
    equals nothing. *)
Definition eqb (x y : float64) : bool :=
  match x, y with
  | Fin a, Fin b => Qeq_bool a b
  | PInf, PInf | NInf, NInf => true
  | _, _ => false
  end.

Definition of_Z (n : Z) : float64 := Fin (inject_Z n).

End Float.

Infix "+" := Float.add : float_scope.
Infix "-" := Float.sub : float_scope.
Infix "*" := Float.mul : float_scope.
Infix "/" := Float.div : float_scope.
Infix "<?" := Float.ltb : float_scope.
Infix ">?" := Float.gtb : float_scope.
Infix "<=?" := Float.leb : float_scope.
Infix "=?" := Float.eqb : float_scope.

(** Python's builtin [max(a, b)] and [min(a, b)]: the first argument is
    kept unless the second is strictly greater (smaller). *)
Definition py_max2 (a b : float64) : float64 := if (b >? a)%fl then b else a.
Definition py_min2 (a b : float64) : float64 := if (b <? a)%fl then b else a.

(** [max(xs, default=d)]: the first maximal element, [d] on the empty list. *)
Definition py_max (xs : list float64) (default : float64) : float64 :=
  match xs with
  | [] => default
  | x :: rest => fold_left py_max2 rest x
  end.

(** Clipping to the interval from [lo] to [hi], as the specification uses
    it: [lo] below the interval, [hi] above it, the value itself inside
    (NaN is left alone, as by numpy.clip). *)
Definition clip (x lo hi : float64) : float64 :=
  if (x <=? lo)%fl then lo else if (hi <=? x)%fl then hi else x.

(** A severity in the closed unit interval. *)
Definition in_unit_interval (x : float64) : Prop :=
  exists q, x = Fin q /\ (0 <= q)%Q /\ (q <= 1)%Q.

(** ** Dates and times *)

Definition datetime : Type := Z.
Definition date : Type := Z.

Definition microseconds_per_day : Z := 86400000000.

(** [datetime.date()] *)
Definition date_of (t : datetime) : date := t / microseconds_per_day.

(** [timedelta(minutes=m)] *)
Definition timedelta_minutes (m : Z) : Z := m * 60000000.

(** ** Python containers and strings *)

(** A [dict] with string keys whose iteration order matters: insertion
    order, an assignment to an existing key keeping the key's position. *)
Definition PyDict (V : Type) : Type := list (string * V).

Fixpoint dict_set {V : Type} (k : string) (v : V) (d : PyDict V) : PyDict V :=
  match d with
  | [] => [(k, v)]
  | (k', v') :: rest =>
      if String.eqb k' k then (k, v) :: rest else (k', v') :: dict_set k v rest
  end.

Definition dict_keys {V : Type} (d : PyDict V) : list string := map fst d.

(** [s.replace(old, new)] for single characters. *)
Fixpoint str_replace (old new : Ascii.ascii) (s : string) : string :=
  match s with
  | EmptyString => EmptyString
  | String c rest =>
      String (if Ascii.eqb c old then new else c) (str_replace old new rest)
  end.

(** [s.split(sep)[0]]: the part before the first separator. *)
Fixpoint str_before (sep : Ascii.ascii) (s : string) : string :=
  match s with
  | EmptyString => EmptyString
  | String c rest =>
      if Ascii.eqb c sep then EmptyString else String c (str_before sep rest)
  end.

(** [symbol.split(':')[0] if ':' in symbol else symbol] *)
Definition base_symbol (symbol : string) : string := str_before ":"%char symbol.

(** [symbol.replace('/', '_').replace(':', '_')] *)
Definition clean_symbol (symbol : string) : string :=
  str_replace ":"%char "_"%char (str_replace "/"%char "_"%char symbol).

(** [l[-n:]] for [n > 0]: the last [n] elements, all of [l] when it has
    fewer; [l[-0:]] is [l[0:]], the whole list. *)
Definition slice_last {A : Type} (n : Z) (l : list A) : list A :=
  if n <=? 0 then l else skipn (length l - Z.to_nat n) l.

(** ** Market data *)

Record Bar : Type := {
  bar_time : datetime;
  bar_open : Q;
  bar_high : Q;
  bar_low : Q;
  bar_close : Q;
  bar_volume : Q
}.

(** An OHLCV frame: the rows in timestamp order. *)
Definition DataFrame : Type := list Bar.

Definition closes (data : DataFrame) : list float64 :=
  map (fun b => Fin (bar_close b)) data.

Definition volumes (data : DataFrame) : list float64 :=
  map (fun b => Fin (bar_volume b)) data.

(** [Series.dropna()] *)
Definition dropna (xs : list float64) : list float64 :=
  filter (fun x => Float.is_nan x = false) xs.

(** [Series.pct_change()] on a series without missing values:
    [x / x.shift(1) - 1], the first entry missing. *)
Fixpoint pct_change_from (prev : float64) (xs : list float64) : list float64 :=
  match xs with
  | [] => []
  | x :: rest => (x / prev - Fin 1)%fl :: pct_change_from x rest
  end.

Definition pct_change (xs : list float64) : list float64 :=
  match xs with
  | [] => []
  | x :: rest => NaN :: pct_change_from x rest
  end.

Definition fsum (xs : list float64) : float64 :=
  fold_left Float.add xs (Fin 0).

Definition count (xs : list float64) : float64 :=
  Float.of_Z (Z.of_nat (length xs)).

(** [Series.mean()]: missing values skipped, NaN when nothing is left. *)
Definition mean (xs : list float64) : float64 :=
  let vals := dropna xs in
  match vals with
  | [] => NaN
  | _ => (fsum vals / count vals)%fl
  end.

(** [Series.var()] with the default [ddof=1]: NaN below two values. *)
Definition var (xs : list float64) : float64 :=
  let vals := dropna xs in
  if (length vals <=? 1)%nat then NaN
  else
    let avg := (fsum vals / count vals)%fl in
    let sqr := fsum (map (fun x => ((avg - x) * (avg - x))%fl) vals) in
    (sqr / (count vals - Fin 1))%fl.

(** Labelled matrices (correlation matrices): the row labels and, per
    column label, one value per row. *)
Record Frame : Type := {
  frame_index : list string;
  frame_columns : list (string * list float64)
}.

Definition index_of (label : string) (labels : list string) : option nat :=
  list_find (String.eqb label) labels ≫= (fun p => Some (fst p)).

Definition frame_cell (f : Frame) (col row : string) : option float64 :=
  match list_find (fun c => String.eqb col (fst c)) (frame_columns f) with
  | Some (_, (_, cells)) =>
      match index_of row (frame_index f) with
      | Some i => cells !! i
      | None => None
      end
  | None => None
  end.

(** Outer join of two label lists. *)
Definition union_labels (a b : list string) : list string :=
  a ++ filter (fun l => negb (existsb (String.eqb l) a)) b.

(** [a - b] on frames: aligned on both axes, a cell missing on either side
    is NaN. *)
Definition frame_sub (a b : Frame) : Frame :=
  let rows := union_labels (frame_index a) (frame_index b) in
  let cols := union_labels (map fst (frame_columns a)) (map fst (frame_columns b)) in
  {| frame_index := rows;
     frame_columns :=
       map (fun c =>
              (c, map (fun r =>
                         match frame_cell a c r, frame_cell b c r with
                         | Some x, Some y => (x - y)%fl
                         | _, _ => NaN
                         end) rows)) cols |}.

(** [np.abs(f)] *)
Definition frame_abs (f : Frame) : Frame :=
  {| frame_index := frame_index f;
     frame_columns := map (fun c => (fst c, map Float.abs (snd c))) (frame_columns f) |}.

(** [f.mean()]: the mean of every column. *)
Definition frame_mean (f : Frame) : list float64 :=
  map (fun c => mean (snd c)) (frame_columns f).

(** ** Alerts and events

    The dictionaries the detector builds, as records; a timestamp stands
    for its ISO rendering. *)

Record Alert : Type := {
  alert_type : string;
  alert_symbol : option string;
  alert_timestamp : datetime;
  alert_severity : float64;
  alert_details : list (string * float64)
}.

Record Event : Type := {
  event_title : string;
  event_message : string;
  event_severity : float64;
  event_timestamp : datetime;
  event_details : list Alert
}.

(** What a notification callback can see of the detector when it runs. *)
Record GateSnapshot : Type := {
  seen_events : list Event;
  seen_last_alert_time : option datetime;
  seen_alert_count_today : Z
}.

Inductive CallbackOutcome : Type :=
  | Returns
  | RaisesException.

Record Callback : Type := {
  callback_id : nat;
  callback_run : GateSnapshot -> Event -> CallbackOutcome
}.

Inductive Effect : Type :=
  | Invoked (id : nat) (event : Event) (seen : GateSnapshot) (outcome : CallbackOutcome)
  | Slept (seconds : Z).

(** ** The data pipeline *)

Inductive FetchResult : Type :=
  | Fetched (data : option DataFrame)
  | FetchRaised (message : string).

(** The pipeline object; the first argument numbers the request, so that
    answers may change from one request to the next. *)
Record DataPipeline : Type := {
  get_crypto_data : nat -> string -> FetchResult;
  fetch_crypto_data : nat -> string -> date -> date -> FetchResult
}.

(** ** The environment *)

Class External : Type := {
  (** the wall clock: the reading of the n-th [datetime.now()] call *)
  clock : nat -> datetime;
  np_sqrt : float64 -> float64;
  (** [Series.quantile(q)] *)
  quantile : list float64 -> Q -> float64;
  (** [pd.DataFrame(price_data)] (followed by [dropna()] when the flag is
      set) [.pct_change().dropna().corr()]; [None] when pandas raises *)
  returns_corr : bool -> PyDict (list (datetime * Q)) -> option Frame;
  (** the format [{:.2f}] *)
  format_2f : float64 -> string;
  (** whether matplotlib and seaborn draw the heat maps of these matrices
      without raising *)
  plot_drawn : list Frame -> bool
}.

(** ** The detector object *)

(** The values [__init__] reads from the configuration; no method assigns
    to them afterwards. *)
Record Config : Type := {
  volatility_threshold : Q;
  volume_threshold : Q;
  correlation_threshold : Q;
  news_sentiment_threshold : Q;
  check_interval : Z;
  watch_list : list string;
  historical_lookback_days : Z;
  volatility_window : Z;
  volume_window : Z;
  max_alerts_per_day : Z;
  alert_cooldown_minutes : Z
}.

(** [config.get(key, default)] on an empty configuration. *)
Definition default_config : Config := {|
  volatility_threshold := 3.5;
  volume_threshold := 5.0;
  correlation_threshold := 0.85;
  news_sentiment_threshold := -0.6;
  check_interval := 300;
  watch_list := ["BTC/USDT:USDT"; "ETH/USDT:USDT"; "BNB/USDT:USDT"; "SOL/USDT:USDT"];
  historical_lookback_days := 365;
  volatility_window := 20;
  volume_window := 20;
  max_alerts_per_day := 3;
  alert_cooldown_minutes := 60
|}.

Record Percentiles : Type := {
  returns_1 : float64;
  returns_5 : float64;
  returns_95 : float64;
  returns_99 : float64;
  volume_95 : float64;
  volume_99 : float64
}.

Record Stats : Type := {
  mean_returns : float64;
  std_returns : float64;
  mean_volume : float64;
  std_volume : float64;
  percentiles : Percentiles
}.

Record Detector : Type := {
  cfg : Config;
  is_monitoring : bool;
  last_check_time : option datetime;
  last_alert_time : option datetime;
  alert_count_today : Z;
  reset_date : date;
  data_pipeline : option DataPipeline;
  notification_callbacks : list Callback;
  detected_events : list Event;
  max_event_history : Z;
  historical_data : PyDict DataFrame;
  historical_stats : gmap string Stats;
  (** [None]: the attribute does not exist ([hasattr] is false) *)
  correlation_matrix : option Frame
}.

Definition set_is_monitoring (v : bool) (d : Detector) : Detector :=
  {| cfg := cfg d; is_monitoring := v; last_check_time := last_check_time d;
     last_alert_time := last_alert_time d; alert_count_today := alert_count_today d;
     reset_date := reset_date d; data_pipeline := data_pipeline d;
     notification_callbacks := notification_callbacks d;
     detected_events := detected_events d; max_event_history := max_event_history d;
     historical_data := historical_data d; historical_stats := historical_stats d;
     correlation_matrix := correlation_matrix d |}.

Definition set_last_check_time (v : option datetime) (d : Detector) : Detector :=
  {| cfg := cfg d; is_monitoring := is_monitoring d; last_check_time := v;
     last_alert_time := last_alert_time d; alert_count_today := alert_count_today d;
     reset_date := reset_date d; data_pipeline := data_pipeline d;
     notification_callbacks := notification_callbacks d;
     detected_events := detected_events d; max_event_history := max_event_history d;
     historical_data := historical_data d; historical_stats := historical_stats d;
     correlation_matrix := correlation_matrix d |}.

Definition set_last_alert_time (v : option datetime) (d : Detector) : Detector :=
  {| cfg := cfg d; is_monitoring := is_monitoring d; last_check_time := last_check_time d;
     last_alert_time := v; alert_count_today := alert_count_today d;
     reset_date := reset_date d; data_pipeline := data_pipeline d;
     notification_callbacks := notification_callbacks d;
     detected_events := detected_events d; max_event_history := max_event_history d;
     historical_data := historical_data d; historical_stats := historical_stats d;
     correlation_matrix := correlation_matrix d |}.

Definition set_alert_count_today (v : Z) (d : Detector) : Detector :=
  {| cfg := cfg d; is_monitoring := is_monitoring d; last_check_time := last_check_time d;
     last_alert_time := last_alert_time d; alert_count_today := v;
     reset_date := reset_date d; data_pipeline := data_pipeline d;
     notification_callbacks := notification_callbacks d;
     detected_events := detected_events d; max_event_history := max_event_history d;
     historical_data := historical_data d; historical_stats := historical_stats d;
     correlation_matrix := correlation_matrix d |}.

Definition set_reset_date (v : date) (d : Detector) : Detector :=
  {| cfg := cfg d; is_monitoring := is_monitoring d; last_check_time := last_check_time d;
     last_alert_time := last_alert_time d; alert_count_today := alert_count_today d;
     reset_date := v; data_pipeline := data_pipeline d;
     notification_callbacks := notification_callbacks d;
     detected_events := detected_events d; max_event_history := max_event_history d;
     historical_data := historical_data d; historical_stats := historical_stats d;
     correlation_matrix := correlation_matrix d |}.

Definition set_data_pipeline_field (v : option DataPipeline) (d : Detector) : Detector :=
  {| cfg := cfg d; is_monitoring := is_monitoring d; last_check_time := last_check_time d;
     last_alert_time := last_alert_time d; alert_count_today := alert_count_today d;
     reset_date := reset_date d; data_pipeline := v;
     notification_callbacks := notification_callbacks d;
     detected_events := detected_events d; max_event_history := max_event_history d;
     historical_data := historical_data d; historical_stats := historical_stats d;
     correlation_matrix := correlation_matrix d |}.

Definition set_notification_callbacks (v : list Callback) (d : Detector) : Detector :=
  {| cfg := cfg d; is_monitoring := is_monitoring d; last_check_time := last_check_time d;
     last_alert_time := last_alert_time d; alert_count_today := alert_count_today d;
     reset_date := reset_date d; data_pipeline := data_pipeline d;
     notification_callbacks := v;
     detected_events := detected_events d; max_event_history := max_event_history d;
     historical_data := historical_data d; historical_stats := historical_stats d;
     correlation_matrix := correlation_matrix d |}.

Definition set_detected_events (v : list Event) (d : Detector) : Detector :=
  {| cfg := cfg d; is_monitoring := is_monitoring d; last_check_time := last_check_time d;
     last_alert_time := last_alert_time d; alert_count_today := alert_count_today d;
     reset_date := reset_date d; data_pipeline := data_pipeline d;
     notification_callbacks := notification_callbacks d;
     detected_events := v; max_event_history := max_event_history d;
     historical_data := historical_data d; historical_stats := historical_stats d;
     correlation_matrix := correlation_matrix d |}.

Definition set_historical_data (v : PyDict DataFrame) (d : Detector) : Detector :=
  {| cfg := cfg d; is_monitoring := is_monitoring d; last_check_time := last_check_time d;
     last_alert_time := last_alert_time d; alert_count_today := alert_count_today d;
     reset_date := reset_date d; data_pipeline := data_pipeline d;
     notification_callbacks := notification_callbacks d;
     detected_events := detected_events d; max_event_history := max_event_history d;
     historical_data := v; historical_stats := historical_stats d;
     correlation_matrix := correlation_matrix d |}.

Definition set_historical_stats (v : gmap string Stats) (d : Detector) : Detector :=
  {| cfg := cfg d; is_monitoring := is_monitoring d; last_check_time := last_check_time d;
     last_alert_time := last_alert_time d; alert_count_today := alert_count_today d;
     reset_date := reset_date d; data_pipeline := data_pipeline d;
     notification_callbacks := notification_callbacks d;
     detected_events := detected_events d; max_event_history := max_event_history d;
     historical_data := historical_data d; historical_stats := v;
     correlation_matrix := correlation_matrix d |}.

Definition set_correlation_matrix (v : option Frame) (d : Detector) : Detector :=
  {| cfg := cfg d; is_monitoring := is_monitoring d; last_check_time := last_check_time d;
     last_alert_time := last_alert_time d; alert_count_today := alert_count_today d;
     reset_date := reset_date d; data_pipeline := data_pipeline d;
     notification_callbacks := notification_callbacks d;
     detected_events := detected_events d; max_event_history := max_event_history d;
     historical_data := historical_data d; historical_stats := historical_stats d;
     correlation_matrix := v |}.

(** [__init__]; [today] is [datetime.now().date()]. *)
Definition __init__ (config : Config) (today : date) : Detector := {|
  cfg := config;
  is_monitoring := false;
  last_check_time := None;
  last_alert_time := None;
  alert_count_today := 0;
  reset_date := today;
  data_pipeline := None;
  notification_callbacks := [];
  detected_events := [];
  max_event_history := 100;
  historical_data := [];
  historical_stats := ∅;
  correlation_matrix := None
|}.

Definition snapshot (d : Detector) : GateSnapshot := {|
  seen_events := detected_events d;
  seen_last_alert_time := last_alert_time d;
  seen_alert_count_today := alert_count_today d
|}.

(** ** The world and its monad *)

Record World : Type := {
  self : Detector;
  now_calls : nat;
  requests : nat;
  trace : list Effect
}.

Definition M (A : Type) : Type := World -> A * World.

Definition ret {A : Type} (a : A) : M A := fun w => (a, w).

Definition bind {A B : Type} (m : M A) (k : A -> M B) : M B :=
  fun w => let (a, w') := m w in k a w'.

Notation "'let*' x := m 'in' k" := (bind m (fun x => k))
  (at level 10, x name, m at level 100, k at level 200).
Notation "m ;; k" := (bind m (fun _ => k))
  (at level 100, k at level 200, right associativity).

Definition get_self : M Detector := fun w => (self w, w).

(** An assignment to attributes of [self]. *)
Definition assign (f : Detector -> Detector) : M unit :=
  fun w => (tt, {| self := f (self w); now_calls := now_calls w;
                   requests := requests w; trace := trace w |}).

Definition emit (e : Effect) : M unit :=
  fun w => (tt, {| self := self w; now_calls := now_calls w;
                   requests := requests w; trace := trace w ++ [e] |}).

(** The number of the next pipeline request. *)
Definition next_request : M nat :=
  fun w => (requests w, {| self := self w; now_calls := now_calls w;
                           requests := S (requests w); trace := trace w |}).

(** A loop over a list that threads an accumulator. *)
Fixpoint for_each {A B : Type} (xs : list A) (acc : B) (body : B -> A -> M B) : M B :=
  match xs with
  | [] => ret acc
  | x :: rest => let* acc' := body acc x in for_each rest acc' body
  end.

Definition run {A : Type} (m : M A) (w : World) : World := snd (m w).
Definition result {A : Type} (m : M A) (w : World) : A := fst (m w).

(** ** The methods of [BlackSwanDetector] *)

Section Methods.

Context {ext : External}.

(** [datetime.now()] *)
Definition now : M datetime :=
  fun w => (clock (now_calls w),
            {| self := self w; now_calls := S (now_calls w);
               requests := requests w; trace := trace w |}).

(** [time.sleep(seconds)] *)
Definition sleep (seconds : Z) : M unit := emit (Slept seconds).

(** [callback(event)]: the callback runs against the detector as it is at
    the moment of the call. *)
Definition invoke (callback : Callback) (event : Event) : M unit :=
  let* d := get_self in
  let seen := snapshot d in
  emit (Invoked (callback_id callback) event seen (callback_run callback seen event)).

(** [Series.std()] *)
Definition std (xs : list float64) : float64 := np_sqrt (var xs).

Definition set_data_pipeline (pipeline : option DataPipeline) : M unit :=
  assign (set_data_pipeline_field pipeline).

Definition register_notification_callback (callback : Callback) : M unit :=
  assign (fun d => set_notification_callbacks (notification_callbacks d ++ [callback]) d).

Definition _calculate_severity (d : Detector) (alert_type : string) (value : float64) : float64 :=
  if String.eqb alert_type "volatility" then
    py_min2 (Fin 1) (py_max2 (Fin 0)
      ((value - Fin (volatility_threshold (cfg d))) / Fin (2 * volatility_threshold (cfg d)))%fl)
  else if String.eqb alert_type "volume" then
    py_min2 (Fin 1) (py_max2 (Fin 0)
      ((value - Fin (volume_threshold (cfg d))) / Fin (3 * volume_threshold (cfg d)))%fl)
  else if String.eqb alert_type "correlation" then
    let threshold := (1 - correlation_threshold (cfg d))%Q in
    py_min2 (Fin 1) (py_max2 (Fin 0) ((value - Fin threshold) / Fin (1 - threshold))%fl)
  else Fin 0.

(** The two volatilities whose ratio [_check_volatility] compares with the
    threshold. *)
Definition current_volatility (data : DataFrame) : float64 :=
  (std (dropna (pct_change (closes data))) * np_sqrt (Fin 24))%fl.

Definition historical_volatility (stats : Stats) : float64 :=
  (std_returns stats * np_sqrt (Fin 252))%fl.

Definition volatility_alert (d : Detector) (symbol : string) (data : DataFrame)
    (stats : Stats) (timestamp : datetime) : Alert :=
  let volatility_ratio := (current_volatility data / historical_volatility stats)%fl in
  {| alert_type := "volatility";
     alert_symbol := Some symbol;
     alert_timestamp := timestamp;
     alert_severity := _calculate_severity d "volatility" volatility_ratio;
     alert_details :=
       [("current_volatility", current_volatility data);
        ("historical_volatility", historical_volatility stats);
        ("volatility_ratio", volatility_ratio);
        ("threshold", Fin (volatility_threshold (cfg d)))] |}.

(** No statement of the loop body raises on an OHLCV frame, so the
    [except] branch has no counterpart here. *)
Definition _check_volatility (current_data : PyDict DataFrame) : M (list Alert) :=
  for_each current_data [] (fun alerts item =>
    let symbol := fst item in
    let data := snd item in
    let* d := get_self in
    match historical_stats d !! symbol with
    | Some stats =>
        let volatility_ratio := (current_volatility data / historical_volatility stats)%fl in
        if (volatility_ratio >? Fin (volatility_threshold (cfg d)))%fl then
          let* timestamp := now in
          ret (alerts ++ [volatility_alert d symbol data stats timestamp])
        else ret alerts
    | None => ret alerts
    end).

Definition volume_alert (d : Detector) (symbol : string) (current_volume : float64)
    (stats : Stats) (timestamp : datetime) : Alert :=
  let volume_ratio := (current_volume / mean_volume stats)%fl in
  {| alert_type := "volume";
     alert_symbol := Some symbol;
     alert_timestamp := timestamp;
     alert_severity := _calculate_severity d "volume" volume_ratio;
     alert_details :=
       [("current_volume", current_volume);
        ("historical_avg_volume", mean_volume stats);
        ("volume_ratio", volume_ratio);
        ("threshold", Fin (volume_threshold (cfg d)))] |}.

Definition _check_volume (current_data : PyDict DataFrame) : M (list Alert) :=
  for_each current_data [] (fun alerts item =>
    let symbol := fst item in
    let data := snd item in
    let* d := get_self in
    match last (volumes data) with
    | None => ret alerts  (* [iloc[-1]] raises IndexError, which is caught *)
    | Some current_volume =>
        match historical_stats d !! symbol with
        | Some stats =>
            let volume_ratio := (current_volume / mean_volume stats)%fl in
            if (volume_ratio >? Fin (volume_threshold (cfg d)))%fl then
              let* timestamp := now in
              ret (alerts ++ [volume_alert d symbol current_volume stats timestamp])
            else ret alerts
        | None => ret alerts
        end
    end).

(** The [close] column of a frame, indexed by time. *)
Definition close_series (data : DataFrame) : list (datetime * Q) :=
  map (fun b => (bar_time b, bar_close b)) data.

(** The [price_data] dictionary both correlation computations build. *)
Definition price_data_of (items : PyDict DataFrame) : PyDict (list (datetime * Q)) :=
  fold_left (fun price_data item =>
               dict_set (clean_symbol (fst item)) (close_series (snd item)) price_data)
            items [].

(** [np.abs(current_corr - baseline).mean().mean()] *)
Definition correlation_change_of (current_corr baseline : Frame) : float64 :=
  mean (frame_mean (frame_abs (frame_sub current_corr baseline))).

Definition correlation_alert (d : Detector) (correlation_change : float64)
    (timestamp : datetime) : Alert :=
  {| alert_type := "correlation";
     alert_symbol := None;
     alert_timestamp := timestamp;
     alert_severity := _calculate_severity d "correlation" correlation_change;
     alert_details :=
       [("correlation_change", correlation_change);
        ("threshold", Fin (1 - correlation_threshold (cfg d)))] |}.

(** [_save_correlation_plot] and [_save_correlation_breakdown_plot]: the
    heat maps are drawn first, then the clock is read for the name of the
    file; an exception of the drawing is caught and logged. *)
Definition _save_correlation_plot : M unit :=
  let* d := get_self in
  match correlation_matrix d with
  | Some matrix => if plot_drawn [matrix] then now ;; ret tt else ret tt
  | None => ret tt
  end.

Definition _save_correlation_breakdown_plot (current_corr : Frame) : M unit :=
  let* d := get_self in
  match correlation_matrix d with
  | Some baseline => if plot_drawn [baseline; current_corr] then now ;; ret tt else ret tt
  | None => ret tt
  end.

Definition _check_correlation_breakdown (current_data : PyDict DataFrame) : M (list Alert) :=
  let* d := get_self in
  if (length current_data <? 2)%nat || negb (bool_decide (is_Some (correlation_matrix d)))
  then ret []
  else
    match returns_corr false (price_data_of current_data) with
    | None => ret []  (* an exception, caught and logged *)
    | Some current_corr =>
        match correlation_matrix d with
        | Some baseline =>
            let correlation_change := correlation_change_of current_corr baseline in
            if (correlation_change >? Fin (1 - correlation_threshold (cfg d)))%fl then
              let* timestamp := now in
              let alerts := [correlation_alert d correlation_change timestamp] in
              _save_correlation_breakdown_plot current_corr ;;
              ret alerts
            else ret []
        | None => ret []
        end
    end.

Definition combined_alert_of (alerts : list Alert) (timestamp : datetime) : Event :=
  let max_severity := py_max (map alert_severity alerts) (Fin 0) in
  {| event_title := "Black Swan Event erkannt";
     event_message :=
       ("Ungewöhnliche Marktaktivität mit Schweregrad " ++ format_2f max_severity
          ++ " erkannt")%string;
     event_severity := max_severity;
     event_timestamp := timestamp;
     event_details := alerts |}.

Definition _handle_alerts (alerts : list Alert) : M unit :=
  let* d := get_self in
  if alert_count_today d >=? max_alerts_per_day (cfg d) then ret tt
  else
    let* in_cooldown :=
      match last_alert_time d with
      | Some last =>
          let cooldown_end := last + timedelta_minutes (alert_cooldown_minutes (cfg d)) in
          let* t := now in
          ret (t <? cooldown_end)
      | None => ret false
      end in
    if in_cooldown then ret tt
    else
      let* timestamp := now in
      let combined_alert := combined_alert_of alerts timestamp in
      assign (fun d => set_detected_events (detected_events d ++ [combined_alert]) d) ;;
      let* d := get_self in
      (if Z.of_nat (length (detected_events d)) >? max_event_history d
       then assign (fun d => set_detected_events
                               (slice_last (max_event_history d) (detected_events d)) d)
       else ret tt) ;;
      let* t := now in
      assign (set_last_alert_time (Some t)) ;;
      assign (fun d => set_alert_count_today (alert_count_today d + 1) d) ;;
      let* d := get_self in
      for_each (notification_callbacks d) tt (fun _ callback =>
        invoke callback combined_alert).

(** The requests of one tick: [None] once a request has raised, which
    leaves the [try] block. *)
Definition fetch_current_data (pipeline : DataPipeline) (symbols : list string)
    : M (option (PyDict DataFrame)) :=
  for_each symbols (Some []) (fun fetched symbol =>
    match fetched with
    | None => ret None
    | Some current_data =>
        let* n := next_request in
        match get_crypto_data pipeline n (base_symbol symbol) with
        | FetchRaised _ => ret None
        | Fetched (Some ((_ :: _) as data)) => ret (Some (dict_set symbol data current_data))
        | Fetched _ => ret (Some current_data)
        end
    end).

Definition _check_market_conditions : M unit :=
  let* d := get_self in
  match data_pipeline d with
  | None => ret tt
  | Some pipeline =>
      let* fetched := fetch_current_data pipeline (watch_list (cfg d)) in
      match fetched with
      | None => ret tt  (* the exception is caught and logged *)
      | Some current_data =>
          let* volatility_alerts := _check_volatility current_data in
          let* volume_alerts := _check_volume current_data in
          let* correlation_alerts := _check_correlation_breakdown current_data in
          let alerts := volatility_alerts ++ volume_alerts ++ correlation_alerts in
          match alerts with
          | [] => ret tt
          | _ :: _ => _handle_alerts alerts
          end
      end
  end.

(** The body of the [while] loop of [_monitoring_loop], in its three
    blocks.  First the reset of the alert counter at midnight. *)
Definition reset_alert_counter : M unit :=
  let* t := now in
  let current_date := date_of t in
  let* d := get_self in
  if current_date >? reset_date d
  then assign (set_alert_count_today 0) ;; assign (set_reset_date current_date)
  else ret tt.

(** Last the update of [last_check_time] and the wait for the next check.
    Of the statements of the loop body only [time.sleep] can raise (on a
    negative interval); the handler then sleeps for 60 seconds. *)
Definition record_check_and_wait : M unit :=
  let* t := now in
  assign (set_last_check_time (Some t)) ;;
  let* d := get_self in
  if check_interval (cfg d) <? 0 then sleep 60 else sleep (check_interval (cfg d)).

(** One pass through the loop body. *)
Definition loop_iteration : M unit :=
  reset_alert_counter ;;
  _check_market_conditions ;;
  record_check_and_wait.

(** [_monitoring_loop], cut off after [fuel] iterations: the flag is only
    cleared by [stop_monitoring], from another thread. *)
Fixpoint _monitoring_loop (fuel : nat) : M unit :=
  match fuel with
  | O => ret tt
  | S fuel' =>
      let* d := get_self in
      if is_monitoring d then loop_iteration ;; _monitoring_loop fuel' else ret tt
  end.

Definition historical_stats_of (data : DataFrame) : Stats :=
  let returns := pct_change (closes data) in
  {| mean_returns := mean returns;
     std_returns := std returns;
     mean_volume := mean (volumes data);
     std_volume := std (volumes data);
     percentiles :=
       {| returns_1 := quantile returns 0.01;
          returns_5 := quantile returns 0.05;
          returns_95 := quantile returns 0.95;
          returns_99 := quantile returns 0.99;
          volume_95 := quantile (volumes data) 0.95;
          volume_99 := quantile (volumes data) 0.99 |} |}.

Definition _calculate_correlations : M unit :=
  let* d := get_self in
  match returns_corr true (price_data_of (historical_data d)) with
  | Some matrix => assign (set_correlation_matrix (Some matrix)) ;; _save_correlation_plot
  | None => ret tt  (* an exception, caught and logged *)
  end.

Definition _load_historical_reference_data : M unit :=
  let* d := get_self in
  match data_pipeline d with
  | None => ret tt
  | Some pipeline =>
      let* t_end := now in
      let end_date := date_of t_end in
      let* t_start := now in
      let start_date :=
        date_of (t_start - historical_lookback_days (cfg d) * microseconds_per_day) in
      let* completed :=
        for_each (watch_list (cfg d)) true (fun running symbol =>
          if running then
            let* n := next_request in
            match fetch_crypto_data pipeline n (base_symbol symbol) start_date end_date with
            | FetchRaised _ => ret false
            | Fetched (Some ((_ :: _) as data)) =>
                assign (fun d => set_historical_data (dict_set symbol data (historical_data d)) d) ;;
                assign (fun d => set_historical_stats
                                   (<[symbol := historical_stats_of data]> (historical_stats d)) d) ;;
                ret true
            | Fetched _ => ret true
            end
          else ret false) in
      if completed then
        let* d := get_self in
        if (1 <? length (historical_data d))%nat then _calculate_correlations else ret tt
      else ret tt
  end.

(** The monitoring thread itself is not started here: its iterations are
    [loop_iteration] steps of their own. *)
Definition start_monitoring : M bool :=
  let* d := get_self in
  if is_monitoring d then ret false
  else
    assign (set_is_monitoring true) ;;
    _load_historical_reference_data ;;
    ret true.

Definition stop_monitoring : M bool :=
  let* d := get_self in
  if negb (is_monitoring d) then ret false
  else assign (set_is_monitoring false) ;; ret true.

Definition get_event_history : M (list Event) :=
  let* d := get_self in ret (detected_events d).

(** *** The manual check *)

Record CheckReport : Type := {
  report_symbol : string;
  current_price : float64;
  price_change_24h : option float64;
  atr : float64;
  volatility : float64;
  report_alerts : list Alert;
  alert_count : Z;
  report_timestamp : datetime;
  (** the two keys below are absent unless the gate would suppress *)
  notification_suppressed : option bool;
  suppression_reason : option string
}.

Inductive CheckResult : Type :=
  | CheckError (message : string)
  | CheckSuccess (report : CheckReport).

(** [xs[-n]] *)
Definition from_end {A : Type} (n : nat) (xs : list A) : option A :=
  if (length xs <? n)%nat then None else xs !! (length xs - n)%nat.

(** The true range of every row: the largest of high-low, |high - previous
    close| and |low - previous close|, the last two missing in the first
    row ([DataFrame.max(axis=1)] skips missing values). *)
Fixpoint true_range_from (prev_close : option Q) (data : DataFrame) : list float64 :=
  match data with
  | [] => []
  | b :: rest =>
      let high_low := (Fin (bar_high b) - Fin (bar_low b))%fl in
      let row :=
        match prev_close with
        | None => [high_low]
        | Some c => [high_low; Float.abs (Fin (bar_high b) - Fin c)%fl;
                     Float.abs (Fin (bar_low b) - Fin c)%fl]
        end in
      py_max row NaN :: true_range_from (Some (bar_close b)) rest
  end.

(** [series.rolling(window=14).mean().iloc[-1]] on a series without
    missing values: NaN below 14 rows. *)
Definition last_rolling_mean_14 (xs : list float64) : float64 :=
  if (length xs <? 14)%nat then NaN else mean (skipn (length xs - 14) xs).

Definition price_change_24h_of (data : DataFrame) : option float64 :=
  if (24 <=? length data)%nat then
    match last (closes data), from_end 24 (closes data) with
    | Some c, Some c24 => Some ((c / c24 - Fin 1) * Fin 100)%fl
    | _, _ => None
    end
  else None.

(** Whether a notification would be suppressed right now, and why. *)
Definition suppression (alerts : list Alert) : M (option string) :=
  let* d := get_self in
  match alerts with
  | [] => ret None
  | _ :: _ =>
      if alert_count_today d >=? max_alerts_per_day (cfg d) then ret (Some "daily_limit")
      else
        match last_alert_time d with
        | Some last =>
            let* t := now in
            if t <? last + timedelta_minutes (alert_cooldown_minutes (cfg d))
            then ret (Some "cooldown") else ret None
        | None => ret None
        end
  end.

Definition manual_check (symbol : string) : M CheckResult :=
  let* d := get_self in
  match data_pipeline d with
  | None => ret (CheckError "Keine Datenpipeline verfügbar")
  | Some pipeline =>
      let* n := next_request in
      match get_crypto_data pipeline n (base_symbol symbol) with
      | FetchRaised e => ret (CheckError ("Fehler: " ++ e)%string)
      | Fetched None | Fetched (Some []) =>
          ret (CheckError ("Keine Daten für " ++ symbol ++ " verfügbar")%string)
      | Fetched (Some ((first :: others) as data)) =>
          let current_data := [(symbol, data)] in
          let* volatility_alerts := _check_volatility current_data in
          let* volume_alerts := _check_volume current_data in
          let alerts := volatility_alerts ++ volume_alerts in
          let* timestamp := now in
          let* reason := suppression alerts in
          ret (CheckSuccess
                 {| report_symbol := symbol;
                    current_price := Fin (bar_close (List.last others first));
                    price_change_24h := price_change_24h_of data;
                    atr := last_rolling_mean_14 (true_range_from None data);
                    volatility := (std (pct_change (closes data)) * np_sqrt (Fin 24))%fl;
                    report_alerts := alerts;
                    alert_count := Z.of_nat (length alerts);
                    report_timestamp := timestamp;
                    notification_suppressed :=
                      match reason with Some _ => Some true | None => None end;
                    suppression_reason := reason |})
      end
  end.

(** ** The states the detector can reach *)

Inductive Call : Type :=
  | call_set_data_pipeline (pipeline : option DataPipeline)
  | call_register_notification_callback (callback : Callback)
  | call_start_monitoring
  | call_stop_monitoring
  | call_loop_iteration
  | call_load_historical_reference_data
  | call_check_market_conditions
  | call_handle_alerts (alerts : list Alert)
  | call_manual_check (symbol : string)
  | call_get_event_history.

Definition perform (c : Call) : M unit :=
  match c with
  | call_set_data_pipeline pipeline => set_data_pipeline pipeline
  | call_register_notification_callback callback => register_notification_callback callback
  | call_start_monitoring => start_monitoring ;; ret tt
  | call_stop_monitoring => stop_monitoring ;; ret tt
  | call_loop_iteration => loop_iteration
  | call_load_historical_reference_data => _load_historical_reference_data
  | call_check_market_conditions => _check_market_conditions
  | call_handle_alerts alerts => _handle_alerts alerts
  | call_manual_check symbol => manual_check symbol ;; ret tt
  | call_get_event_history => get_event_history ;; ret tt
  end.

(** The world after [BlackSwanDetector(config)], whose constructor reads
    the clock once. *)
Definition initial_world (config : Config) : World :=
  {| self := __init__ config (date_of (clock 0));
     now_calls := 1; requests := 0; trace := [] |}.

Inductive reachable : World -> Prop :=
  | reachable_init (config : Config) : reachable (initial_world config)
  | reachable_call (w : World) (c : Call) : reachable w -> reachable (run (perform c) w).

End Methods.

(** ** The status report *)

Record Thresholds : Type := {
  thresholds_volatility : Q;
  thresholds_volume : Q;
  thresholds_correlation : Q
}.

(** The dictionary [get_current_status] returns. *)
Record Status : Type := {
  status_is_monitoring : bool;
  status_last_check_time : option datetime;
  status_last_alert_time : option datetime;
  status_alert_count_today : Z;
  status_max_alerts_per_day : Z;
  status_watch_list : list string;
  status_event_count : nat;
  status_high_severity_count : nat;
  status_thresholds : Thresholds
}.

Definition get_current_status : M Status :=
  let* d := get_self in
  ret {| status_is_monitoring := is_monitoring d;
         status_last_check_time := last_check_time d;
         status_last_alert_time := last_alert_time d;
         status_alert_count_today := alert_count_today d;
         status_max_alerts_per_day := max_alerts_per_day (cfg d);
         status_watch_list := watch_list (cfg d);
         status_event_count := length (detected_events d);
         status_high_severity_count :=
           length (List.filter (fun event => (event_severity event >? Fin 0.7)%fl)
                               (detected_events d));
         status_thresholds :=
           {| thresholds_volatility := volatility_threshold (cfg d);
              thresholds_volume := volume_threshold (cfg d);
              thresholds_correlation := correlation_threshold (cfg d) |} |}.

(** * The trading connector *)

(** [LiveTradingConnector] of [live_trading.py]: the token buckets of
    [_handle_rate_limit], the retries of [_execute_with_retry], the error
    handler and the orderbook cache. *)

Module Connector.

(** One entry of [rate_limits]. *)
Record RateLimit : Type := {
  limit : Z;
  remaining : Z;
  reset_time : datetime
}.

(** What a call of the exchange does: it returns, or raises one of ccxt's
    two families of errors, or another exception. *)
Inductive CallOutcome (R : Type) : Type :=
  | Result (r : R)
  | NetworkError (message : string)
  | ExchangeError (message : string)
  | OtherError (message : string).

Arguments Result {R} r.
Arguments NetworkError {R} message.
Arguments ExchangeError {R} message.
Arguments OtherError {R} message.

(** How a method of the connector ends: with a value ([None] included), or
    with an exception that leaves it.  The third case is the model's: a
    loop cut off by its fuel. *)
Inductive Outcome (R : Type) : Type :=
  | Returned (value : option R)
  | Escaped
  | OutOfFuel.

Arguments Returned {R} value.
Arguments Escaped {R}.
Arguments OutOfFuel {R}.

(** The dictionary an error callback is called with. *)
Record ErrorReport : Type := {
  report_timestamp : datetime;
  report_message : string;
  report_context : string;
  report_consecutive_errors : Z
}.

Record ErrorCallback : Type := {
  error_callback_id : nat;
  error_callback_run : ErrorReport -> CallbackOutcome
}.

(** The effects of the connector: the calls of error callbacks and the two
    calls of [time.sleep], the one of [_handle_rate_limit] and the one
    between two attempts of [_execute_with_retry]. *)
Inductive Effect : Type :=
  | Notified (id : nat) (report : ErrorReport) (outcome : CallbackOutcome)
  | Throttled (seconds : Q)
  | BackedOff (seconds : Q).

(** An orderbook as the exchange returns it: a dictionary that is never
    empty, so that it counts as true. *)
Record Orderbook : Type := {
  bids : list (Q * Q);
  asks : list (Q * Q)
}.

(** A position as the exchange returns it; the number of contracts may be
    missing ([None]). *)
Record Position : Type := {
  position_symbol : string;
  position_side : string;
  contracts : option Q
}.

(** [self.exchange], by the number of the call. *)
Record Exchange : Type := {
  fetch_order_book : nat -> string -> Z -> CallOutcome Orderbook;
  fetch_positions : nat -> CallOutcome (list Position)
}.

Record Connector : Type := {
  exchange : Exchange;
  is_ready : bool;
  is_trading_active : bool;
  error_count : Z;
  last_error_time : option datetime;
  consecutive_errors : Z;
  max_retry_attempts : Z;
  retry_delay : Q;
  cache_ttl : Q;
  rate_limits : gmap string RateLimit;
  orderbook_cache : gmap string (Orderbook * datetime);
  error_callbacks : list ErrorCallback
}.

Definition set_is_trading_active (v : bool) (c : Connector) : Connector :=
  {| exchange := exchange c; is_ready := is_ready c; is_trading_active := v;
     error_count := error_count c; last_error_time := last_error_time c;
     consecutive_errors := consecutive_errors c;
     max_retry_attempts := max_retry_attempts c; retry_delay := retry_delay c;
     cache_ttl := cache_ttl c; rate_limits := rate_limits c;
     orderbook_cache := orderbook_cache c; error_callbacks := error_callbacks c |}.

Definition set_error_count (v : Z) (c : Connector) : Connector :=
  {| exchange := exchange c; is_ready := is_ready c;
     is_trading_active := is_trading_active c;
     error_count := v; last_error_time := last_error_time c;
     consecutive_errors := consecutive_errors c;
     max_retry_attempts := max_retry_attempts c; retry_delay := retry_delay c;
     cache_ttl := cache_ttl c; rate_limits := rate_limits c;
     orderbook_cache := orderbook_cache c; error_callbacks := error_callbacks c |}.

Definition set_last_error_time (v : option datetime) (c : Connector) : Connector :=
  {| exchange := exchange c; is_ready := is_ready c;
     is_trading_active := is_trading_active c;
     error_count := error_count c; last_error_time := v;
     consecutive_errors := consecutive_errors c;
     max_retry_attempts := max_retry_attempts c; retry_delay := retry_delay c;
     cache_ttl := cache_ttl c; rate_limits := rate_limits c;
     orderbook_cache := orderbook_cache c; error_callbacks := error_callbacks c |}.

Definition set_consecutive_errors (v : Z) (c : Connector) : Connector :=
  {| exchange := exchange c; is_ready := is_ready c;
     is_trading_active := is_trading_active c;
     error_count := error_count c; last_error_time := last_error_time c;
     consecutive_errors := v;
     max_retry_attempts := max_retry_attempts c; retry_delay := retry_delay c;
     cache_ttl := cache_ttl c; rate_limits := rate_limits c;
     orderbook_cache := orderbook_cache c; error_callbacks := error_callbacks c |}.

Definition set_rate_limits (v : gmap string RateLimit) (c : Connector) : Connector :=
  {| exchange := exchange c; is_ready := is_ready c;
     is_trading_active := is_trading_active c;
     error_count := error_count c; last_error_time := last_error_time c;
     consecutive_errors := consecutive_errors c;
     max_retry_attempts := max_retry_attempts c; retry_delay := retry_delay c;
     cache_ttl := cache_ttl c; rate_limits := v;
     orderbook_cache := orderbook_cache c; error_callbacks := error_callbacks c |}.

Definition set_orderbook_cache (v : gmap string (Orderbook * datetime)) (c : Connector)
    : Connector :=
  {| exchange := exchange c; is_ready := is_ready c;
     is_trading_active := is_trading_active c;
     error_count := error_count c; last_error_time := last_error_time c;
     consecutive_errors := consecutive_errors c;
     max_retry_attempts := max_retry_attempts c; retry_delay := retry_delay c;
     cache_ttl := cache_ttl c; rate_limits := rate_limits c;
     orderbook_cache := v; error_callbacks := error_callbacks c |}.

(** ** The world and its monad *)

(** The connector, the number of readings of the clock and of calls of the
    exchange so far, and the effects so far. *)
Record World : Type := {
  self : Connector;
  now_calls : nat;
  calls : nat;
  trace : list Effect
}.

Definition M (A : Type) : Type := World -> A * World.

Definition ret {A : Type} (a : A) : M A := fun w => (a, w).

Definition bind {A B : Type} (m : M A) (k : A -> M B) : M B :=
  fun w => let (a, w') := m w in k a w'.

Declare Scope connector_scope.

Notation "'let*' x := m 'in' k" := (bind m (fun x => k))
  (at level 10, x name, m at level 100, k at level 200) : connector_scope.
Notation "m ;; k" := (bind m (fun _ => k))
  (at level 100, k at level 200, right associativity) : connector_scope.

Local Open Scope connector_scope.

Definition get_self : M Connector := fun w => (self w, w).

Definition assign (f : Connector -> Connector) : M unit :=
  fun w => (tt, {| self := f (self w); now_calls := now_calls w;
                   calls := calls w; trace := trace w |}).

Definition emit (e : Effect) : M unit :=
  fun w => (tt, {| self := self w; now_calls := now_calls w;
                   calls := calls w; trace := trace w ++ [e] |}).

(** The number of the next call of the exchange. *)
Definition next_call : M nat :=
  fun w => (calls w, {| self := self w; now_calls := now_calls w;
                        calls := S (calls w); trace := trace w |}).

Fixpoint for_each {A B : Type} (xs : list A) (acc : B) (body : B -> A -> M B) : M B :=
  match xs with
  | [] => ret acc
  | x :: rest => let* acc' := body acc x in for_each rest acc' body
  end.

Definition run {A : Type} (m : M A) (w : World) : World := snd (m w).
Definition result {A : Type} (m : M A) (w : World) : A := fst (m w).

(** [timedelta(seconds=1)] *)
Definition one_second : Z := 1000000.

(** [timedelta.total_seconds()] *)
Definition total_seconds (microseconds : Z) : Q := Qmake microseconds 1000000.

(** ** The methods *)

Section Methods.

Context {ext : External}.

(** [datetime.now()] *)
Definition now : M datetime :=
  fun w => (clock (now_calls w),
            {| self := self w; now_calls := S (now_calls w);
               calls := calls w; trace := trace w |}).

(** [self.rate_limits[rate_limit_type]] is a dictionary that the method
    changes in place: [store] writes the entry back. *)
Definition store (rate_limit_type : string) (rate_limit : RateLimit) : M unit :=
  assign (fun c => set_rate_limits (<[rate_limit_type := rate_limit]> (rate_limits c)) c).

Definition _handle_rate_limit (rate_limit_type : string) : M unit :=
  let* c := get_self in
  match rate_limits c !! rate_limit_type with
  | None => ret tt
  | Some rate_limit =>
      let* t := now in
      let* rate_limit :=
        if t >=? reset_time rate_limit then
          let refilled := {| limit := limit rate_limit; remaining := limit rate_limit;
                             reset_time := t + one_second |} in
          store rate_limit_type refilled ;; ret refilled
        else ret rate_limit in
      let* rate_limit :=
        if remaining rate_limit <=? 0 then
          let sleep_time := reset_time rate_limit - t in
          if sleep_time >? 0 then
            emit (Throttled (total_seconds sleep_time)) ;;
            let* t' := now in
            let refilled := {| limit := limit rate_limit; remaining := limit rate_limit;
                               reset_time := t' + one_second |} in
            store rate_limit_type refilled ;; ret refilled
          else ret rate_limit
        else ret rate_limit in
      store rate_limit_type
        {| limit := limit rate_limit; remaining := remaining rate_limit - 1;
           reset_time := reset_time rate_limit |}
  end.

(** [callback({...})] inside [try]: what the callback does is recorded. *)
Definition notify (callback : ErrorCallback) (report : ErrorReport) : M unit :=
  emit (Notified (error_callback_id callback) report (error_callback_run callback report)).

Definition _handle_error (exception : string) (context : string) : M unit :=
  assign (fun c => set_error_count (error_count c + 1) c) ;;
  let error_msg := (context ++ ": " ++ exception)%string in
  let* c := get_self in
  (if consecutive_errors c >=? 5 then assign (set_is_trading_active false) else ret tt) ;;
  let* c := get_self in
  for_each (error_callbacks c) tt (fun _ callback =>
    let* t := now in
    let* c := get_self in
    notify callback
      {| report_timestamp := t; report_message := error_msg; report_context := context;
         report_consecutive_errors := consecutive_errors c |}).

(** The two assignments that every [except] clause makes. *)
Definition count_error : M unit :=
  assign (fun c => set_consecutive_errors (consecutive_errors c + 1) c) ;;
  let* t := now in
  assign (set_last_error_time (Some t)).

(** The [while] loop of [_execute_with_retry], cut off after [fuel]
    passes.  [time.sleep] raises on a negative length; raised inside an
    [except] clause, the exception leaves the method. *)
Fixpoint retry_loop {R : Type} (fuel : nat) (func : nat -> CallOutcome R)
    (rate_limit_type : string) (attempts : Z) : M (Outcome R) :=
  let* c := get_self in
  if attempts <? max_retry_attempts c then
    match fuel with
    | O => ret OutOfFuel
    | S fuel' =>
        _handle_rate_limit rate_limit_type ;;
        let* n := next_call in
        match func n with
        | Result r =>
            assign (set_consecutive_errors 0) ;;
            ret (Returned (Some r))
        | NetworkError e =>
            let attempts := attempts + 1 in
            count_error ;;
            let* c := get_self in
            if attempts <? max_retry_attempts c then
              let seconds := (retry_delay c * inject_Z (2 ^ (attempts - 1)))%Q in
              if Float.Qltb seconds 0 then ret Escaped
              else
                emit (BackedOff seconds) ;;
                retry_loop fuel' func rate_limit_type attempts
            else
              _handle_error e "Maximale Wiederholungsversuche erreicht" ;;
              ret (Returned None)
        | ExchangeError e =>
            count_error ;;
            _handle_error e "Exchange-Fehler" ;;
            ret (Returned None)
        | OtherError e =>
            count_error ;;
            _handle_error e "Unerwarteter Fehler" ;;
            ret (Returned None)
        end
    end
  else ret (Returned None).

(** Every pass either returns or adds 1 to [attempts], so that
    [max_retry_attempts] passes are enough. *)
Definition _execute_with_retry {R : Type} (func : nat -> CallOutcome R)
    (rate_limit_type : string) : M (Outcome R) :=
  let* c := get_self in
  retry_loop (Z.to_nat (max_retry_attempts c)) func rate_limit_type 0.

Definition get_orderbook (symbol : string) (limit : Z) : M (Outcome Orderbook) :=
  let* t := now in
  let* c := get_self in
  let cached :=
    match orderbook_cache c !! symbol with
    | Some (data, timestamp) =>
        if Float.Qltb (total_seconds (t - timestamp)) (cache_ttl c) then Some data else None
    | None => None
    end in
  match cached with
  | Some data => ret (Returned (Some data))
  | None =>
      let* fetched :=
        _execute_with_retry (fun n => fetch_order_book (exchange c) n symbol limit)
                            "market_data" in
      match fetched with
      | Returned (Some orderbook) =>
          assign (fun c => set_orderbook_cache
                             (<[symbol := (orderbook, t)]> (orderbook_cache c)) c) ;;
          ret (Returned (Some orderbook))
      | _ => ret fetched
      end
  end.

(** [float(p['contracts']) > 0]; [float(None)] raises. *)
Definition has_contracts (p : Position) : bool :=
  match contracts p with
  | Some q => Float.Qltb 0 q
  | None => false
  end.

(** The list comprehension raises at the first position without a number
    of contracts; nothing catches the exception. *)
Definition get_open_positions : M (Outcome (list Position)) :=
  let* c := get_self in
  let* positions := _execute_with_retry (fetch_positions (exchange c)) "orders" in
  match positions with
  | Returned (Some ((_ :: _) as positions)) =>
      if forallb (fun p => match contracts p with Some _ => true | None => false end)
                 positions
      then ret (Returned (Some (List.filter has_contracts positions)))
      else ret Escaped
  | Returned _ => ret (Returned (Some []))
  | Escaped => ret Escaped
  | OutOfFuel => ret OutOfFuel
  end.

End Methods.

(** ** Notions of the properties *)

(** The lengths of the waits between attempts, in order. *)
Definition backoffs (effects : list Effect) : list Q :=
  omap (fun e => match e with BackedOff seconds => Some seconds | _ => None end) effects.

(** The reports the error callbacks were called with, in order. *)
Definition notifications (effects : list Effect) : list (nat * ErrorReport) :=
  omap (fun e => match e with Notified id report _ => Some (id, report) | _ => None end)
       effects.

(** The calls of the error callbacks by one run of [_handle_error], the
    first of them at reading number [n] of the clock. *)
Fixpoint error_notifications `{ext : External} (callbacks : list ErrorCallback)
    (message context : string) (consecutive : Z) (n : nat) : list Effect :=
  match callbacks with
  | [] => []
  | callback :: rest =>
      let report :=
        {| report_timestamp := clock n; report_message := message;
           report_context := context; report_consecutive_errors := consecutive |} in
      Notified (error_callback_id callback) report (error_callback_run callback report)
      :: error_notifications rest message context consecutive (S n)
  end.

(** What no method of the model changes: the exchange, the readiness, the
    settings of the retries and of the cache, and the error callbacks. *)
Definition settings_kept (c c' : Connector) : Prop :=
  exchange c' = exchange c
  /\ is_ready c' = is_ready c
  /\ max_retry_attempts c' = max_retry_attempts c
  /\ retry_delay c' = retry_delay c
  /\ cache_ttl c' = cache_ttl c
  /\ error_callbacks c' = error_callbacks c.

(** The waits [retry_delay * 2 ** (attempts - 1)] after the attempts number
    [first + 1] to [first + count]. *)
Definition backoff_delays (retry_delay : Q) (first : Z) (count : nat) : list Q :=
  map (fun i => (retry_delay * inject_Z (2 ^ (first + Z.of_nat i)))%Q) (seq 0 count).

End Connector.

(** * Notions of the specification *)

(** The linear ramps of the severity scorer, as the specification writes
    them: [(ratio - threshold) / (2*threshold)], [(ratio - threshold) /
    (3*threshold)] and, with [t = 1 - correlation_threshold],
    [(change - t) / (1 - t)]. *)
Definition volatility_ramp (config : Config) (ratio : float64) : float64 :=
  ((ratio - Fin (volatility_threshold config)) / Fin (2 * volatility_threshold config))%fl.

Definition volume_ramp (config : Config) (ratio : float64) : float64 :=
  ((ratio - Fin (volume_threshold config)) / Fin (3 * volume_threshold config))%fl.

Definition correlation_ramp (config : Config) (change : float64) : float64 :=
  let t := (1 - correlation_threshold config)%Q in
  ((change - Fin t) / Fin (1 - t))%fl.

(** The severity the specification assigns to a ramp value: its clipping to
    the unit interval, and 0 where the ramp is not a number. *)
Definition severity_of_ramp (x : float64) : float64 :=
  if Float.is_nan x then Fin 0 else clip x (Fin 0) (Fin 1).

(** The sum of a list of rationals, and the mean over all cells of a table
    given by its columns. *)
Definition Qsum (xs : list Q) : Q := fold_left Qplus xs 0%Q.

Definition mean_of_cells (columns : list (list Q)) (rows : nat) : Q :=
  (Qsum (map Qsum columns) / inject_Z (Z.of_nat (length columns * rows)))%Q.

(** The mean of a list of rationals. *)
Definition Qmean (xs : list Q) : Q := (Qsum xs / inject_Z (Z.of_nat (length xs)))%Q.

(** The returns of a series of prices: every price over the one before it,
    less 1. *)
Definition simple_returns (prices : list Q) : list Q :=
  map (fun i => (nth (S i) prices 0 / nth i prices 0 - 1)%Q) (seq 0 (length prices - 1)).

(** The sample variance: the sum of the squared deviations from the mean
    over the number of values less 1.  The standard deviation is its
    square root. *)
Definition sample_variance (xs : list Q) : Q :=
  let m := Qmean xs in
  (Qsum (map (fun x => (x - m) * (x - m)) xs) / (inject_Z (Z.of_nat (length xs)) - 1))%Q.

(** A frame holds the square matrix [m] over [labels]: its rows and its
    columns are labelled by [labels] and the cell of a column and a row is
    the number [m] gives for them. *)
Definition holds_matrix (f : Frame) (labels : list string) (m : string -> string -> Q) : Prop :=
  NoDup labels
  /\ frame_index f = labels
  /\ map fst (frame_columns f) = labels
  /\ forall col row, In col labels -> In row labels ->
                     frame_cell f col row = Some (Fin (m col row)).

(** The absolute element-wise differences of two matrices over the same
    labels, column by column, and their mean: the mean of the means of the
    columns. *)
Definition absolute_differences (labels : list string) (current baseline : string -> string -> Q)
    : list (list Q) :=
  map (fun col => map (fun row => Qabs (current col row - baseline col row)) labels) labels.

Definition mean_absolute_difference (labels : list string)
    (current baseline : string -> string -> Q) : Q :=
  Qmean (map Qmean (absolute_differences labels current baseline)).

(** The three states of the alert gate, decided by two checks in order. *)
Inductive GateState : Type :=
  | DAILY_LIMIT_REACHED
  | COOLDOWN
  | ACCEPTING.

Definition gate_state (d : Detector) (now : datetime) : GateState :=
  if alert_count_today d >=? max_alerts_per_day (cfg d) then DAILY_LIMIT_REACHED
  else
    match last_alert_time d with
    | Some last =>
        if now <? last + timedelta_minutes (alert_cooldown_minutes (cfg d))
        then COOLDOWN else ACCEPTING
    | None => ACCEPTING
    end.

(** The number of clock readings the cooldown check takes. *)
Definition cooldown_reads (d : Detector) : nat :=
  match last_alert_time d with Some _ => 1%nat | None => 0%nat end.

(** The invocations of a list of callbacks with one event, against one
    state of the detector. *)
Definition invocations (callbacks : list Callback) (event : Event) (d : Detector)
    : list Effect :=
  map (fun callback =>
         Invoked (callback_id callback) event (snapshot d)
                 (callback_run callback (snapshot d) event))
      callbacks.

(** The world a dispatch leaves behind: the clock is read for the event's
    timestamp and again for [last_alert_time], after the reading of the
    cooldown check, if that was taken. *)
Definition dispatched `{ext : External} (alerts : list Alert) (w : World) : World :=
  let d := self w in
  let n := (now_calls w + cooldown_reads d)%nat in
  let combined_alert := combined_alert_of alerts (clock n) in
  let events := detected_events d ++ [combined_alert] in
  let d' :=
    set_alert_count_today (alert_count_today d + 1)
      (set_last_alert_time (Some (clock (S n)))
         (set_detected_events
            (if Z.of_nat (length events) >? max_event_history d
             then slice_last (max_event_history d) events else events) d)) in
  {| self := d'; now_calls := S (S n); requests := requests w;
     trace := trace w ++ invocations (notification_callbacks d) combined_alert d' |}.

(** The world after a suppression by the cooldown check: only the clock
    has been read. *)
Definition clock_read (w : World) : World :=
  {| self := self w; now_calls := S (now_calls w); requests := requests w;
     trace := trace w |}.

(** What the loop body of [_check_volatility] decides for one item of
    [current_data]: the alert to append, short of its timestamp. *)
Definition volatility_trigger `{ext : External} (d : Detector) (item : string * DataFrame)
    : option (datetime -> Alert) :=
  match historical_stats d !! fst item with
  | Some stats =>
      if (current_volatility (snd item) / historical_volatility stats
          >? Fin (volatility_threshold (cfg d)))%fl
      then Some (volatility_alert d (fst item) (snd item) stats)
      else None
  | None => None
  end.

(** The same for [_check_volume]. *)
Definition volume_trigger (d : Detector) (item : string * DataFrame)
    : option (datetime -> Alert) :=
  match last (volumes (snd item)) with
  | None => None
  | Some current_volume =>
      match historical_stats d !! fst item with
      | Some stats =>
          if (current_volume / mean_volume stats >? Fin (volume_threshold (cfg d)))%fl
          then Some (volume_alert d (fst item) current_volume stats)
          else None
      | None => None
      end
  end.

(** The alerts of a loop over [items] that reads the clock once for every
    alert, starting at reading number [n]. *)
Fixpoint alerts_from `{ext : External} (trigger : string * DataFrame -> option (datetime -> Alert))
    (items : PyDict DataFrame) (n : nat) : list Alert :=
  match items with
  | [] => []
  | item :: rest =>
      match trigger item with
      | Some alert_at => alert_at (clock n) :: alerts_from trigger rest (S n)
      | None => alerts_from trigger rest n
      end
  end.

(** The volume ratio of the specification: the most recent bar's volume
    over the baseline mean volume, where both exist. *)
Definition volume_ratio (d : Detector) (symbol : string) (data : DataFrame)
    : option float64 :=
  match last (volumes data), historical_stats d !! symbol with
  | Some current_volume, Some stats => Some (current_volume / mean_volume stats)%fl
  | _, _ => None
  end.

(** The volatility ratio of the specification: the standard deviation of
    the intraday returns, annualized by the square root of 24, over the
    baseline's standard deviation of daily returns, annualized by the
    square root of 252. *)
Definition volatility_ratio `{ext : External} (data : DataFrame) (stats : Stats) : float64 :=
  ((std (dropna (pct_change (closes data))) * np_sqrt (Fin 24))
   / (std_returns stats * np_sqrt (Fin 252)))%fl.

(** A baseline correlation matrix, where the detector has one, is one that
    [_calculate_correlations] computed from historical prices. *)
Definition baseline_from_load `{ext : External} (d : Detector) : Prop :=
  forall matrix,
    correlation_matrix d = Some matrix ->
    exists price_data, returns_corr true price_data = Some matrix.

Definition keeps_baseline_from_load `{ext : External} (w w' : World) : Prop :=
  baseline_from_load (self w) -> baseline_from_load (self w').

(** The world after [n] passes through the loop body. *)
Definition iterations `{ext : External} (n : nat) (w : World) : World :=
  Nat.iter n (run loop_iteration) w.

(** A relation between the world before and after a computation holds of
    every run of it. *)
Definition frame {A : Type} (R : World -> World -> Prop) (m : M A) : Prop :=
  forall w, R w (run m w).

(** The detector and the trace of effects are left as they were. *)
Definition untouched (w w' : World) : Prop :=
  self w' = self w /\ trace w' = trace w.

(** The bound on the event history: the capacity is 100 and is respected. *)
Definition history_bounded (d : Detector) : Prop :=
  max_event_history d = 100 /\ (length (detected_events d) <= 100)%nat.

Definition keeps_history_bounded (w w' : World) : Prop :=
  history_bounded (self w) -> history_bounded (self w').

(** The daily counter is not reset: it does not decrease and the date of
    the last reset stays. *)
Definition counter_not_reset (w w' : World) : Prop :=
  reset_date (self w') = reset_date (self w)
  /\ alert_count_today (self w) <= alert_count_today (self w').

(** The baseline correlation matrix is left as it was. *)
Definition keeps_correlation_matrix (w w' : World) : Prop :=
  correlation_matrix (self w') = correlation_matrix (self w).

(** ** Notions of the further properties *)

(** The entries of a [current_data] dictionary built from [symbols]: the
    keys are distinct symbols of the list, the frames are not empty. *)
Definition current_data_from (symbols : list string) (current_data : PyDict DataFrame)
    : Prop :=
  NoDup (dict_keys current_data)
  /\ forall symbol data,
      In (symbol, data) current_data -> In symbol symbols /\ data <> [].

(** What holds of the gate's counters in every state: the count of the
    day lies between 0 and the daily limit, a dispatch has been counted
    only if [last_alert_time] is set, and the history is empty exactly as
    long as no alert has been dispatched. *)
Definition gate_consistent (d : Detector) : Prop :=
  0 <= alert_count_today d
  /\ alert_count_today d <= Z.max 0 (max_alerts_per_day (cfg d))
  /\ (0 < alert_count_today d -> is_Some (last_alert_time d))
  /\ (detected_events d = [] <-> last_alert_time d = None).

Definition keeps_gate_consistent (w w' : World) : Prop :=
  gate_consistent (self w) -> gate_consistent (self w').

(** The configuration and the monitoring flag are left as they were. *)
Definition keeps_configuration (w w' : World) : Prop :=
  cfg (self w') = cfg (self w) /\ is_monitoring (self w') = is_monitoring (self w).

(** The baseline is the statistics of the stored historical frames: the
    two dictionaries have the same symbols, every stored frame is not
    empty, and a correlation matrix exists only with two symbols or more. *)
Definition baseline_consistent `{ext : External} (d : Detector) : Prop :=
  NoDup (dict_keys (historical_data d))
  /\ (forall symbol data,
        In (symbol, data) (historical_data d) ->
        data <> [] /\ historical_stats d !! symbol = Some (historical_stats_of data))
  /\ (forall symbol,
        is_Some (historical_stats d !! symbol) -> In symbol (dict_keys (historical_data d)))
  /\ (is_Some (correlation_matrix d) -> (2 <= length (historical_data d))%nat).

Definition keeps_baseline_consistent `{ext : External} (w w' : World) : Prop :=
  baseline_consistent (self w) -> baseline_consistent (self w').

(** Nothing but the baseline (historical data, statistics and correlation
    matrix) has changed: not the gate's state, the callbacks, the flags or
    the configuration, and no effect has been added to the trace. *)
Definition same_but_baseline (w w' : World) : Prop :=
  trace w' = trace w
  /\ self w'
     = set_correlation_matrix (correlation_matrix (self w'))
         (set_historical_stats (historical_stats (self w'))
            (set_historical_data (historical_data (self w')) (self w))).

(** The number of sleeps in a trace. *)
Definition sleeps (effects : list Effect) : nat :=
  length (List.filter (fun e => match e with Slept _ => true | Invoked _ _ _ _ => false end)
                      effects).

(** No sleep is added to the trace. *)
Definition keeps_sleeps (w w' : World) : Prop := sleeps (trace w') = sleeps (trace w).

(** * Sample data *)

Module Sample.

(** An environment whose clock advances one minute per reading. *)
Definition environment : External := {|
  clock := fun n => Z.of_nat n * 60000000;
  np_sqrt := fun x => x;
  quantile := fun _ _ => NaN;
  returns_corr := fun _ _ => None;
  format_2f := fun _ => "";
  plot_drawn := fun _ => true
|}.

(** An environment whose clock is set back across midnight after the
    detector has been constructed: the first reading falls on day 1, every
    later one a microsecond before it, on day 0. *)
Definition clock_set_back : External := {|
  clock := fun n => match n with
                    | O => microseconds_per_day
                    | S _ => microseconds_per_day - 1
                    end;
  np_sqrt := fun x => x;
  quantile := fun _ _ => NaN;
  returns_corr := fun _ _ => None;
  format_2f := fun _ => "";
  plot_drawn := fun _ => true
|}.

Definition bar (time : datetime) (close volume : Q) : Bar := {|
  bar_time := time; bar_open := close; bar_high := close; bar_low := close;
  bar_close := close; bar_volume := volume
|}.

(** Three hourly bars with a jump in price and in volume. *)
Definition data : DataFrame :=
  [bar 0 100 10; bar 3600000000 200 10; bar 7200000000 100 900].

Definition stats : Stats := {|
  mean_returns := Fin 0;
  std_returns := Fin 0.001;
  mean_volume := Fin 10;
  std_volume := Fin 1;
  percentiles := {| returns_1 := NaN; returns_5 := NaN; returns_95 := NaN;
                    returns_99 := NaN; volume_95 := NaN; volume_99 := NaN |}
|}.

Definition symbol : string := "BTC/USDT:USDT".

Definition current_data : PyDict DataFrame := [(symbol, data)].

Definition matrix : Frame := {|
  frame_index := ["BTC_USDT_USDT"; "ETH_USDT_USDT"];
  frame_columns := [("BTC_USDT_USDT", [Fin 1; Fin 0.5]); ("ETH_USDT_USDT", [Fin 0.5; Fin 1])]
|}.

(** The correlation matrix of a market whose two assets have come apart. *)
Definition diverged : Frame := {|
  frame_index := ["BTC_USDT_USDT"; "ETH_USDT_USDT"];
  frame_columns := [("BTC_USDT_USDT", [Fin 1; Fin (-0.5)]); ("ETH_USDT_USDT", [Fin (-0.5); Fin 1])]
|}.

(** An environment in which the historical prices correlate as [matrix]
    and the current ones as [diverged]. *)
Definition correlated : External := {|
  clock := fun n => Z.of_nat n * 60000000;
  np_sqrt := fun x => x;
  quantile := fun _ _ => NaN;
  returns_corr := fun historical _ => Some (if historical then matrix else diverged);
  format_2f := fun _ => "";
  plot_drawn := fun _ => true
|}.

Definition pair_data : PyDict DataFrame := [(symbol, data); ("ETH/USDT:USDT", data)].

Definition pipeline : DataPipeline := {|
  get_crypto_data := fun _ _ => Fetched (Some data);
  fetch_crypto_data := fun _ _ _ _ => Fetched (Some data)
|}.

(** A baseline without any volume, and a detector that has it. *)
Definition flat_stats : Stats := {|
  mean_returns := Fin 0;
  std_returns := Fin 0.001;
  mean_volume := Fin 0;
  std_volume := Fin 0;
  percentiles := {| returns_1 := NaN; returns_5 := NaN; returns_95 := NaN;
                    returns_99 := NaN; volume_95 := NaN; volume_99 := NaN |}
|}.

Definition alert (severity : Q) : Alert := {|
  alert_type := "volume";
  alert_symbol := Some symbol;
  alert_timestamp := 0;
  alert_severity := Fin severity;
  alert_details := []
|}.

Definition alerts : list Alert := [alert 0.1; alert 0.4].

(** A detector right after its construction, and one with a baseline and a
    data pipeline. *)
Definition fresh : World := @initial_world environment default_config.

Definition loaded : World := {|
  self := set_data_pipeline_field (Some pipeline)
            (set_historical_stats {[ symbol := stats ]} (self fresh));
  now_calls := 1; requests := 0; trace := []
|}.

Definition flat : World := {|
  self := set_historical_stats {[ symbol := flat_stats ]} (self fresh);
  now_calls := 1; requests := 0; trace := []
|}.

(** A detector that has dispatched twice today, the last time at reading
    number 5 of the clock. *)
Definition alerted : World := {|
  self := set_alert_count_today 2
            (set_last_alert_time (Some 300000000) (self loaded));
  now_calls := 6; requests := 0; trace := []
|}.

(** The loaded detector with [matrix] as its baseline. *)
Definition with_baseline : World := {|
  self := set_correlation_matrix (Some matrix) (self loaded);
  now_calls := 1; requests := 0; trace := []
|}.

Definition failing_callback : Callback :=
  {| callback_id := 1; callback_run := fun _ _ => RaisesException |}.

Definition quiet_callback : Callback :=
  {| callback_id := 2; callback_run := fun _ _ => Returns |}.

(** The loaded detector with two callbacks registered, the first of which
    raises. *)
Definition subscribed : World := {|
  self := set_notification_callbacks [failing_callback; quiet_callback] (self loaded);
  now_calls := 1; requests := 0; trace := []
|}.

(** A detector whose last reset was the day before. *)
Definition stale : World := {|
  self := set_reset_date (-1) (self alerted);
  now_calls := 6; requests := 0; trace := []
|}.

(** A detector at its daily limit. *)
Definition limited : World := {|
  self := set_alert_count_today 3 (self alerted);
  now_calls := 6; requests := 0; trace := []
|}.

(** A detector constructed on day 1 that has dispatched twice, under the
    clock that is set back. *)
Definition after_clock_set_back : World := {|
  self := set_alert_count_today 2
            (self (@initial_world clock_set_back default_config));
  now_calls := 1; requests := 0; trace := []
|}.

(** A configuration under which the gate accepts every tick: a daily
    limit of 1000 alerts and no cooldown. *)
Definition busy_config : Config := {|
  volatility_threshold := 3.5;
  volume_threshold := 5.0;
  correlation_threshold := 0.85;
  news_sentiment_threshold := -0.6;
  check_interval := 300;
  watch_list := ["BTC/USDT:USDT"; "ETH/USDT:USDT"];
  historical_lookback_days := 365;
  volatility_window := 20;
  volume_window := 20;
  max_alerts_per_day := 1000;
  alert_cooldown_minutes := 0
|}.

Definition severe_alerts : list Alert := [alert 0.9].

(** The detector after [n] calls of [_handle_alerts] under that
    configuration, and the one whose history has just become full. *)
Definition dispatched_times (n : nat) : World :=
  Nat.iter n (run (@perform environment (call_handle_alerts severe_alerts)))
           (@initial_world environment busy_config).

Definition full : World := dispatched_times 100.

(** The labels of [matrix] and [diverged], and the two matrices as
    numbers. *)
Definition labels : list string := ["BTC_USDT_USDT"; "ETH_USDT_USDT"].

Definition matrix_cells (col row : string) : Q :=
  if String.eqb col row then 1 else 0.5.

Definition diverged_cells (col row : string) : Q :=
  if String.eqb col row then 1 else -0.5.

(** The detector after a pipeline has been set and monitoring started. *)
Definition started : World :=
  run (@perform environment call_start_monitoring)
      (run (@perform environment (call_set_data_pipeline (Some pipeline))) fresh).

End Sample.

Module ConnectorSample.

(** An exchange that cannot be reached. *)
Definition unreachable : Connector.Exchange := {|
  Connector.fetch_order_book := fun _ _ _ => Connector.NetworkError "timeout";
  Connector.fetch_positions := fun _ => Connector.NetworkError "timeout"
|}.

(** A connector with the default settings, three errors in a row behind
    it, and trading active. *)
Definition connector : Connector.Connector := {|
  Connector.exchange := unreachable;
  Connector.is_ready := true;
  Connector.is_trading_active := true;
  Connector.error_count := 3;
  Connector.last_error_time := Some 0;
  Connector.consecutive_errors := 3;
  Connector.max_retry_attempts := 3;
  Connector.retry_delay := 2;
  Connector.cache_ttl := 60;
  Connector.rate_limits :=
    {[ "orders" := {| Connector.limit := 20; Connector.remaining := 20;
                      Connector.reset_time := 0 |};
       "market_data" := {| Connector.limit := 50; Connector.remaining := 50;
                           Connector.reset_time := 0 |} ]};
  Connector.orderbook_cache := ∅;
  Connector.error_callbacks := []
|}.

Definition world : Connector.World := {|
  Connector.self := connector; Connector.now_calls := 3; Connector.calls := 0;
  Connector.trace := []
|}.

End ConnectorSample.

(** * Properties *)

(** ** Arithmetic of [float64] *)

Lemma Qltb_lt (a b : Q) : Float.Qltb a b = true <-> (a < b)%Q.
Proof.
  unfold Float.Qltb. rewrite negb_true_iff.
  split.
  - intros H. apply Qnot_le_lt. rewrite <- Qle_bool_iff. congruence.
  - intros H. destruct (Qle_bool b a) eqn:E; [|reflexivity].
    apply Qle_bool_iff in E. exfalso. exact (Qlt_not_le _ _ H E).
Qed.

Lemma Qltb_false_le (a b : Q) : Float.Qltb a b = false <-> (b <= a)%Q.
Proof.
  unfold Float.Qltb. rewrite negb_false_iff. apply Qle_bool_iff.
Qed.

(** [min(1.0, max(0.0, x))] is the clipping of [x] to the unit interval
    wherever [x] is a number. *)
Lemma py_min_max_clip (x : float64) :
  x <> NaN -> py_min2 (Fin 1) (py_max2 (Fin 0) x) = clip x (Fin 0) (Fin 1).
Proof.
  intros Hx. destruct x as [q| | |]; try reflexivity; [|congruence].
  unfold py_min2, py_max2, clip, Float.gtb, Float.ltb, Float.leb, Float.Qltb.
  destruct (Qle_bool q 0) eqn:E0; simpl.
  - reflexivity.
  - destruct (Qle_bool 1 q) eqn:E1; reflexivity.
Qed.

Lemma py_min_max_nan : py_min2 (Fin 1) (py_max2 (Fin 0) NaN) = Fin 0.
Proof. reflexivity. Qed.

Lemma py_min_max_unit (x : float64) :
  in_unit_interval (py_min2 (Fin 1) (py_max2 (Fin 0) x)).
Proof.
  unfold in_unit_interval.
  destruct x as [q| | |]; unfold py_min2, py_max2, Float.gtb; simpl.
  - destruct (Float.Qltb 0 q) eqn:E0; simpl.
    + destruct (Float.Qltb q 1) eqn:E1.
      * exists q. apply Qltb_lt in E0, E1. auto using Qlt_le_weak.
      * exists 1%Q. repeat split; discriminate.
    + exists 0%Q. repeat split; discriminate.
  - exists 1%Q. repeat split; discriminate.
  - exists 0%Q. repeat split; discriminate.
  - exists 0%Q. repeat split; discriminate.
Qed.

(** The quotient of the severity ramp is a number whenever the value lies
    above the threshold, whatever the divisor. *)
Lemma ramp_not_nan (value : float64) (threshold divisor : Q) :
  (value >? Fin threshold)%fl = true ->
  ((value - Fin threshold) / Fin divisor)%fl <> NaN.
Proof.
  unfold Float.gtb.
  destruct value as [a| | |]; simpl; try discriminate.
  - intros H. apply Qltb_lt in H.
    destruct (Qeq_bool divisor 0); [|discriminate].
    destruct (Qeq_bool (a + - threshold) 0) eqn:E.
    + apply Qeq_bool_eq in E. lra.
    + destruct (Float.nonneg _); discriminate.
  - intros _. destruct (Float.nonneg divisor); discriminate.
Qed.

Lemma py_min_max_severity (x : float64) :
  py_min2 (Fin 1) (py_max2 (Fin 0) x) = severity_of_ramp x.
Proof.
  unfold severity_of_ramp.
  destruct (Float.is_nan x) eqn:E.
  - destruct x; try discriminate. reflexivity.
  - apply py_min_max_clip. intros ->. discriminate.
Qed.

Lemma severity_of_ramp_clip (x : float64) :
  x <> NaN -> severity_of_ramp x = clip x (Fin 0) (Fin 1).
Proof.
  intros Hx. unfold severity_of_ramp. destruct x; try reflexivity. congruence.
Qed.

(** *** Python's [max] on numbers *)

Lemma leb_refl (a : float64) : Float.is_nan a = false -> (a <=? a)%fl = true.
Proof.
  destruct a; simpl; try reflexivity; try discriminate.
  intros _. apply Qle_bool_iff, Qle_refl.
Qed.

Lemma leb_trans (a b c : float64) :
  (a <=? b)%fl = true -> (b <=? c)%fl = true -> (a <=? c)%fl = true.
Proof.
  destruct a, b, c; simpl; try reflexivity; try discriminate.
  rewrite !Qle_bool_iff. apply Qle_trans.
Qed.

Lemma ltb_leb (a b : float64) : (a <? b)%fl = true -> (a <=? b)%fl = true.
Proof.
  destruct a, b; simpl; try reflexivity; try discriminate.
  rewrite Qltb_lt, Qle_bool_iff. apply Qlt_le_weak.
Qed.

Lemma not_ltb_leb (a b : float64) :
  Float.is_nan a = false -> Float.is_nan b = false ->
  (a <? b)%fl = false -> (b <=? a)%fl = true.
Proof.
  destruct a, b; simpl; try reflexivity; try discriminate.
  intros _ _. rewrite Qltb_false_le, Qle_bool_iff. auto.
Qed.

Lemma py_max2_bounds (a b : float64) :
  Float.is_nan a = false -> Float.is_nan b = false ->
  (py_max2 a b = a \/ py_max2 a b = b)
  /\ Float.is_nan (py_max2 a b) = false
  /\ (a <=? py_max2 a b)%fl = true /\ (b <=? py_max2 a b)%fl = true.
Proof.
  intros Ha Hb. unfold py_max2, Float.gtb.
  destruct (a <? b)%fl eqn:E.
  - auto using ltb_leb, leb_refl.
  - auto using not_ltb_leb, leb_refl.
Qed.

Lemma fold_py_max2_bounds (rest : list float64) (x : float64) :
  Float.is_nan x = false ->
  Forall (fun y => Float.is_nan y = false) rest ->
  let m := fold_left py_max2 rest x in
  (m = x \/ In m rest)
  /\ (x <=? m)%fl = true
  /\ Forall (fun y => (y <=? m)%fl = true) rest.
Proof.
  revert x. induction rest as [|y rest IH]; intros x Hx Hrest; simpl.
  - split; [auto|]. split; [apply leb_refl, Hx | constructor].
  - inversion Hrest as [|? ? Hy Hrest']; subst.
    destruct (py_max2_bounds x y Hx Hy) as (Hcase & Hnan & Hxm & Hym).
    destruct (IH (py_max2 x y) Hnan Hrest') as (Hin & Hle & Hall).
    split; [|split].
    + destruct Hin as [->|Hin]; [|auto]. destruct Hcase as [->| ->]; auto.
    + eapply leb_trans; eassumption.
    + constructor; [eapply leb_trans; eassumption | assumption].
Qed.

(** On a non-empty list of numbers [max] returns an element that no other
    exceeds. *)
Lemma py_max_is_maximum (xs : list float64) (default : float64) :
  xs <> [] ->
  Forall (fun y => Float.is_nan y = false) xs ->
  In (py_max xs default) xs
  /\ Forall (fun y => (y <=? py_max xs default)%fl = true) xs.
Proof.
  intros Hne Hxs. destruct xs as [|x rest]; [congruence|].
  inversion Hxs as [|? ? Hx Hrest]; subst. simpl.
  destruct (fold_py_max2_bounds rest x Hx Hrest) as (Hin & Hle & Hall).
  split; [destruct Hin; auto | constructor; assumption].
Qed.

(** ** The severity scorer *)

Section Severity.

Context {ext : External}.

Lemma calculate_severity_unit (d : Detector) (alert_type : string) (value : float64) :
  in_unit_interval (_calculate_severity d alert_type value).
Proof.
  unfold _calculate_severity.
  repeat match goal with
         | |- context [String.eqb ?a ?b] => destruct (String.eqb a b)
         end;
    try apply py_min_max_unit.
  exists 0%Q. repeat split; discriminate.
Qed.

(** C3: for every configuration and every value the scorer returns a
    severity in [0,1], computed by clipping the linear ramp of the alert's
    type: (ratio - threshold) / (2 threshold) for volatility,
    (ratio - threshold) / (3 threshold) for volume and, with
    t = 1 - correlation_threshold, (change - t) / (1 - t) for correlation
    (0 where the ramp is not a number, which no value above its threshold
    produces).  With the default thresholds a volatility ratio of 4.2 scores
    0.1, a volume ratio of 6.0 scores 1/15 and a correlation change of 0.20
    scores 0.05/0.85. *)
Theorem calculate_severity_formulas :
  forall (d : Detector) (value : float64),
    (forall alert_type, in_unit_interval (_calculate_severity d alert_type value))
    /\ _calculate_severity d "volatility" value
       = severity_of_ramp (volatility_ramp (cfg d) value)
    /\ _calculate_severity d "volume" value
       = severity_of_ramp (volume_ramp (cfg d) value)
    /\ _calculate_severity d "correlation" value
       = severity_of_ramp (correlation_ramp (cfg d) value)
    /\ ((value >? Fin (volatility_threshold (cfg d)))%fl = true ->
        _calculate_severity d "volatility" value
        = clip (volatility_ramp (cfg d) value) (Fin 0) (Fin 1))
    /\ ((value >? Fin (volume_threshold (cfg d)))%fl = true ->
        _calculate_severity d "volume" value
        = clip (volume_ramp (cfg d) value) (Fin 0) (Fin 1))
    /\ ((value >? Fin (1 - correlation_threshold (cfg d)))%fl = true ->
        _calculate_severity d "correlation" value
        = clip (correlation_ramp (cfg d) value) (Fin 0) (Fin 1))
    /\ (cfg d = default_config ->
        (_calculate_severity d "volatility" (Fin 4.2) =? Fin 0.1)%fl = true
        /\ (_calculate_severity d "volume" (Fin 6.0) =? Fin (1 # 15))%fl = true
        /\ (_calculate_severity d "correlation" (Fin 0.20) =? Fin (0.05 / 0.85))%fl = true).
Proof.
  intros d value.
  assert (Hvy : _calculate_severity d "volatility" value
                = severity_of_ramp (volatility_ramp (cfg d) value))
    by apply py_min_max_severity.
  assert (Hvm : _calculate_severity d "volume" value
                = severity_of_ramp (volume_ramp (cfg d) value))
    by apply py_min_max_severity.
  assert (Hco : _calculate_severity d "correlation" value
                = severity_of_ramp (correlation_ramp (cfg d) value))
    by apply py_min_max_severity.
  split; [intros ty; apply calculate_severity_unit|].
  do 3 (split; [assumption|]).
  split; [|split; [|split]].
  - intros H. rewrite Hvy. apply severity_of_ramp_clip, ramp_not_nan, H.
  - intros H. rewrite Hvm. apply severity_of_ramp_clip, ramp_not_nan, H.
  - intros H. rewrite Hco. apply severity_of_ramp_clip.
    unfold correlation_ramp. apply ramp_not_nan, H.
  - intros Hd. unfold _calculate_severity. rewrite Hd. vm_compute. auto.
Qed.

End Severity.

(** ** The monad *)

Lemma untouched_preorder : PreOrder untouched.
Proof.
  split.
  - intros w. split; reflexivity.
  - intros w1 w2 w3 [H1 H2] [H3 H4]. split; congruence.
Qed.

Lemma keeps_history_bounded_preorder : PreOrder keeps_history_bounded.
Proof.
  split.
  - intros w H. exact H.
  - intros w1 w2 w3 H1 H2 H. auto.
Qed.

Lemma counter_not_reset_preorder : PreOrder counter_not_reset.
Proof.
  split.
  - intros w. split; [reflexivity | lia].
  - intros w1 w2 w3 [H1 H2] [H3 H4]. split; [congruence | lia].
Qed.

Lemma keeps_correlation_matrix_preorder : PreOrder keeps_correlation_matrix.
Proof.
  split.
  - intros w. reflexivity.
  - intros w1 w2 w3 H1 H2. unfold keeps_correlation_matrix in *. congruence.
Qed.

#[local] Existing Instance untouched_preorder.
#[local] Existing Instance keeps_history_bounded_preorder.
#[local] Existing Instance counter_not_reset_preorder.
#[local] Existing Instance keeps_correlation_matrix_preorder.

Section Monad.

Context {ext : External}.

Lemma run_bind {A B : Type} (m : M A) (k : A -> M B) (w : World) :
  run (bind m k) w = run (k (result m w)) (run m w).
Proof. unfold run, result, bind. destruct (m w). reflexivity. Qed.

Lemma result_bind {A B : Type} (m : M A) (k : A -> M B) (w : World) :
  result (bind m k) w = result (k (result m w)) (run m w).
Proof. unfold run, result, bind. destruct (m w). reflexivity. Qed.

Lemma world_eta (w : World) :
  {| self := self w; now_calls := now_calls w; requests := requests w; trace := trace w |} = w.
Proof. destruct w. reflexivity. Qed.

Section Frames.

Context (R : World -> World -> Prop) {R_preorder : PreOrder R}.

Lemma frame_ret {A : Type} (a : A) : frame R (ret a).
Proof. intros w. reflexivity. Qed.

Lemma frame_bind {A B : Type} (m : M A) (k : A -> M B) :
  frame R m -> (forall a, frame R (k a)) -> frame R (bind m k).
Proof.
  intros Hm Hk w. rewrite run_bind.
  transitivity (run m w); [apply Hm | apply Hk].
Qed.

Lemma frame_for_each {A B : Type} (xs : list A) (acc : B) (body : B -> A -> M B) :
  (forall b a, frame R (body b a)) -> frame R (for_each xs acc body).
Proof.
  intros Hbody. revert acc.
  induction xs as [|x xs IH]; intros acc; simpl.
  - apply frame_ret.
  - apply frame_bind; [apply Hbody | intros b; apply IH].
Qed.

Lemma frame_get_self : frame R get_self.
Proof. intros w. reflexivity. Qed.

End Frames.

End Monad.

Ltac frame_walk lemmas :=
  repeat (cbv beta zeta;
          match goal with
          | |- frame _ (ret _) => refine (frame_ret _ _)
          | |- frame _ get_self => refine (frame_get_self _)
          | |- frame _ (bind _ _) => refine (frame_bind _ _ _ _ _); [|intros ?]
          | |- frame _ (for_each _ _ _) => refine (frame_for_each _ _ _ _ _); intros ? ?
          | |- frame _ (if ?c then _ else _) => destruct c eqn:?
          | |- frame _ (match ?x with _ => _ end) => destruct x eqn:?
          | |- frame _ _ => lemmas
          end).

Section Untouched.

Context {ext : External}.

Lemma untouched_now : frame untouched now.
Proof. intros w. split; reflexivity. Qed.

Lemma untouched_next_request : frame untouched next_request.
Proof. intros w. split; reflexivity. Qed.

Ltac untouched_prims := first [apply untouched_now | apply untouched_next_request].

Lemma untouched_check_volatility (current_data : PyDict DataFrame) :
  frame untouched (_check_volatility current_data).
Proof. unfold _check_volatility. frame_walk untouched_prims. Qed.

Lemma untouched_check_volume (current_data : PyDict DataFrame) :
  frame untouched (_check_volume current_data).
Proof. unfold _check_volume. frame_walk untouched_prims. Qed.

Lemma untouched_save_correlation_plot : frame untouched _save_correlation_plot.
Proof. unfold _save_correlation_plot. frame_walk untouched_prims. Qed.

Lemma untouched_save_correlation_breakdown_plot (current_corr : Frame) :
  frame untouched (_save_correlation_breakdown_plot current_corr).
Proof. unfold _save_correlation_breakdown_plot. frame_walk untouched_prims. Qed.

Lemma untouched_check_correlation_breakdown (current_data : PyDict DataFrame) :
  frame untouched (_check_correlation_breakdown current_data).
Proof.
  unfold _check_correlation_breakdown.
  frame_walk ltac:(first [ untouched_prims
                         | apply untouched_save_correlation_breakdown_plot ]).
Qed.

Lemma untouched_fetch_current_data (pipeline : DataPipeline) (symbols : list string) :
  frame untouched (fetch_current_data pipeline symbols).
Proof. unfold fetch_current_data. frame_walk untouched_prims. Qed.

Lemma untouched_suppression (alerts : list Alert) : frame untouched (suppression alerts).
Proof. unfold suppression. frame_walk untouched_prims. Qed.

Lemma untouched_manual_check (symbol : string) : frame untouched (manual_check symbol).
Proof.
  unfold manual_check.
  frame_walk ltac:(first [ untouched_prims
                         | apply untouched_check_volatility
                         | apply untouched_check_volume
                         | apply untouched_suppression ]).
Qed.

End Untouched.

(** ** The alert gate *)

Section Gate.

Context {ext : External}.

Lemma invoke_all (callbacks : list Callback) (event : Event) (w : World) :
  for_each callbacks tt (fun _ callback => invoke callback event) w
  = (tt, {| self := self w; now_calls := now_calls w; requests := requests w;
            trace := trace w ++ invocations callbacks event (self w) |}).
Proof.
  revert w. induction callbacks as [|callback callbacks IH]; intros w; simpl.
  - unfold ret. rewrite app_nil_r, world_eta. reflexivity.
  - unfold bind at 1. unfold invoke at 1. unfold bind, get_self, emit. simpl.
    rewrite IH. simpl. rewrite <- app_assoc. reflexivity.
Qed.

(** [_handle_alerts] in closed form, by the state of the gate at the
    reading of the clock the cooldown check would take. *)
Lemma handle_alerts_cases (alerts : list Alert) (w : World) :
  _handle_alerts alerts w
  = (tt, match gate_state (self w) (clock (now_calls w)) with
         | DAILY_LIMIT_REACHED => w
         | COOLDOWN => clock_read w
         | ACCEPTING => dispatched alerts w
         end).
Proof.
  unfold _handle_alerts, gate_state, dispatched, cooldown_reads.
  unfold bind at 1. unfold get_self at 1.
  destruct (alert_count_today (self w) >=? max_alerts_per_day (cfg (self w))).
  - reflexivity.
  - destruct (last_alert_time (self w)) as [last|] eqn:Hlast.
    + unfold bind at 1. unfold bind at 1. unfold now at 1. unfold ret at 1.
      destruct (clock (now_calls w) <? last + timedelta_minutes _).
      * reflexivity.
      * rewrite Nat.add_1_r.
        unfold bind, now, assign, get_self, ret. simpl.
        destruct (Z.of_nat (length (detected_events (self w) ++ [_])) >? _) eqn:E;
          simpl; rewrite invoke_all; simpl; rewrite ?E; reflexivity.
    + unfold bind at 1. unfold ret at 1.
      rewrite Nat.add_0_r.
      unfold bind, now, assign, get_self, ret. simpl.
      destruct (Z.of_nat (length (detected_events (self w) ++ [_])) >? _) eqn:E;
        simpl; rewrite invoke_all; simpl; rewrite ?E; reflexivity.
Qed.

(** A suppressed tick changes neither the detector nor the trace. *)
Lemma handle_alerts_suppressed (alerts : list Alert) (w : World) :
  gate_state (self w) (clock (now_calls w)) <> ACCEPTING ->
  untouched w (run (_handle_alerts alerts) w).
Proof.
  intros H. unfold run. rewrite handle_alerts_cases. simpl.
  destruct (gate_state _ _); [split; reflexivity .. | congruence].
Qed.

Lemma handle_alerts_accepting (alerts : list Alert) (w : World) :
  gate_state (self w) (clock (now_calls w)) = ACCEPTING ->
  run (_handle_alerts alerts) w = dispatched alerts w.
Proof.
  intros H. unfold run. rewrite handle_alerts_cases, H. reflexivity.
Qed.

(** C1: the gate's two suppression checks.  When the daily limit is
    reached, [_handle_alerts] changes nothing at all; otherwise, when
    [last_alert_time] is set and the clock reads less than
    [last_alert_time + alert_cooldown_minutes], it changes neither the
    detector (event history, [last_alert_time], [alert_count_today]) nor the
    trace of callback invocations.  Consequently, of two ticks with alerts
    of which the first passes the gate and the second is checked before the
    cooldown that the first started has run out, exactly the first is
    dispatched: the second changes neither the detector nor the trace. *)
Theorem alert_gate_suppression :
  forall (w : World) (alerts : list Alert),
    let d := self w in
    let w1 := run (_handle_alerts alerts) w in
    (alert_count_today d >= max_alerts_per_day (cfg d) -> w1 = w)
    /\ (forall last,
          alert_count_today d < max_alerts_per_day (cfg d) ->
          last_alert_time d = Some last ->
          clock (now_calls w) < last + timedelta_minutes (alert_cooldown_minutes (cfg d)) ->
          self w1 = d /\ trace w1 = trace w
          /\ detected_events (self w1) = detected_events d
          /\ last_alert_time (self w1) = last_alert_time d
          /\ alert_count_today (self w1) = alert_count_today d)
    /\ (forall (w2 : World) (alerts2 : list Alert),
          gate_state d (clock (now_calls w)) = ACCEPTING ->
          cfg (self w2) = cfg (self w1) ->
          last_alert_time (self w2) = last_alert_time (self w1) ->
          (forall recorded,
              last_alert_time (self w1) = Some recorded ->
              clock (now_calls w2)
              < recorded + timedelta_minutes (alert_cooldown_minutes (cfg d))) ->
          let w3 := run (_handle_alerts alerts2) w2 in
          w1 = dispatched alerts w
          /\ alert_count_today (self w1) = alert_count_today d + 1
          /\ (exists event,
                last (detected_events (self w1)) = Some event
                /\ event_details event = alerts
                /\ trace w1 = trace w ++ invocations (notification_callbacks d) event (self w1))
          /\ self w3 = self w2 /\ trace w3 = trace w2).
Proof.
  intros w alerts d w1. subst d w1.
  split; [|split].
  - intros H. unfold run. rewrite handle_alerts_cases. unfold gate_state.
    destruct (Z.geb_spec (alert_count_today (self w)) (max_alerts_per_day (cfg (self w))));
      [reflexivity | lia].
  - intros last Hcount Hlast Hnow.
    assert (Hst : gate_state (self w) (clock (now_calls w)) = COOLDOWN).
    { unfold gate_state. rewrite Hlast.
      destruct (Z.geb_spec (alert_count_today (self w)) (max_alerts_per_day (cfg (self w))));
        [lia|].
      destruct (Z.ltb_spec (clock (now_calls w))
                  (last + timedelta_minutes (alert_cooldown_minutes (cfg (self w)))));
        [reflexivity | lia]. }
    unfold run. rewrite handle_alerts_cases, Hst. simpl. auto.
  - intros w2 alerts2 Hacc Hcfg Hlast Hnow w3. subst w3.
    rewrite (handle_alerts_accepting _ _ Hacc) in *.
    split; [reflexivity|]. split; [reflexivity|]. split.
    + exists (combined_alert_of alerts (clock (now_calls w + cooldown_reads (self w)))).
      simpl. split; [|split; reflexivity].
      destruct (_ >? _) eqn:E.
      * unfold slice_last.
        destruct (Z.leb_spec (max_event_history (self w)) 0); [apply last_snoc|].
        rewrite length_app, skipn_app. simpl length.
        replace (length (detected_events (self w)) + 1
                 - Z.to_nat (max_event_history (self w))
                 - length (detected_events (self w)))%nat with 0%nat by lia.
        apply last_snoc.
      * apply last_snoc.
    + apply handle_alerts_suppressed.
      unfold gate_state. rewrite Hcfg, Hlast. simpl.
      destruct (_ >=? _); [discriminate|].
      specialize (Hnow _ eq_refl). simpl in Hnow.
      destruct (Z.ltb_spec (clock (now_calls w2))
                  (clock (S (now_calls w + cooldown_reads (self w)))
                   + timedelta_minutes (alert_cooldown_minutes (cfg (self w)))));
        [discriminate | lia].
Qed.

End Gate.

(** ** Frames of the methods *)

Lemma frame_weaken {A : Type} (R R' : World -> World -> Prop) (m : M A) :
  (forall w w', R w w' -> R' w w') -> frame R m -> frame R' m.
Proof. intros HR Hm w. apply HR, Hm. Qed.

Lemma untouched_keeps_history_bounded (w w' : World) :
  untouched w w' -> keeps_history_bounded w w'.
Proof. intros [Hs _] H. rewrite Hs. exact H. Qed.

Lemma untouched_counter_not_reset (w w' : World) :
  untouched w w' -> counter_not_reset w w'.
Proof. intros [Hs _]. unfold counter_not_reset. rewrite Hs. split; [reflexivity | lia]. Qed.

Lemma untouched_keeps_correlation_matrix (w w' : World) :
  untouched w w' -> keeps_correlation_matrix w w'.
Proof. intros [Hs _]. unfold keeps_correlation_matrix. rewrite Hs. reflexivity. Qed.

(** A step that is a single read, assignment or effect. *)
Ltac frame_prim :=
  solve [ intros ?w;
          unfold keeps_history_bounded, history_bounded, counter_not_reset,
            keeps_correlation_matrix, keeps_baseline_from_load, baseline_from_load,
            untouched, run, invoke, bind, get_self,
            assign, sleep, emit, now, next_request;
          simpl; auto; try (split; [reflexivity | lia]) ].

(** *** Lists *)

Lemma slice_last_all {A : Type} (n : Z) (l : list A) :
  Z.of_nat (length l) <= n -> slice_last n l = l.
Proof.
  intros H. unfold slice_last. destruct (n <=? 0); [reflexivity|].
  replace (length l - Z.to_nat n)%nat with 0%nat by lia. reflexivity.
Qed.

Lemma slice_last_length {A : Type} (n : Z) (l : list A) :
  0 < n -> (length (slice_last n l) <= Z.to_nat n)%nat.
Proof.
  intros H. unfold slice_last. destruct (Z.leb_spec n 0); [lia|].
  rewrite length_skipn. lia.
Qed.

Lemma slice_last_snoc {A : Type} (n : Z) (l : list A) (x : A) :
  last (slice_last n (l ++ [x])) = Some x.
Proof.
  unfold slice_last. destruct (Z.leb_spec n 0); [apply last_snoc|].
  rewrite length_app, skipn_app. simpl length.
  replace (length l + 1 - Z.to_nat n - length l)%nat with 0%nat by lia.
  apply last_snoc.
Qed.

(** The last [n] elements are what is left when the oldest are dropped. *)
Lemma slice_last_suffix {A : Type} (n : Z) (l : list A) :
  0 < n ->
  exists evicted,
    l = evicted ++ slice_last n l
    /\ length evicted = (length l - Z.to_nat n)%nat.
Proof.
  intros H. unfold slice_last. destruct (Z.leb_spec n 0); [lia|].
  exists (firstn (length l - Z.to_nat n) l). split.
  - symmetry. apply firstn_skipn.
  - rewrite length_firstn. lia.
Qed.

(** The event history after a dispatch, for the capacity of 100. *)
Lemma dispatched_history `{ext : External} (alerts : list Alert) (w : World) :
  max_event_history (self w) = 100 ->
  detected_events (self (dispatched alerts w))
  = slice_last 100
      (detected_events (self w)
       ++ [combined_alert_of alerts (clock (now_calls w + cooldown_reads (self w)))]).
Proof.
  intros Hmax. simpl. rewrite Hmax.
  destruct (Z.gtb_spec (Z.of_nat (length (detected_events (self w) ++
     [combined_alert_of alerts (clock (now_calls w + cooldown_reads (self w)))]))) 100);
    [reflexivity|].
  symmetry. apply slice_last_all. lia.
Qed.

(** ** Dispatch *)

Section Dispatch.

Context {ext : External}.

Lemma record_check_and_wait_run (w : World) :
  exists seconds,
    trace (run record_check_and_wait w) = trace w ++ [Slept seconds]
    /\ last_check_time (self (run record_check_and_wait w)) = Some (clock (now_calls w)).
Proof.
  unfold record_check_and_wait, run, bind, now, assign, get_self, sleep, emit. simpl.
  destruct (check_interval (cfg (self w)) <? 0); simpl; eauto.
Qed.

(** Every pass through the loop body reaches its last block. *)
Lemma loop_iteration_completes (w : World) :
  exists seconds,
    last (trace (run loop_iteration w)) = Some (Slept seconds)
    /\ is_Some (last_check_time (self (run loop_iteration w))).
Proof.
  unfold loop_iteration. rewrite !run_bind.
  destruct (record_check_and_wait_run
              (run _check_market_conditions (run reset_alert_counter w)))
    as (seconds & Htrace & Hcheck).
  exists seconds. rewrite Htrace, Hcheck, last_snoc. eauto.
Qed.

(** C2: when neither check of the gate suppresses, [_handle_alerts] builds
    one composite event from the tick's alerts whose severity is the
    maximum of their severities, appends it to the event history (cut to its
    last 100 entries), sets [last_alert_time] to a reading of the clock
    taken during the call, adds exactly 1 to [alert_count_today], and
    invokes every registered callback, in registration order (a
    registration appends to the list), with that event, whatever the
    earlier callbacks did: a callback that raises is recorded and the next
    one is invoked.  Nor does it abort the tick: every
    pass through the loop body goes on to record the check and to sleep. *)
Theorem alert_gate_dispatch :
  forall (w : World) (alerts : list Alert),
    gate_state (self w) (clock (now_calls w)) = ACCEPTING ->
    max_event_history (self w) = 100 ->
    alerts <> [] ->
    Forall (fun a => Float.is_nan (alert_severity a) = false) alerts ->
    let d := self w in
    let w' := run (_handle_alerts alerts) w in
    exists (event : Event) (recorded : datetime),
      event_details event = alerts
      /\ (exists a, In a alerts /\ event_severity event = alert_severity a)
      /\ Forall (fun a => (alert_severity a <=? event_severity event)%fl = true) alerts
      /\ detected_events (self w') = slice_last 100 (detected_events d ++ [event])
      /\ last (detected_events (self w')) = Some event
      /\ last_alert_time (self w') = Some recorded
      /\ (exists k, recorded = clock k /\ (now_calls w <= k < now_calls w')%nat)
      /\ alert_count_today (self w') = alert_count_today d + 1
      /\ trace w' = trace w ++ invocations (notification_callbacks d) event (self w')
      /\ (forall outcomes : list Effect,
            trace w' = trace w ++ outcomes ->
            map (fun e => match e with
                          | Invoked id _ _ _ => Some id
                          | Slept _ => None
                          end) outcomes
            = map (fun callback => Some (callback_id callback)) (notification_callbacks d))
      /\ (forall (callback : Callback) (w0 : World),
            notification_callbacks (self (run (register_notification_callback callback) w0))
            = notification_callbacks (self w0) ++ [callback])
      /\ (forall w0 : World,
            exists seconds,
              last (trace (run loop_iteration w0)) = Some (Slept seconds)
              /\ is_Some (last_check_time (self (run loop_iteration w0)))).
Proof.
  intros w alerts Hacc Hmax Hne Hnan d w'. subst d w'.
  rewrite (handle_alerts_accepting _ _ Hacc).
  set (event := combined_alert_of alerts (clock (now_calls w + cooldown_reads (self w)))).
  exists event, (clock (S (now_calls w + cooldown_reads (self w)))).
  assert (Hmaximum := py_max_is_maximum (map alert_severity alerts) (Fin 0)).
  destruct Hmaximum as [Hin Hall].
  { destruct alerts; [congruence | discriminate]. }
  { rewrite Forall_map. exact Hnan. }
  split; [reflexivity|]. split.
  { apply in_map_iff in Hin. destruct Hin as (a & Ha & Hin). eauto. }
  split.
  { rewrite Forall_map in Hall. exact Hall. }
  split; [apply dispatched_history, Hmax|].
  split; [rewrite dispatched_history by exact Hmax; apply slice_last_snoc|].
  split; [reflexivity|].
  split; [eexists; split; [reflexivity | simpl; lia]|].
  split; [reflexivity|].
  split; [reflexivity|].
  split; [|split; [reflexivity | apply loop_iteration_completes]].
  intros outcomes Houtcomes. simpl in Houtcomes.
  apply app_inv_head in Houtcomes. subst outcomes.
  unfold invocations. rewrite map_map. reflexivity.
Qed.

(** C10: on a dispatched tick the event is in the history,
    [last_alert_time] is set and [alert_count_today] is incremented before
    the first callback is invoked: every callback is run against the
    detector as [_handle_alerts] leaves it, and the updates are there
    whatever the callbacks do, also when each of them raises. *)
Theorem gate_state_updated_before_callbacks :
  forall (w : World) (alerts : list Alert),
    gate_state (self w) (clock (now_calls w)) = ACCEPTING ->
    let d := self w in
    let w' := run (_handle_alerts alerts) w in
    (exists (event : Event) (recorded : datetime),
        last (detected_events (self w')) = Some event
        /\ event_details event = alerts
        /\ last_alert_time (self w') = Some recorded
        /\ alert_count_today (self w') = alert_count_today d + 1
        /\ exists invoked,
            trace w' = trace w ++ invoked
            /\ length invoked = length (notification_callbacks d)
            /\ Forall (fun e =>
                         match e with
                         | Invoked _ seen_event seen _ =>
                             seen_event = event
                             /\ seen = snapshot (self w')
                             /\ last (seen_events seen) = Some event
                             /\ seen_last_alert_time seen = Some recorded
                             /\ seen_alert_count_today seen = alert_count_today d + 1
                         | Slept _ => False
                         end) invoked)
    /\ ((forall callback seen event,
            In callback (notification_callbacks d) ->
            callback_run callback seen event = RaisesException) ->
        self w' = self (dispatched alerts w)
        /\ alert_count_today (self w') = alert_count_today d + 1
        /\ is_Some (last_alert_time (self w'))
        /\ length (detected_events (self w')) <> 0%nat).
Proof.
  intros w alerts Hacc d w'. subst d w'.
  rewrite (handle_alerts_accepting _ _ Hacc).
  set (event := combined_alert_of alerts (clock (now_calls w + cooldown_reads (self w)))).
  assert (Hlast : last (detected_events (self (dispatched alerts w))) = Some event).
  { simpl. destruct (_ >? _); [apply slice_last_snoc | apply last_snoc]. }
  split.
  - exists event, (clock (S (now_calls w + cooldown_reads (self w)))).
    split; [exact Hlast|]. do 3 (split; [reflexivity|]).
    exists (invocations (notification_callbacks (self w)) event (self (dispatched alerts w))).
    split; [reflexivity|]. split; [apply length_map|].
    unfold invocations. rewrite Forall_map. apply Forall_forall.
    intros callback _. split; [reflexivity|]. split; [reflexivity|].
    split; [exact Hlast|]. split; reflexivity.
  - intros _. split; [reflexivity|]. split; [reflexivity|].
    split; [simpl; eauto|].
    intros Hlen. apply length_zero_iff_nil in Hlen. rewrite Hlen in Hlast. discriminate.
Qed.

End Dispatch.

(** ** The event history *)

Ltac frame_untouched weaken :=
  apply (frame_weaken untouched _ _ weaken);
  first [ apply untouched_check_volatility
        | apply untouched_check_volume
        | apply untouched_check_correlation_breakdown
        | apply untouched_save_correlation_plot
        | apply untouched_fetch_current_data
        | apply untouched_manual_check
        | apply untouched_suppression ].

Ltac frame_methods weaken handle :=
  unfold perform, start_monitoring, stop_monitoring, loop_iteration,
    reset_alert_counter, record_check_and_wait, _load_historical_reference_data,
    _calculate_correlations, get_event_history, set_data_pipeline,
    register_notification_callback, _check_market_conditions;
  frame_walk ltac:(first [ frame_prim | frame_untouched weaken | apply handle ]).

Section History.

Context {ext : External}.

Lemma history_handle_alerts (alerts : list Alert) :
  frame keeps_history_bounded (_handle_alerts alerts).
Proof.
  intros w [Hmax Hlen]. unfold run. rewrite handle_alerts_cases.
  destruct (gate_state _ _); simpl snd; try (split; assumption).
  split; [exact Hmax|].
  rewrite dispatched_history by exact Hmax.
  apply (slice_last_length 100). lia.
Qed.

Lemma history_perform (c : Call) : frame keeps_history_bounded (perform c).
Proof.
  destruct c;
    frame_methods untouched_keeps_history_bounded history_handle_alerts.
Qed.

Lemma reachable_history_bounded (w : World) :
  reachable w -> history_bounded (self w).
Proof.
  induction 1 as [config|w c Hw IH].
  - split; [reflexivity | simpl; lia].
  - apply history_perform, IH.
Qed.

Lemma reachable_iterated (c : Call) (n : nat) (w : World) :
  reachable w -> reachable (Nat.iter n (run (perform c)) w).
Proof.
  intros H. induction n as [|n IH]; [exact H|].
  cbn [Nat.iter]. apply reachable_call, IH.
Qed.

(** C7: in every state the detector can reach the event history holds at
    most 100 events; a dispatch puts the new event at the end and, when
    that makes 101, drops the oldest one from the front: the history after
    is the history before with the event appended, less a prefix, so the
    order of what remains is kept. *)
Theorem event_history_bounded :
  forall (w : World),
    reachable w ->
    (length (detected_events (self w)) <= 100)%nat
    /\ forall (alerts : list Alert),
        gate_state (self w) (clock (now_calls w)) = ACCEPTING ->
        let before := detected_events (self w) in
        let after := detected_events (self (run (_handle_alerts alerts) w)) in
        exists (event : Event) (evicted : list Event),
          before ++ [event] = evicted ++ after
          /\ last after = Some event
          /\ length evicted = (length before + 1 - 100)%nat
          /\ ((length before < 100)%nat -> evicted = [] /\ after = before ++ [event])
          /\ (length before = 100%nat ->
              exists oldest, evicted = [oldest] /\ before = oldest :: removelast after).
Proof.
  intros w Hreach.
  destruct (reachable_history_bounded w Hreach) as [Hmax Hlen].
  split; [exact Hlen|].
  intros alerts Hacc before after. subst before after.
  rewrite (handle_alerts_accepting _ _ Hacc), (dispatched_history _ _ Hmax).
  set (event := combined_alert_of alerts (clock (now_calls w + cooldown_reads (self w)))).
  set (before := detected_events (self w)) in *.
  destruct (slice_last_suffix 100 (before ++ [event])) as (evicted & Heq & Hev); [lia|].
  rewrite length_app in Hev. simpl in Hev.
  exists event, evicted.
  split; [exact Heq|]. split; [apply slice_last_snoc|]. split; [exact Hev|]. split.
  - intros Hlt. assert (evicted = []) as -> by (apply length_zero_iff_nil; lia).
    split; [reflexivity|]. simpl in Heq. congruence.
  - intros H100. destruct evicted as [|oldest [|? ?]]; simpl in Hev; try lia.
    exists oldest. split; [reflexivity|].
    destruct (slice_last 100 (before ++ [event])) as [|e rest] eqn:Hslice using rev_ind.
    + pose proof (slice_last_snoc 100 before event) as Hl.
      rewrite Hslice in Hl. discriminate.
    + pose proof (slice_last_snoc 100 before event) as Hl.
      rewrite Hslice, last_snoc in Hl. injection Hl as ->.
      rewrite removelast_last. simpl in Heq.
      change (oldest :: rest ++ [event]) with ((oldest :: rest) ++ [event]) in Heq.
      apply app_inj_tail in Heq. tauto.
Qed.

End History.

(** ** Means of columns of numbers *)

Lemma dropna_fin (xs : list Q) : dropna (map Fin xs) = map Fin xs.
Proof.
  unfold dropna. induction xs as [|x xs IH]; [reflexivity|].
  simpl map. rewrite filter_cons_True by reflexivity. rewrite IH. reflexivity.
Qed.

Lemma fold_add_fin (xs : list Q) (acc : Q) :
  fold_left Float.add (map Fin xs) (Fin acc) = Fin (fold_left Qplus xs acc).
Proof.
  revert acc. induction xs as [|x xs IH]; intros acc; [reflexivity|].
  simpl. apply IH.
Qed.

Lemma inject_nat_nonzero (n : nat) :
  n <> 0%nat -> Qeq_bool (inject_Z (Z.of_nat n)) 0 = false.
Proof.
  intros Hn. destruct (Qeq_bool _ _) eqn:E; [|reflexivity].
  apply Qeq_bool_eq in E. unfold Qeq in E. simpl in E. lia.
Qed.

(** The mean of a non-empty column of numbers. *)
Lemma mean_fin (xs : list Q) :
  xs <> [] ->
  mean (map Fin xs) = Fin (Qsum xs / inject_Z (Z.of_nat (length xs))).
Proof.
  intros Hne. unfold mean. rewrite dropna_fin.
  destruct xs as [|x xs]; [congruence|].
  change (map Fin (x :: xs)) with (Fin x :: map Fin xs).
  cbv iota beta. change (Fin x :: map Fin xs) with (map Fin (x :: xs)).
  unfold fsum, count, Float.of_Z. rewrite fold_add_fin, length_map.
  unfold Float.div. rewrite inject_nat_nonzero by discriminate. reflexivity.
Qed.

Lemma fold_Qplus_acc (xs : list Q) (acc : Q) :
  (fold_left Qplus xs acc == acc + fold_left Qplus xs 0)%Q.
Proof.
  revert acc. induction xs as [|x xs IH]; intros acc; simpl.
  - ring.
  - rewrite (IH (acc + x)%Q), (IH (0 + x)%Q). ring.
Qed.

Lemma Qsum_scaled (sums : list Q) (k : Q) :
  (Qsum (map (fun s => s / k) sums) == Qsum sums / k)%Q.
Proof.
  unfold Qsum. induction sums as [|s sums IH]; simpl.
  - unfold Qdiv. ring.
  - rewrite (fold_Qplus_acc _ (0 + s / k)), (fold_Qplus_acc _ (0 + s)), IH.
    unfold Qdiv. ring.
Qed.

(** [.mean().mean()] on a table of numbers with columns of equal length is
    the mean over all of its cells. *)
Lemma mean_of_column_means (columns : list (list Q)) (rows : nat) :
  columns <> [] -> rows <> 0%nat ->
  Forall (fun column => length column = rows) columns ->
  (mean (map mean (map (map Fin) columns)) =? Fin (mean_of_cells columns rows))%fl = true.
Proof.
  intros Hne Hrows Hall.
  assert (Hmeans : map mean (map (map Fin) columns)
                   = map Fin (map (fun column => (Qsum column / inject_Z (Z.of_nat rows))%Q)
                                  columns)).
  { rewrite !map_map. apply map_ext_in. intros column Hin.
    rewrite Forall_forall in Hall.
    assert (Hlen : length column = rows) by (apply Hall, list_elem_of_In, Hin).
    rewrite mean_fin by (intros ->; simpl in Hlen; congruence).
    rewrite Hlen. reflexivity. }
  rewrite Hmeans, mean_fin by (destruct columns; [congruence | discriminate]).
  rewrite length_map. simpl Float.eqb. apply Qeq_eq_bool.
  rewrite <- (map_map Qsum (fun s => (s / inject_Z (Z.of_nat rows))%Q)), Qsum_scaled.
  unfold mean_of_cells. rewrite Nat2Z.inj_mul, inject_Z_mult.
  assert (Hc : ~ (inject_Z (Z.of_nat (length columns)) == 0)%Q).
  { apply Qeq_bool_neq, inject_nat_nonzero. destruct columns; [congruence | discriminate]. }
  assert (Hr : ~ (inject_Z (Z.of_nat rows) == 0)%Q).
  { apply Qeq_bool_neq, inject_nat_nonzero, Hrows. }
  field. split; assumption.
Qed.

(** ** Returns and their variance *)

Lemma Qsum_map_ext (f g : Q -> Q) (xs : list Q) :
  (forall x, f x == g x)%Q -> (Qsum (map f xs) == Qsum (map g xs))%Q.
Proof.
  intros H. unfold Qsum. induction xs as [|x xs IH]; simpl; [reflexivity|].
  rewrite (fold_Qplus_acc _ (0 + f x)), (fold_Qplus_acc _ (0 + g x)), IH, (H x).
  reflexivity.
Qed.

Lemma pct_change_from_numbers (prev : Q) (rest : list Q) :
  ~ (prev == 0)%Q ->
  Forall (fun q => ~ (q == 0)%Q) rest ->
  pct_change_from (Fin prev) (map Fin rest)
  = map Fin (map (fun i => (nth (S i) (prev :: rest) 0 / nth i (prev :: rest) 0 - 1)%Q)
                 (seq 0 (length rest))).
Proof.
  revert prev. induction rest as [|x rest IH]; intros prev Hprev Hrest; [reflexivity|].
  apply Forall_cons in Hrest. destruct Hrest as [Hx Hrest].
  cbn [map pct_change_from length seq]. rewrite (IH x Hx Hrest). f_equal.
  - unfold Float.div.
    destruct (Qeq_bool prev 0) eqn:E; [apply Qeq_bool_eq in E; contradiction|].
    reflexivity.
  - rewrite <- seq_shift, !map_map. reflexivity.
Qed.

(** The returns pandas computes from a series of prices none of which is
    zero. *)
Lemma returns_of_prices (prices : list Q) :
  Forall (fun q => ~ (q == 0)%Q) prices ->
  dropna (pct_change (map Fin prices)) = map Fin (simple_returns prices).
Proof.
  intros Hprices. destruct prices as [|first rest]; [reflexivity|].
  apply Forall_cons in Hprices. destruct Hprices as [Hfirst Hrest].
  cbn [map pct_change]. unfold dropna. rewrite filter_cons_False by discriminate.
  fold (dropna (pct_change_from (Fin first) (map Fin rest))).
  rewrite (pct_change_from_numbers first rest Hfirst Hrest), dropna_fin.
  unfold simple_returns.
  replace (length (first :: rest) - 1)%nat with (length rest) by (simpl; lia).
  reflexivity.
Qed.

(** The variance pandas computes from at least two numbers, the missing
    values apart. *)
Lemma var_of_numbers (xs : list float64) (qs : list Q) :
  dropna xs = map Fin qs ->
  (2 <= length qs)%nat ->
  exists variance, var xs = Fin variance /\ (variance == sample_variance qs)%Q.
Proof.
  intros Hvals Hlen. unfold var. rewrite Hvals, length_map.
  destruct (Nat.leb_spec (length qs) 1) as [Hle|_]; [lia|].
  unfold fsum, count, Float.of_Z. rewrite fold_add_fin, length_map.
  assert (Hn : Qeq_bool (inject_Z (Z.of_nat (length qs))) 0 = false)
    by (apply inject_nat_nonzero; lia).
  assert (Havg : (Fin (fold_left Qplus qs 0%Q) / Fin (inject_Z (Z.of_nat (length qs))))%fl
                 = Fin (Qmean qs))
    by (unfold Float.div; rewrite Hn; reflexivity).
  rewrite Havg.
  assert (Hsquares :
            map (fun x => ((Fin (Qmean qs) - x) * (Fin (Qmean qs) - x))%fl) (map Fin qs)
            = map Fin (map (fun q => ((Qmean qs - q) * (Qmean qs - q))%Q) qs))
    by (rewrite !map_map; reflexivity).
  rewrite Hsquares, fold_add_fin.
  assert (Hd : Qeq_bool (inject_Z (Z.of_nat (length qs)) + - (1))%Q 0 = false).
  { clear Hn Havg Hsquares.
    destruct (Qeq_bool (inject_Z (Z.of_nat (length qs)) + - (1))%Q 0) eqn:E; [|reflexivity].
    apply Qeq_bool_eq in E. unfold Qeq in E. simpl in E. lia. }
  eexists. split.
  - unfold Float.sub, Float.neg, Float.add, Float.div. rewrite Hd. reflexivity.
  - unfold sample_variance. apply Qdiv_comp; [|reflexivity].
    apply (Qsum_map_ext (fun q => (Qmean qs - q) * (Qmean qs - q))%Q
                        (fun q => (q - Qmean qs) * (q - Qmean qs))%Q).
    intros q. ring.
Qed.

Lemma var_same_values (xs ys : list float64) : dropna xs = dropna ys -> var xs = var ys.
Proof. intros H. unfold var. rewrite H. reflexivity. Qed.

(** ** The volatility and volume evaluators *)

Section Evaluators.

Context {ext : External}.

Lemma for_each_alerts
    (trigger : Detector -> string * DataFrame -> option (datetime -> Alert))
    (body : list Alert -> string * DataFrame -> M (list Alert)) :
  (forall acc item w,
      body acc item w
      = match trigger (self w) item with
        | Some alert_at => (acc ++ [alert_at (clock (now_calls w))], clock_read w)
        | None => (acc, w)
        end) ->
  forall items acc w,
    for_each items acc body w
    = (acc ++ alerts_from (trigger (self w)) items (now_calls w),
       {| self := self w;
          now_calls := now_calls w + length (alerts_from (trigger (self w)) items (now_calls w));
          requests := requests w; trace := trace w |}).
Proof.
  intros Hbody items.
  induction items as [|item rest IH]; intros acc w; simpl.
  - unfold ret. rewrite app_nil_r, Nat.add_0_r, world_eta. reflexivity.
  - unfold bind. rewrite Hbody.
    destruct (trigger (self w) item) as [alert_at|].
    + rewrite IH. simpl. rewrite <- app_assoc, Nat.add_succ_r. reflexivity.
    + apply IH.
Qed.

Lemma check_volatility_alerts (current_data : PyDict DataFrame) (w : World) :
  result (_check_volatility current_data) w
  = alerts_from (volatility_trigger (self w)) current_data (now_calls w).
Proof.
  unfold result, _check_volatility.
  rewrite (for_each_alerts volatility_trigger); [reflexivity|].
  intros acc item w'. unfold bind, get_self, volatility_trigger.
  destruct (historical_stats (self w') !! fst item); [|reflexivity].
  destruct (_ >? _)%fl; reflexivity.
Qed.

Lemma check_volume_alerts (current_data : PyDict DataFrame) (w : World) :
  result (_check_volume current_data) w
  = alerts_from (volume_trigger (self w)) current_data (now_calls w).
Proof.
  unfold result, _check_volume.
  rewrite (for_each_alerts volume_trigger); [reflexivity|].
  intros acc item w'. unfold bind, get_self, volume_trigger.
  destruct (last (volumes (snd item))); [|reflexivity].
  destruct (historical_stats (self w') !! fst item); [|reflexivity].
  destruct (_ >? _)%fl; reflexivity.
Qed.

Lemma in_alerts_from (trigger : string * DataFrame -> option (datetime -> Alert))
    (items : PyDict DataFrame) (n : nat) (a : Alert) :
  In a (alerts_from trigger items n) ->
  exists item alert_at t,
    In item items /\ trigger item = Some alert_at /\ a = alert_at t.
Proof.
  revert n. induction items as [|item rest IH]; intros n; simpl; [tauto|].
  destruct (trigger item) as [alert_at|] eqn:E.
  - intros [<-|Hin].
    + exists item, alert_at, (clock n). auto.
    + destruct (IH _ Hin) as (item' & alert_at' & t & ? & ? & ?).
      exists item', alert_at', t. auto.
  - intros Hin. destruct (IH _ Hin) as (item' & alert_at' & t & ? & ? & ?).
    exists item', alert_at', t. auto.
Qed.

Lemma alerts_from_in (trigger : string * DataFrame -> option (datetime -> Alert))
    (items : PyDict DataFrame) (n : nat) (item : string * DataFrame)
    (alert_at : datetime -> Alert) :
  In item items -> trigger item = Some alert_at ->
  exists t, In (alert_at t) (alerts_from trigger items n).
Proof.
  revert n. induction items as [|item' rest IH]; intros n; simpl; [tauto|].
  intros [->|Hin] Htrigger.
  - rewrite Htrigger. exists (clock n). left. reflexivity.
  - destruct (trigger item') as [alert_at'|].
    + destruct (IH (S n) Hin Htrigger) as [t Ht]. exists t. right. exact Ht.
    + apply IH; assumption.
Qed.

Lemma dict_key_unique {V : Type} (d : PyDict V) (k : string) (v v' : V) :
  NoDup (dict_keys d) -> In (k, v) d -> In (k, v') d -> v = v'.
Proof.
  unfold dict_keys. induction d as [|[k0 v0] rest IH]; simpl; [tauto|].
  intros Hnodup. apply NoDup_cons in Hnodup. destruct Hnodup as [Hnotin Hnodup].
  assert (Hkey : forall u, In (k0, u) rest -> False).
  { intros u Hu. apply Hnotin. apply list_elem_of_In.
    apply (in_map fst) in Hu. exact Hu. }
  intros [H1|H1] [H2|H2]; try congruence.
  - injection H1 as -> ->. exfalso. eauto.
  - injection H2 as -> ->. exfalso. eauto.
  - auto.
Qed.

Lemma severity_volatility (d : Detector) (value : float64) :
  (value >? Fin (volatility_threshold (cfg d)))%fl = true ->
  _calculate_severity d "volatility" value
  = clip (volatility_ramp (cfg d) value) (Fin 0) (Fin 1).
Proof.
  intros H. unfold _calculate_severity. simpl.
  rewrite py_min_max_severity. apply severity_of_ramp_clip, ramp_not_nan, H.
Qed.

Lemma severity_volume (d : Detector) (value : float64) :
  (value >? Fin (volume_threshold (cfg d)))%fl = true ->
  _calculate_severity d "volume" value
  = clip (volume_ramp (cfg d) value) (Fin 0) (Fin 1).
Proof.
  intros H. unfold _calculate_severity. simpl.
  rewrite py_min_max_severity. apply severity_of_ramp_clip, ramp_not_nan, H.
Qed.

Lemma volatility_trigger_inv (d : Detector) (item : string * DataFrame)
    (alert_at : datetime -> Alert) :
  volatility_trigger d item = Some alert_at ->
  exists stats,
    historical_stats d !! fst item = Some stats
    /\ (volatility_ratio (snd item) stats >? Fin (volatility_threshold (cfg d)))%fl = true
    /\ alert_at = volatility_alert d (fst item) (snd item) stats.
Proof.
  unfold volatility_trigger.
  destruct (historical_stats d !! fst item) as [stats|]; [|discriminate].
  destruct (_ >? _)%fl eqn:E; [|discriminate].
  intros [= <-]. exists stats. auto.
Qed.

Lemma volume_trigger_inv (d : Detector) (item : string * DataFrame)
    (alert_at : datetime -> Alert) :
  volume_trigger d item = Some alert_at ->
  exists current_volume stats,
    last (volumes (snd item)) = Some current_volume
    /\ historical_stats d !! fst item = Some stats
    /\ (current_volume / mean_volume stats >? Fin (volume_threshold (cfg d)))%fl = true
    /\ alert_at = volume_alert d (fst item) current_volume stats.
Proof.
  unfold volume_trigger.
  destruct (last (volumes (snd item))) as [current_volume|]; [|discriminate].
  destruct (historical_stats d !! fst item) as [stats|]; [|discriminate].
  destruct (_ >? _)%fl eqn:E; [|discriminate].
  intros [= <-]. exists current_volume, stats. auto.
Qed.

(** The standard deviation of the returns of a frame of at least three
    bars whose closes are not zero: the returns are every close over the
    one before it, less 1, and the standard deviation is the square root of
    their sample variance. *)
Lemma std_of_returns (data : DataFrame) :
  Forall (fun bar => ~ (bar_close bar == 0)%Q) data ->
  (3 <= length data)%nat ->
  let returns := simple_returns (map bar_close data) in
  dropna (pct_change (closes data)) = map Fin returns
  /\ exists variance,
       (variance == sample_variance returns)%Q
       /\ std (dropna (pct_change (closes data))) = np_sqrt (Fin variance)
       /\ std (pct_change (closes data)) = np_sqrt (Fin variance).
Proof.
  intros Hcloses Hlen returns.
  assert (Hreturns : dropna (pct_change (closes data)) = map Fin returns).
  { unfold closes. rewrite <- (map_map bar_close Fin).
    apply returns_of_prices. apply Forall_map. exact Hcloses. }
  split; [exact Hreturns|].
  destruct (var_of_numbers (pct_change (closes data)) returns Hreturns)
    as (variance & Hvar & Hvalue).
  { unfold returns, simple_returns. rewrite length_map, length_seq, length_map. lia. }
  exists variance. split; [exact Hvalue|]. unfold std.
  rewrite (var_same_values (dropna (pct_change (closes data))) (pct_change (closes data))).
  - rewrite Hvar. split; reflexivity.
  - rewrite Hreturns. apply dropna_fin.
Qed.

(** C4: for a symbol with current data and a baseline, [_check_volatility]
    produces a volatility alert for the symbol if and only if the ratio of
    the intraday volatility (standard deviation of the intraday returns
    times the square root of 24) to the baseline volatility (standard
    deviation of the daily returns times the square root of 252) exceeds
    [volatility_threshold]; the alert's severity is the clipping of
    (ratio - threshold) / (2 threshold) to [0,1].  A symbol without a
    baseline gets no alert.  The detector is left as it was.  The intraday
    returns are every close over the close before it, less 1, and their
    standard deviation is the square root of their sample variance (the
    sum of the squared deviations from the mean, over their number less 1);
    so is the standard deviation that the load of the baseline stores for a
    frame of daily bars.  This is stated for frames of at least three bars
    without a close of zero: with fewer bars the standard deviation is not
    a number, and a close of zero makes a return infinite. *)
Theorem volatility_alert_iff :
  forall (w : World) (current_data : PyDict DataFrame) (symbol : string) (data : DataFrame),
    NoDup (dict_keys current_data) ->
    In (symbol, data) current_data ->
    let d := self w in
    let alerts := result (_check_volatility current_data) w in
    (forall stats,
        historical_stats d !! symbol = Some stats ->
        let ratio := volatility_ratio data stats in
        ((ratio >? Fin (volatility_threshold (cfg d)))%fl = true
         <-> exists a, In a alerts /\ alert_type a = "volatility"
                       /\ alert_symbol a = Some symbol)
        /\ (forall a,
              In a alerts -> alert_symbol a = Some symbol ->
              alert_type a = "volatility"
              /\ alert_severity a = clip (volatility_ramp (cfg d) ratio) (Fin 0) (Fin 1)
              /\ In ("volatility_ratio", ratio) (alert_details a)))
    /\ (historical_stats d !! symbol = None ->
        forall a, In a alerts -> alert_symbol a <> Some symbol)
    /\ (cfg d = default_config -> volatility_threshold (cfg d) = 3.5%Q)
    /\ untouched w (run (_check_volatility current_data) w)
    /\ (Forall (fun bar => ~ (bar_close bar == 0)%Q) data ->
        (3 <= length data)%nat ->
        let returns := simple_returns (map bar_close data) in
        dropna (pct_change (closes data)) = map Fin returns
        /\ exists variance,
             (variance == sample_variance returns)%Q
             /\ forall stats,
                  volatility_ratio data stats
                  = ((np_sqrt (Fin variance) * np_sqrt (Fin 24))
                     / (std_returns stats * np_sqrt (Fin 252)))%fl)
    /\ (forall history,
          Forall (fun bar => ~ (bar_close bar == 0)%Q) history ->
          (3 <= length history)%nat ->
          exists variance,
            (variance == sample_variance (simple_returns (map bar_close history)))%Q
            /\ std_returns (historical_stats_of history) = np_sqrt (Fin variance)).
Proof.
  intros w current_data symbol data Hnodup Hin d alerts. subst d alerts.
  rewrite check_volatility_alerts.
  assert (Hinv : forall a,
             In a (alerts_from (volatility_trigger (self w)) current_data (now_calls w)) ->
             alert_symbol a = Some symbol ->
             exists stats t,
               historical_stats (self w) !! symbol = Some stats
               /\ (volatility_ratio data stats
                   >? Fin (volatility_threshold (cfg (self w))))%fl = true
               /\ a = volatility_alert (self w) symbol data stats t).
  { intros a Ha Hsym.
    destruct (in_alerts_from _ _ _ _ Ha) as ([symbol' data'] & alert_at & t & Hitem & Htr & ->).
    destruct (volatility_trigger_inv _ _ _ Htr) as (stats & Hstats & Hratio & ->).
    simpl in *. injection Hsym as ->.
    rewrite (dict_key_unique _ _ _ _ Hnodup Hitem Hin) in *.
    exists stats, t. auto. }
  split; [|split; [|split; [|split; [|split]]]].
  - intros stats Hstats ratio. subst ratio. split; [split|].
    + intros Hratio.
      destruct (alerts_from_in (volatility_trigger (self w)) current_data (now_calls w)
                  (symbol, data) (volatility_alert (self w) symbol data stats) Hin)
        as [t Ht].
      { unfold volatility_trigger. cbn [fst snd]. rewrite Hstats.
        change (current_volatility data / historical_volatility stats)%fl
          with (volatility_ratio data stats).
        rewrite Hratio. reflexivity. }
      eexists. split; [exact Ht|]. split; reflexivity.
    + intros (a & Ha & _ & Hsym).
      destruct (Hinv a Ha Hsym) as (stats' & t & Hstats' & Hratio & _).
      congruence.
    + intros a Ha Hsym.
      destruct (Hinv a Ha Hsym) as (stats' & t & Hstats' & Hratio & ->).
      assert (stats' = stats) as -> by congruence.
      split; [reflexivity|]. split.
      * apply severity_volatility. exact Hratio.
      * simpl. auto.
  - intros Hnone a Ha Hsym.
    destruct (Hinv a Ha Hsym) as (stats' & t & Hstats' & _). congruence.
  - intros ->. reflexivity.
  - apply untouched_check_volatility.
  - intros Hcloses Hlen returns.
    destruct (std_of_returns data Hcloses Hlen) as (Hreturns & variance & Hvalue & Hstd & _).
    split; [exact Hreturns|]. exists variance. split; [exact Hvalue|].
    intros stats. unfold volatility_ratio. rewrite Hstd. reflexivity.
  - intros history Hcloses Hlen.
    destruct (std_of_returns history Hcloses Hlen) as (_ & variance & Hvalue & _ & Hstd).
    exists variance. split; [exact Hvalue | exact Hstd].
Qed.

(** C5: for a symbol with current data, the volume ratio (the last bar's
    volume over the baseline mean volume) exceeds [volume_threshold] if and
    only if [_check_volume] produces a volume alert for the symbol; the
    alert's severity is the clipping of (ratio - threshold) / (3 threshold)
    to [0,1]. *)
Theorem volume_alert_iff :
  forall (w : World) (current_data : PyDict DataFrame) (symbol : string) (data : DataFrame),
    NoDup (dict_keys current_data) ->
    In (symbol, data) current_data ->
    let d := self w in
    let alerts := result (_check_volume current_data) w in
    ((exists ratio,
         volume_ratio d symbol data = Some ratio
         /\ (ratio >? Fin (volume_threshold (cfg d)))%fl = true)
     <-> exists a, In a alerts /\ alert_type a = "volume" /\ alert_symbol a = Some symbol)
    /\ (forall a,
          In a alerts -> alert_symbol a = Some symbol ->
          exists ratio,
            volume_ratio d symbol data = Some ratio
            /\ alert_type a = "volume"
            /\ alert_severity a = clip (volume_ramp (cfg d) ratio) (Fin 0) (Fin 1)
            /\ In ("volume_ratio", ratio) (alert_details a))
    /\ (cfg d = default_config -> volume_threshold (cfg d) = 5.0%Q)
    /\ untouched w (run (_check_volume current_data) w).
Proof.
  intros w current_data symbol data Hnodup Hin d alerts. subst d alerts.
  rewrite check_volume_alerts.
  assert (Hinv : forall a,
             In a (alerts_from (volume_trigger (self w)) current_data (now_calls w)) ->
             alert_symbol a = Some symbol ->
             exists current_volume stats t,
               volume_ratio (self w) symbol data
               = Some (current_volume / mean_volume stats)%fl
               /\ (current_volume / mean_volume stats
                   >? Fin (volume_threshold (cfg (self w))))%fl = true
               /\ a = volume_alert (self w) symbol current_volume stats t).
  { intros a Ha Hsym.
    destruct (in_alerts_from _ _ _ _ Ha) as ([symbol' data'] & alert_at & t & Hitem & Htr & ->).
    destruct (volume_trigger_inv _ _ _ Htr) as (vol & stats & Hvol & Hstats & Hratio & ->).
    simpl in *. injection Hsym as ->.
    rewrite (dict_key_unique _ _ _ _ Hnodup Hitem Hin) in *.
    exists vol, stats, t. unfold volume_ratio. rewrite Hvol, Hstats. auto. }
  split; [split|split; [|split]].
  - intros (ratio & Hdef & Hratio).
    unfold volume_ratio in Hdef.
    destruct (last (volumes data)) as [vol|] eqn:Hvol; [|discriminate].
    destruct (historical_stats (self w) !! symbol) as [stats|] eqn:Hstats; [|discriminate].
    injection Hdef as <-.
    destruct (alerts_from_in (volume_trigger (self w)) current_data (now_calls w)
                (symbol, data) (volume_alert (self w) symbol vol stats) Hin)
      as [t Ht].
    { unfold volume_trigger. cbn [fst snd]. rewrite Hvol, Hstats, Hratio. reflexivity. }
    eexists. split; [exact Ht|]. split; reflexivity.
  - intros (a & Ha & _ & Hsym).
    destruct (Hinv a Ha Hsym) as (vol & stats & t & Hdef & Hratio & _). eauto.
  - intros a Ha Hsym.
    destruct (Hinv a Ha Hsym) as (vol & stats & t & Hdef & Hratio & ->).
    eexists. split; [exact Hdef|]. split; [reflexivity|]. split.
    + apply severity_volume. exact Hratio.
    + simpl. auto.
  - intros ->. reflexivity.
  - apply untouched_check_volume.
Qed.

End Evaluators.

(** ** Dictionaries *)

Lemma dict_set_keys {V : Type} (k : string) (v : V) (d : PyDict V) (k' : string) :
  In k' (dict_keys (dict_set k v d)) <-> k' = k \/ In k' (dict_keys d).
Proof.
  unfold dict_keys. induction d as [|[k0 v0] rest IH]; simpl.
  - intuition congruence.
  - destruct (String.eqb_spec k0 k) as [->|Hne]; simpl.
    + intuition congruence.
    + rewrite IH. intuition congruence.
Qed.

Lemma dict_set_NoDup {V : Type} (k : string) (v : V) (d : PyDict V) :
  NoDup (dict_keys d) -> NoDup (dict_keys (dict_set k v d)).
Proof.
  induction d as [|[k0 v0] rest IH]; simpl; intros Hnodup.
  - apply NoDup_singleton.
  - apply NoDup_cons in Hnodup. destruct Hnodup as [Hnotin Hnodup].
    destruct (String.eqb_spec k0 k) as [->|Hne].
    + apply NoDup_cons. split; assumption.
    + apply NoDup_cons. split; [|apply IH, Hnodup].
      rewrite list_elem_of_In. rewrite list_elem_of_In in Hnotin.
      intros Hin. apply (proj1 (dict_set_keys k v rest k0)) in Hin.
      destruct Hin as [->|Hin]; [congruence | exact (Hnotin Hin)].
Qed.

Lemma dict_set_entries {V : Type} (k : string) (v : V) (d : PyDict V) (k' : string) (v' : V) :
  NoDup (dict_keys d) ->
  In (k', v') (dict_set k v d) <-> (k' = k /\ v' = v) \/ (k' <> k /\ In (k', v') d).
Proof.
  induction d as [|[k0 v0] rest IH]; simpl; intros Hnodup.
  - split.
    + intros [[= <- <-]|[]]. auto.
    + intros [[-> ->]|[_ []]]. auto.
  - apply NoDup_cons in Hnodup. destruct Hnodup as [Hnotin Hnodup].
    rewrite list_elem_of_In in Hnotin.
    destruct (String.eqb_spec k0 k) as [->|Hne]; simpl.
    + split.
      * intros [[= <- <-]|Hin]; [auto|].
        right. split; [|auto]. intros ->. apply Hnotin.
        apply (in_map fst) in Hin. exact Hin.
      * intros [[-> ->]|[Hk [[= ? ?]|Hin]]]; [auto | congruence | auto].
    + rewrite (IH Hnodup). split.
      * intros [[= <- <-]|[H|H]]; [right; split; auto | auto | right; tauto].
      * intros [H|[Hk [[= <- <-]|Hin]]]; [auto | auto | right; right; auto].
Qed.

Lemma dict_set_length {V : Type} (k : string) (v : V) (d : PyDict V) :
  (length d <= length (dict_set k v d))%nat.
Proof.
  induction d as [|[k0 v0] rest IH]; simpl; [lia|].
  destruct (String.eqb k0 k); simpl; lia.
Qed.

(** ** The columns of prices *)

Lemma price_data_keeps (items : PyDict DataFrame) (acc : PyDict (list (datetime * Q)))
    (name : string) (column : list (datetime * Q)) :
  NoDup (dict_keys acc) ->
  In (name, column) acc ->
  ~ In name (map (fun item => clean_symbol (fst item)) items) ->
  In (name, column)
     (fold_left (fun price_data item =>
                   dict_set (clean_symbol (fst item)) (close_series (snd item)) price_data)
                items acc).
Proof.
  revert acc. induction items as [|[symbol data] items IH]; intros acc Hnodup Hin Hnot;
    [exact Hin|].
  cbn [fold_left fst snd]. apply IH.
  - apply dict_set_NoDup, Hnodup.
  - apply dict_set_entries; [exact Hnodup|]. right. split; [|exact Hin].
    intros ->. apply Hnot. left. reflexivity.
  - intros H. apply Hnot. right. exact H.
Qed.

Lemma price_data_entry (items : PyDict DataFrame) (acc : PyDict (list (datetime * Q))) :
  NoDup (dict_keys acc) ->
  NoDup (map (fun item => clean_symbol (fst item)) items) ->
  forall symbol data,
    In (symbol, data) items ->
    In (clean_symbol symbol, close_series data)
       (fold_left (fun price_data item =>
                     dict_set (clean_symbol (fst item)) (close_series (snd item)) price_data)
                  items acc).
Proof.
  revert acc. induction items as [|[symbol0 data0] items IH];
    intros acc Hacc Hnames symbol data Hin; [destruct Hin|].
  cbn [fold_left fst snd]. cbn [map fst] in Hnames.
  apply NoDup_cons in Hnames. destruct Hnames as [Hnot Hnames].
  destruct Hin as [[= -> ->]|Hin].
  - apply price_data_keeps.
    + apply dict_set_NoDup, Hacc.
    + apply dict_set_entries; [exact Hacc|]. left. split; reflexivity.
    + rewrite <- list_elem_of_In. exact Hnot.
  - apply IH; [apply dict_set_NoDup, Hacc | exact Hnames | exact Hin].
Qed.

Lemma price_data_origin (items : PyDict DataFrame) (acc : PyDict (list (datetime * Q))) :
  NoDup (dict_keys acc) ->
  forall name column,
    In (name, column)
       (fold_left (fun price_data item =>
                     dict_set (clean_symbol (fst item)) (close_series (snd item)) price_data)
                  items acc) ->
    In (name, column) acc
    \/ exists symbol data,
         In (symbol, data) items /\ name = clean_symbol symbol /\ column = close_series data.
Proof.
  revert acc. induction items as [|[symbol0 data0] items IH]; intros acc Hacc name column H;
    [left; exact H|].
  cbn [fold_left fst snd] in H.
  destruct (IH _ (dict_set_NoDup _ _ _ Hacc) _ _ H) as [Hin|(symbol & data & Hin & -> & ->)].
  - apply dict_set_entries in Hin; [|exact Hacc].
    destruct Hin as [[-> ->]|[_ Hin]]; [|left; exact Hin].
    right. exists symbol0, data0. split; [left; reflexivity | split; reflexivity].
  - right. exists symbol, data. split; [right; exact Hin | split; reflexivity].
Qed.

Lemma str_replace_get (old new : Ascii.ascii) (s : string) (i : nat) :
  String.get i (str_replace old new s)
  = option_map (fun c => if Ascii.eqb c old then new else c) (String.get i s).
Proof.
  revert i. induction s as [|c s IH]; intros [|i]; simpl; try reflexivity. apply IH.
Qed.

Lemma clean_symbol_get (symbol : string) (i : nat) :
  String.get i (clean_symbol symbol)
  = option_map (fun c => if (Ascii.eqb c "/" || Ascii.eqb c ":")%bool then "_"%char else c)
               (String.get i symbol).
Proof.
  unfold clean_symbol. rewrite !str_replace_get.
  destruct (String.get i symbol) as [c|]; [|reflexivity]. simpl. f_equal.
  destruct (Ascii.eqb_spec c "/"%char) as [->|Hne]; [reflexivity|].
  simpl. destruct (Ascii.eqb c ":"%char); reflexivity.
Qed.

(** ** The difference of two matrices *)

Lemma filter_known_labels (a b : list string) :
  (forall l, In l b -> In l a) ->
  filter (fun l => negb (existsb (String.eqb l) a)) b = [].
Proof.
  induction b as [|l b IH]; intros Hin; [reflexivity|].
  rewrite filter_cons_False.
  - apply IH. intros l' Hl'. apply Hin. right. exact Hl'.
  - assert (He : existsb (String.eqb l) a = true).
    { apply existsb_exists. exists l. split; [apply Hin; left; reflexivity|].
      apply String.eqb_refl. }
    rewrite He. simpl. tauto.
Qed.

Lemma union_labels_same (labels : list string) : union_labels labels labels = labels.
Proof.
  unfold union_labels. rewrite filter_known_labels by auto. apply app_nil_r.
Qed.

(** On two frames that hold matrices over the same labels,
    [np.abs(a - b).mean().mean()] is the mean absolute difference of the
    matrices. *)
Lemma mean_abs_difference_of_frames (a b : Frame) (labels : list string)
    (ma mb : string -> string -> Q) :
  labels <> [] ->
  holds_matrix a labels ma ->
  holds_matrix b labels mb ->
  mean (frame_mean (frame_abs (frame_sub a b))) = Fin (mean_absolute_difference labels ma mb).
Proof.
  intros Hne (_ & Hia & Hca & Hcells_a) (_ & Hib & Hcb & Hcells_b).
  unfold frame_sub, frame_abs, frame_mean. cbn [frame_index frame_columns].
  rewrite Hia, Hib, Hca, Hcb, union_labels_same, !map_map. cbn [fst snd].
  assert (Hmeans :
            map (fun col =>
                   mean (map Float.abs
                           (map (fun row =>
                                   match frame_cell a col row, frame_cell b col row with
                                   | Some x, Some y => (x - y)%fl
                                   | _, _ => NaN
                                   end) labels))) labels
            = map Fin (map Qmean (absolute_differences labels ma mb))).
  { unfold absolute_differences. rewrite !map_map. apply map_ext_in. intros col Hcol.
    transitivity (mean (map Fin (map (fun row => Qabs (ma col row - mb col row)) labels))).
    - f_equal. rewrite !map_map. apply map_ext_in. intros row Hrow.
      rewrite (Hcells_a col row Hcol Hrow), (Hcells_b col row Hcol Hrow). reflexivity.
    - rewrite mean_fin by (destruct labels; [congruence | discriminate]). reflexivity. }
  rewrite Hmeans, mean_fin.
  - reflexivity.
  - unfold absolute_differences. destruct labels; [congruence | discriminate].
Qed.

(** Over the rationals, the mean of the column means is the mean over all
    cells. *)
Lemma mean_absolute_difference_cells (labels : list string) (ma mb : string -> string -> Q) :
  labels <> [] ->
  (mean_absolute_difference labels ma mb
   == mean_of_cells (absolute_differences labels ma mb) (length labels))%Q.
Proof.
  intros Hne. unfold mean_absolute_difference, mean_of_cells.
  set (columns := absolute_differences labels ma mb).
  assert (Hcols : length columns = length labels)
    by (unfold columns, absolute_differences; apply length_map).
  assert (Hmeans : map Qmean columns
                   = map (fun s => (s / inject_Z (Z.of_nat (length labels)))%Q)
                         (map Qsum columns)).
  { rewrite map_map. unfold columns, absolute_differences. rewrite !map_map.
    apply map_ext. intros col. unfold Qmean. rewrite length_map. reflexivity. }
  unfold Qmean at 1. rewrite Hmeans, Qsum_scaled, length_map, length_map, Hcols.
  rewrite Nat2Z.inj_mul, inject_Z_mult.
  assert (Hn : ~ (inject_Z (Z.of_nat (length labels)) == 0)%Q).
  { apply Qeq_bool_neq, inject_nat_nonzero. destruct labels; [congruence | discriminate]. }
  field. exact Hn.
Qed.

(** ** The correlation-breakdown evaluator *)

Section Correlation.

Context {ext : External}.

Lemma keeps_baseline_from_load_preorder : PreOrder keeps_baseline_from_load.
Proof.
  split.
  - intros w H. exact H.
  - intros w1 w2 w3 H1 H2 H. auto.
Qed.

#[local] Existing Instance keeps_baseline_from_load_preorder.

Lemma untouched_keeps_baseline_from_load (w w' : World) :
  untouched w w' -> keeps_baseline_from_load w w'.
Proof. intros [Hs _] H. rewrite Hs. exact H. Qed.

Lemma baseline_handle_alerts (alerts : list Alert) :
  frame keeps_baseline_from_load (_handle_alerts alerts).
Proof.
  intros w H. unfold run. rewrite handle_alerts_cases.
  destruct (gate_state _ _); exact H.
Qed.

Lemma correlation_handle_alerts (alerts : list Alert) :
  frame keeps_correlation_matrix (_handle_alerts alerts).
Proof.
  intros w. unfold run. rewrite handle_alerts_cases.
  destruct (gate_state _ _); reflexivity.
Qed.

Lemma baseline_perform (c : Call) : frame keeps_baseline_from_load (perform c).
Proof.
  destruct c;
    frame_methods untouched_keeps_baseline_from_load baseline_handle_alerts;
    match goal with
    | E : returns_corr true _ = Some ?matrix |- _ =>
        intros w _ m Hm; simpl in Hm; injection Hm as <-; eauto
    end.
Qed.

Lemma reachable_baseline_from_load (w : World) :
  reachable w -> baseline_from_load (self w).
Proof.
  induction 1 as [config|w c Hw IH].
  - intros m Hm. discriminate.
  - apply baseline_perform, IH.
Qed.

(** Every call other than a (re)load of the historical data leaves the
    baseline matrix alone. *)
Lemma correlation_perform (c : Call) :
  c <> call_start_monitoring -> c <> call_load_historical_reference_data ->
  frame keeps_correlation_matrix (perform c).
Proof.
  intros Hs Hl.
  destruct c; try congruence;
    frame_methods untouched_keeps_correlation_matrix correlation_handle_alerts.
Qed.

(** [_check_correlation_breakdown] in closed form. *)
Lemma check_correlation_breakdown_alerts (current_data : PyDict DataFrame) (w : World) :
  result (_check_correlation_breakdown current_data) w
  = if (length current_data <? 2)%nat
       || negb (bool_decide (is_Some (correlation_matrix (self w))))
    then []
    else
      match returns_corr false (price_data_of current_data), correlation_matrix (self w) with
      | Some current_corr, Some baseline =>
          if (correlation_change_of current_corr baseline
              >? Fin (1 - correlation_threshold (cfg (self w))))%fl
          then [correlation_alert (self w) (correlation_change_of current_corr baseline)
                  (clock (now_calls w))]
          else []
      | _, _ => []
      end.
Proof.
  unfold result, _check_correlation_breakdown, bind, get_self.
  destruct (_ || _); [reflexivity|].
  destruct (returns_corr false _) as [current_corr|]; [|reflexivity].
  destruct (correlation_matrix (self w)) as [baseline|]; [|reflexivity].
  destruct (_ >? _)%fl; [|reflexivity].
  unfold now. cbn [fst snd].
  destruct (_save_correlation_breakdown_plot _ _) as [[] w']. reflexivity.
Qed.

(** C6: [_check_correlation_breakdown] returns at most one alert, of type
    correlation and without a symbol; none when fewer than two symbols have
    current data, none when the detector has no baseline correlation matrix
    (it has none when constructed, and any it has later was computed by
    [_calculate_correlations] during a load of the historical data).  The
    current matrix is computed from one column of prices per symbol with
    current data, named by the symbol with its separators replaced by
    underscores and holding, bar by bar, the time and the close.  With both
    matrices at hand, it returns an alert if and only if
    [np.abs(current - baseline).mean().mean()] exceeds
    [1 - correlation_threshold], which is 0.15 by default.  Where the two
    matrices are matrices of numbers over the same labels, that value is the
    mean of the absolute differences of corresponding cells, taken as pandas
    takes it, as the mean of the means of the columns; over the rationals
    this is the mean over all cells. *)
Theorem correlation_breakdown_alert :
  forall (w : World) (current_data : PyDict DataFrame),
    let d := self w in
    let alerts := result (_check_correlation_breakdown current_data) w in
    (length alerts <= 1)%nat
    /\ (forall a, In a alerts -> alert_type a = "correlation" /\ alert_symbol a = None)
    /\ ((length current_data < 2)%nat -> alerts = [])
    /\ (correlation_matrix d = None -> alerts = [])
    /\ (returns_corr false (price_data_of current_data) = None -> alerts = [])
    /\ (forall baseline current_corr,
          (2 <= length current_data)%nat ->
          correlation_matrix d = Some baseline ->
          returns_corr false (price_data_of current_data) = Some current_corr ->
          (alerts <> []
           <-> (correlation_change_of current_corr baseline
                >? Fin (1 - correlation_threshold (cfg d)))%fl = true)
          /\ (forall a, In a alerts ->
                alert_severity a
                = clip (correlation_ramp (cfg d) (correlation_change_of current_corr baseline))
                       (Fin 0) (Fin 1))
          /\ forall labels current_matrix baseline_matrix,
               labels <> [] ->
               holds_matrix current_corr labels current_matrix ->
               holds_matrix baseline labels baseline_matrix ->
               let change := mean_absolute_difference labels current_matrix baseline_matrix in
               correlation_change_of current_corr baseline = Fin change
               /\ (alerts <> [] <-> (1 - correlation_threshold (cfg d) < change)%Q)
               /\ (forall a, In a alerts ->
                     In ("correlation_change", Fin change) (alert_details a)
                     /\ alert_severity a
                        = clip (correlation_ramp (cfg d) (Fin change)) (Fin 0) (Fin 1))
               /\ (change
                   == mean_of_cells
                        (absolute_differences labels current_matrix baseline_matrix)
                        (length labels))%Q)
    /\ (cfg d = default_config -> (1 - correlation_threshold (cfg d) == 0.15)%Q)
    /\ (forall config, correlation_matrix (self (initial_world config)) = None)
    /\ (reachable w -> baseline_from_load d)
    /\ (forall c,
          c <> call_start_monitoring -> c <> call_load_historical_reference_data ->
          correlation_matrix (self (run (perform c) w)) = correlation_matrix d)
    /\ untouched w (run (_check_correlation_breakdown current_data) w)
    /\ (NoDup (map (fun item => clean_symbol (fst item)) current_data) ->
        forall symbol data,
          In (symbol, data) current_data ->
          In (clean_symbol symbol, map (fun bar => (bar_time bar, bar_close bar)) data)
             (price_data_of current_data))
    /\ (forall name column,
          In (name, column) (price_data_of current_data) ->
          exists symbol data,
            In (symbol, data) current_data
            /\ name = clean_symbol symbol
            /\ column = map (fun bar => (bar_time bar, bar_close bar)) data)
    /\ (forall symbol i,
          String.get i (clean_symbol symbol)
          = option_map
              (fun c => if (Ascii.eqb c "/" || Ascii.eqb c ":")%bool then "_"%char else c)
              (String.get i symbol)).
Proof.
  intros w current_data d alerts. subst d alerts.
  rewrite check_correlation_breakdown_alerts.
  split; [|split; [|split; [|split; [|split; [|split; [|split; [|split; [|split;
    [|split; [|split; [|split; [|split]]]]]]]]]]]].
  - destruct (_ || _); [simpl; lia|].
    destruct (returns_corr false _); [|simpl; lia].
    destruct (correlation_matrix (self w)); [|simpl; lia].
    destruct (_ >? _)%fl; simpl; lia.
  - intros a.
    destruct (_ || _); [simpl; tauto|].
    destruct (returns_corr false _); [|simpl; tauto].
    destruct (correlation_matrix (self w)); [|simpl; tauto].
    destruct (_ >? _)%fl; simpl; [|tauto].
    intros [<-|[]]. split; reflexivity.
  - intros Hlen. apply Nat.ltb_lt in Hlen. rewrite Hlen. reflexivity.
  - intros ->. rewrite orb_true_r. reflexivity.
  - intros ->. destruct (_ || _); reflexivity.
  - intros baseline current_corr Hlen Hbase Hcorr.
    apply Nat.ltb_ge in Hlen. rewrite Hlen, Hbase, Hcorr. simpl orb. cbv iota.
    assert (Hseverity : forall value,
               (value >? Fin (1 - correlation_threshold (cfg (self w))))%fl = true ->
               _calculate_severity (self w) "correlation" value
               = clip (correlation_ramp (cfg (self w)) value) (Fin 0) (Fin 1)).
    { intros value E. unfold _calculate_severity. simpl.
      rewrite py_min_max_severity. apply severity_of_ramp_clip.
      unfold correlation_ramp. apply ramp_not_nan, E. }
    split; [|split].
    + destruct (_ >? _)%fl; split; try congruence; discriminate.
    + destruct (_ >? _)%fl eqn:E; [|intros a []].
      intros a [<-|[]]. apply Hseverity, E.
    + intros labels current_matrix baseline_matrix Hne Hcurrent Hbaseline change.
      assert (Hchange : correlation_change_of current_corr baseline = Fin change)
        by (apply mean_abs_difference_of_frames; assumption).
      split; [exact Hchange|]. rewrite Hchange.
      split; [|split; [|apply mean_absolute_difference_cells, Hne]].
      * unfold Float.gtb, Float.ltb.
        destruct (Float.Qltb (1 - correlation_threshold (cfg (self w))) change) eqn:E.
        -- apply Qltb_lt in E. split; [intros _; exact E | discriminate].
        -- split; [congruence|]. intros Hlt. apply Qltb_lt in Hlt. congruence.
      * destruct (_ >? _)%fl eqn:E; [|intros a []].
        intros a [<-|[]]. split; [left; reflexivity|]. apply Hseverity, E.
  - intros ->. reflexivity.
  - reflexivity.
  - apply reachable_baseline_from_load.
  - intros c Hs Hl. apply (correlation_perform c Hs Hl).
  - apply untouched_check_correlation_breakdown.
  - intros Hnames symbol data Hin.
    apply (price_data_entry current_data [] NoDup_nil_2 Hnames symbol data Hin).
  - intros name column Hin.
    destruct (price_data_origin current_data [] NoDup_nil_2 name column Hin)
      as [[]|H]. exact H.
  - apply clean_symbol_get.
Qed.

End Correlation.

(** ** The manual check *)

Section ManualCheck.

Context {ext : External}.

Lemma check_volatility_pair (current_data : PyDict DataFrame) (w : World) :
  _check_volatility current_data w
  = (alerts_from (volatility_trigger (self w)) current_data (now_calls w),
     {| self := self w;
        now_calls := now_calls w
                     + length (alerts_from (volatility_trigger (self w)) current_data (now_calls w));
        requests := requests w; trace := trace w |}).
Proof.
  unfold _check_volatility.
  rewrite (for_each_alerts volatility_trigger); [reflexivity|].
  intros acc item w'. unfold bind, get_self, volatility_trigger.
  destruct (historical_stats (self w') !! fst item); [|reflexivity].
  destruct (_ >? _)%fl; reflexivity.
Qed.

Lemma check_volume_pair (current_data : PyDict DataFrame) (w : World) :
  _check_volume current_data w
  = (alerts_from (volume_trigger (self w)) current_data (now_calls w),
     {| self := self w;
        now_calls := now_calls w
                     + length (alerts_from (volume_trigger (self w)) current_data (now_calls w));
        requests := requests w; trace := trace w |}).
Proof.
  unfold _check_volume.
  rewrite (for_each_alerts volume_trigger); [reflexivity|].
  intros acc item w'. unfold bind, get_self, volume_trigger.
  destruct (last (volumes (snd item))); [|reflexivity].
  destruct (historical_stats (self w') !! fst item); [|reflexivity].
  destruct (_ >? _)%fl; reflexivity.
Qed.

(** The answer of [suppression], by the state of the gate at the reading
    of the clock it would take. *)
Lemma suppression_result (alerts : list Alert) (w : World) :
  alerts <> [] ->
  result (suppression alerts) w
  = match gate_state (self w) (clock (now_calls w)) with
    | DAILY_LIMIT_REACHED => Some "daily_limit"
    | COOLDOWN => Some "cooldown"
    | ACCEPTING => None
    end.
Proof.
  intros Hne. unfold result, suppression, gate_state, bind, get_self.
  destruct alerts; [congruence|].
  destruct (_ >=? _); [reflexivity|].
  destruct (last_alert_time (self w)); [|reflexivity].
  unfold now. simpl. destruct (_ <? _); reflexivity.
Qed.

(** A successful manual check reports what [suppression] answers after the
    evaluators have read the clock once per alert and the report's
    timestamp has been taken. *)
Lemma manual_check_report (symbol : string) (w : World) (report : CheckReport) :
  result (manual_check symbol) w = CheckSuccess report ->
  let w_check :=
    {| self := self w;
       now_calls := S (now_calls w + length (report_alerts report));
       requests := S (requests w); trace := trace w |} in
  suppression_reason report = result (suppression (report_alerts report)) w_check
  /\ notification_suppressed report
     = match suppression_reason report with Some _ => Some true | None => None end.
Proof.
  unfold result, manual_check, bind, get_self, next_request.
  destruct (data_pipeline (self w)) as [pipeline|]; [|discriminate].
  destruct (get_crypto_data pipeline (requests w) (base_symbol symbol))
    as [[[|first others]|]|e]; try discriminate.
  rewrite check_volatility_pair. cbn [self now_calls requests trace].
  rewrite check_volume_pair. cbn [self now_calls requests trace].
  match goal with
  | |- context [alerts_from (volatility_trigger ?d) ?cd ?n] =>
      generalize (alerts_from (volatility_trigger d) cd n)
  end.
  intros volatility_alerts.
  match goal with
  | |- context [alerts_from (volume_trigger ?d) ?cd ?n] =>
      generalize (alerts_from (volume_trigger d) cd n)
  end.
  intros volume_alerts.
  unfold now at 1. cbn [self now_calls requests trace].
  match goal with
  | |- context [suppression ?a ?w0] => destruct (suppression a w0) as [reason w1] eqn:E
  end.
  unfold ret. cbn [fst]. intros [= <-].
  cbn [report_alerts suppression_reason notification_suppressed].
  split; [|reflexivity].
  unfold result. rewrite length_app, Nat.add_assoc.
  rewrite E. reflexivity.
Qed.

(** C8: [manual_check] leaves the detector as it found it, in particular
    [alert_count_today], [last_alert_time] and the event history, and
    invokes no callback, whatever its evaluation finds.  When it finds at
    least one alert and the gate would suppress at the moment it looks, the
    report has [notification_suppressed] set to [True] and
    [suppression_reason] set to ['daily_limit'] when the daily limit is
    reached and to ['cooldown'] otherwise. *)
Theorem manual_check_frame :
  forall (w : World) (symbol : string),
    let d := self w in
    let w' := run (manual_check symbol) w in
    self w' = d
    /\ alert_count_today (self w') = alert_count_today d
    /\ last_alert_time (self w') = last_alert_time d
    /\ detected_events (self w') = detected_events d
    /\ trace w' = trace w
    /\ forall report,
        result (manual_check symbol) w = CheckSuccess report ->
        report_alerts report <> [] ->
        let looked_at := clock (S (now_calls w + length (report_alerts report))) in
        (alert_count_today d >= max_alerts_per_day (cfg d) ->
         notification_suppressed report = Some true
         /\ suppression_reason report = Some "daily_limit")
        /\ (forall last,
              alert_count_today d < max_alerts_per_day (cfg d) ->
              last_alert_time d = Some last ->
              looked_at < last + timedelta_minutes (alert_cooldown_minutes (cfg d)) ->
              notification_suppressed report = Some true
              /\ suppression_reason report = Some "cooldown")
        /\ (gate_state d looked_at = ACCEPTING ->
            notification_suppressed report = None
            /\ suppression_reason report = None).
Proof.
  intros w symbol d w'. subst d w'.
  destruct (untouched_manual_check symbol w) as [Hself Htrace].
  rewrite Hself. do 4 (split; [reflexivity|]). split; [exact Htrace|].
  intros report Hreport Hne looked_at. subst looked_at.
  destruct (manual_check_report symbol w report Hreport) as [Hreason Hflag].
  rewrite (suppression_result _ _ Hne) in Hreason.
  cbn [self now_calls] in Hreason.
  rewrite Hflag, Hreason. unfold gate_state.
  split; [|split].
  - intros Hcount.
    destruct (Z.geb_spec (alert_count_today (self w)) (max_alerts_per_day (cfg (self w))));
      [auto | lia].
  - intros last Hcount Hlast Hnow. rewrite Hlast.
    destruct (Z.geb_spec (alert_count_today (self w)) (max_alerts_per_day (cfg (self w))));
      [lia|].
    destruct (Z.ltb_spec (clock (S (now_calls w + length (report_alerts report))))
                (last + timedelta_minutes (alert_cooldown_minutes (cfg (self w)))));
      [auto | lia].
  - intros Hacc. rewrite Hacc. auto.
Qed.

End ManualCheck.

(** ** The daily reset of the alert counter *)

Section DailyReset.

Context {ext : External}.

Lemma counter_handle_alerts (alerts : list Alert) :
  frame counter_not_reset (_handle_alerts alerts).
Proof.
  intros w. unfold run. rewrite handle_alerts_cases.
  destruct (gate_state _ _); split; simpl; try reflexivity; lia.
Qed.

Lemma counter_check_market_conditions : frame counter_not_reset _check_market_conditions.
Proof. frame_methods untouched_counter_not_reset counter_handle_alerts. Qed.

Lemma counter_record_check_and_wait : frame counter_not_reset record_check_and_wait.
Proof. frame_methods untouched_counter_not_reset counter_handle_alerts. Qed.

Lemma reset_alert_counter_run (w : World) :
  run reset_alert_counter w
  = if date_of (clock (now_calls w)) >? reset_date (self w)
    then {| self := set_reset_date (date_of (clock (now_calls w)))
                      (set_alert_count_today 0 (self w));
            now_calls := S (now_calls w); requests := requests w; trace := trace w |}
    else clock_read w.
Proof.
  unfold run, reset_alert_counter, bind, now, get_self. simpl.
  destruct (_ >? _); reflexivity.
Qed.

(** A pass through the loop body that does not find the date advanced
    does not reset the counter. *)
Lemma loop_iteration_no_reset (w : World) :
  date_of (clock (now_calls w)) <= reset_date (self w) ->
  counter_not_reset w (run loop_iteration w).
Proof.
  intros Hdate. unfold loop_iteration. rewrite !run_bind.
  transitivity (run reset_alert_counter w).
  - rewrite reset_alert_counter_run.
    destruct (Z.gtb_spec (date_of (clock (now_calls w))) (reset_date (self w))); [lia|].
    split; [reflexivity | simpl; lia].
  - transitivity (run _check_market_conditions (run reset_alert_counter w)).
    + apply counter_check_market_conditions.
    + apply counter_record_check_and_wait.
Qed.

Lemma iterations_no_reset (n : nat) (w : World) :
  (forall i, (i < n)%nat ->
             date_of (clock (now_calls (iterations i w))) <= reset_date (self w)) ->
  counter_not_reset w (iterations n w).
Proof.
  induction n as [|n IH]; intros Hdates.
  - reflexivity.
  - assert (Hn : counter_not_reset w (iterations n w)) by (apply IH; auto).
    transitivity (iterations n w); [exact Hn|].
    change (iterations (S n) w) with (run loop_iteration (iterations n w)).
    apply loop_iteration_no_reset.
    destruct Hn as [Hdate _]. rewrite Hdate. apply Hdates. lia.
Qed.

(** C9 as amended: the first block of every pass through the loop body,
    before the evaluation tick, reads the clock and, if and only if the
    local date is later than [reset_date], sets [alert_count_today] to 0
    and [reset_date] to that date; the evaluation tick and the block after
    it never lower the counter or change [reset_date].  So over any number
    of passes during which the date read is not later than [reset_date]
    the counter is not reset, and the first pass that reads a later date
    resets it, the tick of that pass starting from 0. *)
Theorem daily_counter_reset :
  forall (w : World),
    let today := date_of (clock (now_calls w)) in
    let w1 := run reset_alert_counter w in
    (today > reset_date (self w) ->
     alert_count_today (self w1) = 0 /\ reset_date (self w1) = today)
    /\ (today <= reset_date (self w) -> self w1 = self w)
    /\ run loop_iteration w = run record_check_and_wait (run _check_market_conditions w1)
    /\ (forall w0, counter_not_reset w0 (run _check_market_conditions w0))
    /\ (forall w0, counter_not_reset w0 (run record_check_and_wait w0))
    /\ (today > reset_date (self w) ->
        reset_date (self (run loop_iteration w)) = today
        /\ 0 <= alert_count_today (self (run loop_iteration w)))
    /\ (forall n,
          (forall i, (i < n)%nat ->
                     date_of (clock (now_calls (iterations i w))) <= reset_date (self w)) ->
          counter_not_reset w (iterations n w)
          /\ (date_of (clock (now_calls (iterations n w))) > reset_date (self w) ->
              let w2 := run reset_alert_counter (iterations n w) in
              alert_count_today (self w2) = 0
              /\ reset_date (self w2) = date_of (clock (now_calls (iterations n w))))).
Proof.
  intros w today w1. subst today w1.
  assert (Hreset : forall w0,
             date_of (clock (now_calls w0)) > reset_date (self w0) ->
             alert_count_today (self (run reset_alert_counter w0)) = 0
             /\ reset_date (self (run reset_alert_counter w0))
                = date_of (clock (now_calls w0))).
  { intros w0 H. rewrite reset_alert_counter_run.
    destruct (Z.gtb_spec (date_of (clock (now_calls w0))) (reset_date (self w0)));
      [split; reflexivity | lia]. }
  split; [apply Hreset|]. split.
  { intros H. rewrite reset_alert_counter_run.
    destruct (Z.gtb_spec (date_of (clock (now_calls w))) (reset_date (self w)));
      [lia | reflexivity]. }
  split.
  { unfold loop_iteration. rewrite !run_bind. reflexivity. }
  split; [apply counter_check_market_conditions|].
  split; [apply counter_record_check_and_wait|].
  split.
  { intros H. destruct (Hreset w H) as [Hcount Hdate].
    unfold loop_iteration. rewrite !run_bind.
    destruct (counter_check_market_conditions (run reset_alert_counter w)) as [Hd1 Hc1].
    destruct (counter_record_check_and_wait
                (run _check_market_conditions (run reset_alert_counter w))) as [Hd2 Hc2].
    split; [congruence | lia]. }
  intros n Hdates. split; [apply iterations_no_reset, Hdates|].
  intros Hlater.
  destruct (iterations_no_reset n w Hdates) as [Hdate _].
  apply Hreset. rewrite Hdate. exact Hlater.
Qed.

End DailyReset.

(** * The theorems at the sample data *)

#[local] Existing Instance Sample.environment.

Lemma alert_gate_suppression_witness :
  run (_handle_alerts Sample.alerts) Sample.limited = Sample.limited
  /\ trace (run (_handle_alerts Sample.alerts) Sample.alerted) = trace Sample.alerted
  /\ self (run (_handle_alerts Sample.alerts)
             (run (_handle_alerts Sample.alerts) Sample.subscribed))
     = self (run (_handle_alerts Sample.alerts) Sample.subscribed).
Proof.
  split; [|split].
  - destruct (alert_gate_suppression Sample.limited Sample.alerts) as (H & _ & _).
    apply H. vm_compute. discriminate.
  - destruct (alert_gate_suppression Sample.alerted Sample.alerts) as (_ & H & _).
    apply (H 300000000); vm_compute; reflexivity.
  - destruct (alert_gate_suppression Sample.subscribed Sample.alerts) as (_ & _ & H).
    apply (H (run (_handle_alerts Sample.alerts) Sample.subscribed) Sample.alerts).
    + vm_compute. reflexivity.
    + reflexivity.
    + reflexivity.
    + intros recorded Hrec. vm_compute in Hrec. injection Hrec as <-.
      vm_compute. reflexivity.
Defined.

Lemma alert_gate_dispatch_witness :
  gate_state (self Sample.subscribed) (clock (now_calls Sample.subscribed)) = ACCEPTING
  /\ max_event_history (self Sample.subscribed) = 100
  /\ Sample.alerts <> []
  /\ Forall (fun a => Float.is_nan (alert_severity a) = false) Sample.alerts
  /\ alert_count_today (self (run (_handle_alerts Sample.alerts) Sample.subscribed)) = 1
  /\ length (trace (run (_handle_alerts Sample.alerts) Sample.subscribed)) = 2%nat.
Proof.
  assert (H1 : gate_state (self Sample.subscribed) (clock (now_calls Sample.subscribed))
               = ACCEPTING) by (vm_compute; reflexivity).
  assert (H2 : max_event_history (self Sample.subscribed) = 100) by reflexivity.
  assert (H3 : Sample.alerts <> []) by discriminate.
  assert (H4 : Forall (fun a => Float.is_nan (alert_severity a) = false) Sample.alerts)
    by (repeat constructor).
  do 4 (split; [assumption|]).
  destruct (alert_gate_dispatch Sample.subscribed Sample.alerts H1 H2 H3 H4)
    as (event & recorded & _ & _ & _ & _ & _ & _ & _ & Hcount & Htrace & _).
  split; [exact Hcount|].
  rewrite Htrace. unfold invocations. rewrite length_app, length_map. reflexivity.
Defined.

Lemma calculate_severity_formulas_witness :
  (_calculate_severity (self Sample.fresh) "volatility" (Fin 4.2) =? Fin 0.1)%fl = true
  /\ (_calculate_severity (self Sample.fresh) "volume" (Fin 6.0) =? Fin (1 # 15))%fl = true.
Proof.
  destruct (calculate_severity_formulas (self Sample.fresh) (Fin 4.2))
    as (_ & _ & _ & _ & _ & _ & _ & H).
  destruct (H eq_refl) as (Hvolatility & Hvolume & _).
  split; assumption.
Defined.

Lemma volatility_alert_iff_witness :
  NoDup (dict_keys Sample.current_data)
  /\ In (Sample.symbol, Sample.data) Sample.current_data
  /\ (exists a,
        In a (result (_check_volatility Sample.current_data) Sample.loaded)
        /\ alert_type a = "volatility" /\ alert_symbol a = Some Sample.symbol)
  /\ dropna (pct_change (closes Sample.data)) = [Fin (200 / 100 - 1); Fin (100 / 200 - 1)]
  /\ (exists variance,
        (variance == 9 # 8)%Q
        /\ volatility_ratio Sample.data Sample.stats
           = ((np_sqrt (Fin variance) * np_sqrt (Fin 24))
              / (std_returns Sample.stats * np_sqrt (Fin 252)))%fl)
  /\ exists variance,
       (variance == 9 # 8)%Q
       /\ std_returns (historical_stats_of Sample.data) = np_sqrt (Fin variance).
Proof.
  assert (H1 : NoDup (dict_keys Sample.current_data))
    by (apply NoDup_singleton).
  assert (H2 : In (Sample.symbol, Sample.data) Sample.current_data)
    by (left; reflexivity).
  do 2 (split; [assumption|]).
  destruct (volatility_alert_iff Sample.loaded Sample.current_data Sample.symbol
              Sample.data H1 H2) as (H & _ & _ & _ & Hreturns & Hhistory).
  assert (Hcloses : Forall (fun bar => ~ (bar_close bar == 0)%Q) Sample.data)
    by (repeat constructor; discriminate).
  assert (Hlen : (3 <= length Sample.data)%nat) by (simpl; lia).
  destruct (Hreturns Hcloses Hlen) as (Hvalues & variance & Hvariance & Hratio).
  split; [|split; [exact Hvalues|split]].
  - destruct (H Sample.stats) as ((Hiff & _) & _).
    + vm_compute. reflexivity.
    + apply Hiff. vm_compute. reflexivity.
  - exists variance. split; [|apply Hratio].
    rewrite Hvariance. vm_compute. reflexivity.
  - destruct (Hhistory Sample.data Hcloses Hlen) as (daily & Hdaily & Hstd).
    exists daily. split; [|exact Hstd].
    rewrite Hdaily. vm_compute. reflexivity.
Defined.

Lemma volume_alert_iff_witness :
  NoDup (dict_keys Sample.current_data)
  /\ In (Sample.symbol, Sample.data) Sample.current_data
  /\ exists a,
      In a (result (_check_volume Sample.current_data) Sample.loaded)
      /\ alert_type a = "volume" /\ alert_symbol a = Some Sample.symbol.
Proof.
  assert (H1 : NoDup (dict_keys Sample.current_data))
    by (apply NoDup_singleton).
  assert (H2 : In (Sample.symbol, Sample.data) Sample.current_data)
    by (left; reflexivity).
  do 2 (split; [assumption|]).
  destruct (volume_alert_iff Sample.loaded Sample.current_data Sample.symbol
              Sample.data H1 H2) as ((Hiff & _) & _).
  apply Hiff. exists (Fin 900 / Fin 10)%fl. split; vm_compute; reflexivity.
Defined.

Lemma correlation_breakdown_alert_witness :
  result (@_check_correlation_breakdown Sample.correlated Sample.pair_data)
         Sample.with_baseline <> []
  /\ result (@_check_correlation_breakdown Sample.correlated Sample.current_data)
            Sample.with_baseline = []
  /\ holds_matrix Sample.diverged Sample.labels Sample.diverged_cells
  /\ holds_matrix Sample.matrix Sample.labels Sample.matrix_cells
  /\ (mean_absolute_difference Sample.labels Sample.diverged_cells Sample.matrix_cells
      == 1 # 2)%Q
  /\ correlation_change_of Sample.diverged Sample.matrix
     = Fin (mean_absolute_difference Sample.labels Sample.diverged_cells Sample.matrix_cells)
  /\ In ("ETH_USDT_USDT", [(0, 100%Q); (3600000000, 200%Q); (7200000000, 100%Q)])
        (price_data_of Sample.pair_data).
Proof.
  assert (Hlabels : NoDup Sample.labels).
  { apply NoDup_cons. split; [|apply NoDup_singleton].
    rewrite list_elem_of_In. intros [H|[]]. discriminate. }
  assert (Hdiverged : holds_matrix Sample.diverged Sample.labels Sample.diverged_cells).
  { split; [exact Hlabels|]. split; [reflexivity|]. split; [reflexivity|].
    intros col row [<-|[<-|[]]] [<-|[<-|[]]]; reflexivity. }
  assert (Hmatrix : holds_matrix Sample.matrix Sample.labels Sample.matrix_cells).
  { split; [exact Hlabels|]. split; [reflexivity|]. split; [reflexivity|].
    intros col row [<-|[<-|[]]] [<-|[<-|[]]]; reflexivity. }
  assert (Hmean : (mean_absolute_difference Sample.labels Sample.diverged_cells
                     Sample.matrix_cells == 1 # 2)%Q) by reflexivity.
  destruct (@correlation_breakdown_alert Sample.correlated Sample.with_baseline
              Sample.pair_data)
    as (_ & _ & _ & _ & _ & H & _ & _ & _ & _ & _ & Hcolumns & _).
  destruct (H Sample.matrix Sample.diverged) as (_ & _ & Hmatrices);
    [simpl; lia | reflexivity | reflexivity |].
  destruct (Hmatrices Sample.labels Sample.diverged_cells Sample.matrix_cells)
    as (Hchange & Hiff & _); [discriminate | exact Hdiverged | exact Hmatrix |].
  split; [|split; [|split; [exact Hdiverged|split; [exact Hmatrix|split;
    [exact Hmean|split; [exact Hchange|]]]]]].
  - apply Hiff. rewrite Hmean. reflexivity.
  - destruct (@correlation_breakdown_alert Sample.correlated Sample.with_baseline
                Sample.current_data) as (_ & _ & Hfew & _).
    apply Hfew. simpl. lia.
  - apply (Hcolumns) with (symbol := "ETH/USDT:USDT") (data := Sample.data).
    + apply NoDup_cons. split; [|apply NoDup_singleton].
      rewrite list_elem_of_In. intros [Heq|[]]. discriminate.
    + right. left. reflexivity.
Defined.

Lemma event_history_bounded_witness :
  reachable Sample.full
  /\ gate_state (self Sample.full) (clock (now_calls Sample.full)) = ACCEPTING
  /\ length (detected_events (self Sample.full)) = 100%nat
  /\ length (detected_events (self (run (_handle_alerts Sample.severe_alerts) Sample.full)))
     = 100%nat
  /\ exists event oldest,
       detected_events (self Sample.full) ++ [event]
       = oldest :: detected_events (self (run (_handle_alerts Sample.severe_alerts)
                                              Sample.full))
       /\ head (detected_events (self Sample.full)) = Some oldest
       /\ last (detected_events (self (run (_handle_alerts Sample.severe_alerts)
                                           Sample.full)))
          = Some event.
Proof.
  assert (H : reachable Sample.full)
    by exact (reachable_iterated (call_handle_alerts Sample.severe_alerts) 100 _
                (reachable_init Sample.busy_config)).
  assert (Hacc : gate_state (self Sample.full) (clock (now_calls Sample.full)) = ACCEPTING)
    by (vm_compute; reflexivity).
  assert (Hlen : length (detected_events (self Sample.full)) = 100%nat)
    by (vm_compute; reflexivity).
  do 3 (split; [assumption|]).
  destruct (event_history_bounded Sample.full H) as [_ Hdispatch].
  pose proof (Hdispatch Sample.severe_alerts Hacc) as Hd. cbv zeta in Hd.
  destruct Hd as (event & evicted & Heq & Hlast & _ & _ & Hfull).
  destruct (Hfull Hlen) as (oldest & -> & Hbefore).
  split.
  - apply (f_equal (@length Event)) in Heq.
    rewrite !length_app, Hlen in Heq.
    change (length [event]) with 1%nat in Heq.
    change (length [oldest]) with 1%nat in Heq. lia.
  - exists event, oldest. split; [exact Heq|]. split; [|exact Hlast].
    rewrite Hbefore. reflexivity.
Defined.

Lemma manual_check_frame_witness :
  self (run (manual_check Sample.symbol) Sample.limited) = self Sample.limited
  /\ match result (manual_check Sample.symbol) Sample.limited with
     | CheckSuccess report =>
         notification_suppressed report = Some true
         /\ suppression_reason report = Some "daily_limit"
     | CheckError _ => False
     end.
Proof.
  destruct (manual_check_frame Sample.limited Sample.symbol)
    as (Hself & _ & _ & _ & _ & Hreport).
  split; [exact Hself|].
  destruct (result (manual_check Sample.symbol) Sample.limited) as [message|report] eqn:E.
  - vm_compute in E. discriminate.
  - assert (Hne : report_alerts report <> []).
    { vm_compute in E. injection E as <-. discriminate. }
    destruct (Hreport report eq_refl Hne) as (H & _).
    apply H. vm_compute. discriminate.
Defined.

Lemma daily_counter_reset_witness :
  alert_count_today (self Sample.stale) = 2
  /\ date_of (clock (now_calls Sample.stale)) > reset_date (self Sample.stale)
  /\ alert_count_today (self (run reset_alert_counter Sample.stale)) = 0
  /\ reset_date (self (run reset_alert_counter Sample.stale)) = 0.
Proof.
  split; [reflexivity|].
  assert (H : date_of (clock (now_calls Sample.stale)) > reset_date (self Sample.stale))
    by (vm_compute; reflexivity).
  split; [exact H|].
  destruct (daily_counter_reset Sample.stale) as (Hreset & _).
  destruct (Hreset H) as [Hcount Hdate].
  split; [exact Hcount|]. rewrite Hdate. vm_compute. reflexivity.
Defined.

(** C9 as stated fails where the clock has been set back: the local date
    read (day 0) differs from [reset_date] (day 1), and the pass through the
    loop body neither resets the counter nor sets [reset_date] to the date
    read. *)
Lemma reset_on_differing_date_counterexample :
  date_of (@clock Sample.clock_set_back (now_calls Sample.after_clock_set_back))
  <> reset_date (self Sample.after_clock_set_back)
  /\ alert_count_today
       (self (run (@loop_iteration Sample.clock_set_back) Sample.after_clock_set_back)) = 2
  /\ reset_date
       (self (run (@loop_iteration Sample.clock_set_back) Sample.after_clock_set_back)) = 1
  /\ date_of (@clock Sample.clock_set_back (now_calls Sample.after_clock_set_back)) = 0.
Proof.
  split; [vm_compute; discriminate|].
  split; [vm_compute; reflexivity|].
  split; vm_compute; reflexivity.
Qed.

Lemma gate_state_updated_before_callbacks_witness :
  gate_state (self Sample.subscribed) (clock (now_calls Sample.subscribed)) = ACCEPTING
  /\ alert_count_today (self (run (_handle_alerts Sample.alerts) Sample.subscribed)) = 1
  /\ is_Some (last_alert_time (self (run (_handle_alerts Sample.alerts) Sample.subscribed))).
Proof.
  assert (H : gate_state (self Sample.subscribed) (clock (now_calls Sample.subscribed))
              = ACCEPTING) by (vm_compute; reflexivity).
  split; [exact H|].
  destruct (gate_state_updated_before_callbacks Sample.subscribed Sample.alerts H)
    as ((event & recorded & _ & _ & Htime & Hcount & _) & _).
  split; [exact Hcount|]. rewrite Htime. eauto.
Defined.

(** * Further properties *)

(** ** One evaluation tick *)

Section Tick.

Context {ext : External}.

Lemma for_each_invariant {A B : Type} (I : B -> World -> Prop) (xs : list A)
    (body : B -> A -> M B) :
  (forall b a w, In a xs -> I b w -> I (result (body b a) w) (run (body b a) w)) ->
  forall acc w, I acc w -> I (result (for_each xs acc body) w) (run (for_each xs acc body) w).
Proof.
  induction xs as [|x xs IH]; intros Hbody acc w Hacc; simpl.
  - exact Hacc.
  - rewrite result_bind, run_bind. apply IH.
    + intros b a w0 Hin. apply Hbody. right. exact Hin.
    + apply Hbody; [left; reflexivity | exact Hacc].
Qed.

(** X1: the dictionary of current data that a tick builds has one entry
    per distinct symbol, only for symbols of the watch list, and every
    frame in it is a non-empty frame the pipeline returned for the
    symbol's base name during this tick; building it leaves the detector
    and the trace alone. *)
Theorem fetch_current_data_entries :
  forall (pipeline : DataPipeline) (symbols : list string) (w : World)
         (current_data : PyDict DataFrame),
    result (fetch_current_data pipeline symbols) w = Some current_data ->
    let w' := run (fetch_current_data pipeline symbols) w in
    current_data_from symbols current_data
    /\ (length current_data <= length symbols)%nat
    /\ (forall symbol data,
          In (symbol, data) current_data ->
          exists n, (requests w <= n < requests w')%nat
                    /\ get_crypto_data pipeline n (base_symbol symbol) = Fetched (Some data))
    /\ untouched w w'.
Proof.
  intros pipeline symbols w current_data Hresult w'. subst w'.
  set (Inv := fun (fetched : option (PyDict DataFrame)) (w' : World) =>
              (requests w <= requests w')%nat
              /\ match fetched with
                 | None => True
                 | Some cd =>
                     NoDup (dict_keys cd)
                     /\ forall symbol data,
                         In (symbol, data) cd ->
                         In symbol symbols /\ data <> []
                         /\ exists n, (requests w <= n < requests w')%nat
                                      /\ get_crypto_data pipeline n (base_symbol symbol)
                                         = Fetched (Some data)
                 end).
  assert (HI : Inv (result (fetch_current_data pipeline symbols) w)
                 (run (fetch_current_data pipeline symbols) w)).
  { unfold fetch_current_data. apply for_each_invariant.
    - intros fetched symbol w0 Hin [Hreq Hfetched].
      destruct fetched as [cd|]; [|split; [exact Hreq | exact I]].
      unfold Inv, result, run, bind, next_request. cbn [fst snd requests].
      destruct (get_crypto_data pipeline (requests w0) (base_symbol symbol))
        as [[[|first others]|]|message] eqn:E; cbn [ret fst snd requests].
      + split; [lia|]. destruct Hfetched as [Hnodup Hentries].
        split; [exact Hnodup|]. intros s d Hsd.
        destruct (Hentries s d Hsd) as (? & ? & n & ? & ?).
        split; [assumption|]. split; [assumption|]. exists n. split; [lia | assumption].
      + split; [lia|]. destruct Hfetched as [Hnodup Hentries].
        split; [apply dict_set_NoDup, Hnodup|]. intros s d Hsd.
        apply (dict_set_entries _ _ _ _ _ Hnodup) in Hsd.
        destruct Hsd as [[-> ->]|[_ Hsd]].
        * split; [exact Hin|]. split; [discriminate|].
          exists (requests w0). split; [lia | exact E].
        * destruct (Hentries s d Hsd) as (? & ? & n & ? & ?).
          split; [assumption|]. split; [assumption|]. exists n. split; [lia | assumption].
      + split; [lia|]. destruct Hfetched as [Hnodup Hentries].
        split; [exact Hnodup|]. intros s d Hsd.
        destruct (Hentries s d Hsd) as (? & ? & n & ? & ?).
        split; [assumption|]. split; [assumption|]. exists n. split; [lia | assumption].
      + split; [lia | exact I].
    - split; [lia|]. split; [apply NoDup_nil_2|]. intros s d []. }
  rewrite Hresult in HI. destruct HI as (_ & Hnodup & Hentries).
  split; [|split; [|split]].
  - split; [exact Hnodup|]. intros s d Hsd.
    destruct (Hentries s d Hsd) as (? & ? & _). auto.
  - unfold dict_keys in Hnodup. rewrite <- (length_map fst current_data).
    apply NoDup_incl_length; [apply NoDup_ListNoDup, Hnodup|].
    intros s Hs. apply in_map_iff in Hs. destruct Hs as ([s' d] & <- & Hsd).
    destruct (Hentries s' d Hsd) as (? & _). assumption.
  - intros s d Hsd. destruct (Hentries s d Hsd) as (_ & _ & H). exact H.
  - apply untouched_fetch_current_data.
Qed.

End Tick.

Section TickEffect.

Context {ext : External}.

Lemma alerts_from_severity (trigger : string * DataFrame -> option (datetime -> Alert))
    (items : PyDict DataFrame) (n : nat) :
  (forall item alert_at t,
      trigger item = Some alert_at -> in_unit_interval (alert_severity (alert_at t))) ->
  forall a, In a (alerts_from trigger items n) -> in_unit_interval (alert_severity a).
Proof.
  intros Htrigger a Ha.
  destruct (in_alerts_from _ _ _ _ Ha) as (item & alert_at & t & _ & Htr & ->).
  eapply Htrigger, Htr.
Qed.

(** Every alert of the three evaluators carries a severity in [0,1]. *)
Lemma evaluator_severities (current_data : PyDict DataFrame) (w : World) (a : Alert) :
  In a (result (_check_volatility current_data) w)
  \/ In a (result (_check_volume current_data) w)
  \/ In a (result (_check_correlation_breakdown current_data) w) ->
  in_unit_interval (alert_severity a).
Proof.
  intros [Ha|[Ha|Ha]].
  - rewrite check_volatility_alerts in Ha. revert Ha. apply alerts_from_severity.
    intros item alert_at t Htr.
    destruct (volatility_trigger_inv _ _ _ Htr) as (stats & _ & _ & ->).
    apply calculate_severity_unit.
  - rewrite check_volume_alerts in Ha. revert Ha. apply alerts_from_severity.
    intros item alert_at t Htr.
    destruct (volume_trigger_inv _ _ _ Htr) as (vol & stats & _ & _ & _ & ->).
    apply calculate_severity_unit.
  - revert Ha. rewrite check_correlation_breakdown_alerts.
    destruct (_ || _); [intros []|].
    destruct (returns_corr false _); [|intros []].
    destruct (correlation_matrix (self w)); [|intros []].
    destruct (_ >? _)%fl; simpl; [|intros []].
    intros [<-|[]]. apply calculate_severity_unit.
Qed.

(** The tick in closed form: nothing without a pipeline; otherwise the
    requests, the three evaluators and, if they found anything, the gate. *)
Lemma check_market_conditions_run (w : World) :
  run _check_market_conditions w
  = match data_pipeline (self w) with
    | None => w
    | Some pipeline =>
        let w1 := run (fetch_current_data pipeline (watch_list (cfg (self w)))) w in
        match result (fetch_current_data pipeline (watch_list (cfg (self w)))) w with
        | None => w1
        | Some current_data =>
            let w2 := run (_check_volatility current_data) w1 in
            let w3 := run (_check_volume current_data) w2 in
            let w4 := run (_check_correlation_breakdown current_data) w3 in
            match result (_check_volatility current_data) w1
                  ++ result (_check_volume current_data) w2
                  ++ result (_check_correlation_breakdown current_data) w3 with
            | [] => w4
            | alert :: alerts => run (_handle_alerts (alert :: alerts)) w4
            end
        end
    end.
Proof.
  unfold _check_market_conditions. rewrite run_bind.
  change (result get_self w) with (self w). change (run get_self w) with w.
  destruct (data_pipeline (self w)) as [pipeline|]; [|reflexivity].
  rewrite run_bind.
  destruct (result (fetch_current_data pipeline (watch_list (cfg (self w)))) w)
    as [current_data|]; [|reflexivity].
  rewrite !run_bind.
  destruct (_ ++ _ ++ _); reflexivity.
Qed.

(** The maximum of severities in [0,1] is in [0,1]. *)
Lemma combined_severity_unit (alerts : list Alert) (t : datetime) :
  alerts <> [] ->
  (forall a, In a alerts -> in_unit_interval (alert_severity a)) ->
  in_unit_interval (event_severity (combined_alert_of alerts t)).
Proof.
  intros Hne Hunit. simpl.
  destruct (py_max_is_maximum (map alert_severity alerts) (Fin 0)) as [Hin _].
  - destruct alerts; [congruence | discriminate].
  - rewrite Forall_map. apply Forall_forall. intros a Ha.
    apply list_elem_of_In, Hunit in Ha. destruct Ha as (q & -> & _). reflexivity.
  - apply in_map_iff in Hin. destruct Hin as (a & <- & Ha). apply Hunit, Ha.
Qed.

(** X2: an evaluation tick either leaves the detector and the trace of
    callbacks exactly as they were (no pipeline, a failed request, no alert,
    or a suppressed one), or dispatches once: it counts one alert, records
    one event that carries at least one raw alert and a severity in [0,1],
    sets [last_alert_time] and invokes the registered callbacks with that
    event.  Without a pipeline it does not even read the clock. *)
Theorem check_market_conditions_all_or_nothing :
  forall (w : World),
    let w' := run _check_market_conditions w in
    (data_pipeline (self w) = None -> w' = w)
    /\ ((self w' = self w /\ trace w' = trace w)
        \/ exists event,
            alert_count_today (self w') = alert_count_today (self w) + 1
            /\ last (detected_events (self w')) = Some event
            /\ event_details event <> []
            /\ in_unit_interval (event_severity event)
            /\ is_Some (last_alert_time (self w'))
            /\ trace w'
               = trace w ++ invocations (notification_callbacks (self w)) event (self w')).
Proof.
  intros w w'. subst w'. rewrite check_market_conditions_run.
  split; [intros ->; reflexivity|].
  destruct (data_pipeline (self w)) as [pipeline|]; [|left; split; reflexivity].
  cbv zeta.
  pose proof (untouched_fetch_current_data pipeline (watch_list (cfg (self w))) w) as H1.
  destruct (result (fetch_current_data pipeline (watch_list (cfg (self w)))) w)
    as [current_data|]; [|left; exact H1].
  set (w1 := run (fetch_current_data pipeline (watch_list (cfg (self w)))) w) in *.
  pose proof (untouched_check_volatility current_data w1) as H2.
  set (w2 := run (_check_volatility current_data) w1) in *.
  pose proof (untouched_check_volume current_data w2) as H3.
  set (w3 := run (_check_volume current_data) w2) in *.
  pose proof (untouched_check_correlation_breakdown current_data w3) as H4.
  set (w4 := run (_check_correlation_breakdown current_data) w3) in *.
  assert (H : untouched w w4).
  { transitivity w1; [exact H1|]. transitivity w2; [exact H2|].
    transitivity w3; [exact H3 | exact H4]. }
  destruct H as [Hself Htrace].
  assert (Hunit : forall a,
             In a (result (_check_volatility current_data) w1
                   ++ result (_check_volume current_data) w2
                   ++ result (_check_correlation_breakdown current_data) w3) ->
             in_unit_interval (alert_severity a)).
  { intros a Ha. rewrite !in_app_iff in Ha. destruct Ha as [Ha|[Ha|Ha]].
    - apply (evaluator_severities current_data w1). auto.
    - apply (evaluator_severities current_data w2). auto.
    - apply (evaluator_severities current_data w3). auto. }
  destruct (_ ++ _ ++ _) as [|alert alerts]; cbv iota; [left; split; assumption|].
  unfold run. rewrite handle_alerts_cases. cbn [snd].
  destruct (gate_state (self w4) (clock (now_calls w4))); cbv iota.
  - left. split; assumption.
  - left. split; assumption.
  - right.
    exists (combined_alert_of (alert :: alerts) (clock (now_calls w4 + cooldown_reads (self w4)))).
    split; [simpl; rewrite Hself; reflexivity|].
    split; [simpl; destruct (_ >? _); [apply slice_last_snoc | apply last_snoc]|].
    split; [discriminate|].
    split; [apply combined_severity_unit; [discriminate | exact Hunit]|].
    split; [simpl; eauto|].
    simpl. rewrite Htrace, Hself. reflexivity.
Qed.

End TickEffect.

(** ** Invariants of the gate's counters and of the configuration *)

Lemma keeps_gate_consistent_preorder : PreOrder keeps_gate_consistent.
Proof.
  split.
  - intros w H. exact H.
  - intros w1 w2 w3 H1 H2 H. auto.
Qed.

Lemma keeps_configuration_preorder : PreOrder keeps_configuration.
Proof.
  split.
  - intros w. split; reflexivity.
  - intros w1 w2 w3 [H1 H2] [H3 H4]. split; congruence.
Qed.

Lemma same_but_baseline_preorder : PreOrder same_but_baseline.
Proof.
  split.
  - intros w. split; [reflexivity|]. destruct (self w). reflexivity.
  - intros w1 w2 w3 [Ht1 Hs1] [Ht2 Hs2]. split; [congruence|].
    destruct (self w1), (self w2), (self w3). cbn in *.
    inversion Hs1; inversion Hs2; subst. reflexivity.
Qed.

#[local] Existing Instance keeps_gate_consistent_preorder.
#[local] Existing Instance keeps_configuration_preorder.
#[local] Existing Instance same_but_baseline_preorder.

Lemma untouched_keeps_gate_consistent (w w' : World) :
  untouched w w' -> keeps_gate_consistent w w'.
Proof. intros [Hs _] H. rewrite Hs. exact H. Qed.

Lemma untouched_keeps_configuration (w w' : World) :
  untouched w w' -> keeps_configuration w w'.
Proof. intros [Hs _]. unfold keeps_configuration. rewrite Hs. split; reflexivity. Qed.

Lemma untouched_same_but_baseline (w w' : World) :
  untouched w w' -> same_but_baseline w w'.
Proof.
  intros [Hs Ht]. split; [exact Ht|]. rewrite Hs. destruct (self w). reflexivity.
Qed.

(** A step that is a single read, assignment or effect, for the relations
    of this part. *)
Ltac frame_step :=
  solve [ intros ?w;
          unfold keeps_gate_consistent, gate_consistent, keeps_configuration,
            run, invoke, bind, get_self, assign, sleep, emit, now, next_request;
          simpl; intuition (auto; lia) ].

Ltac frame_calls weaken handle :=
  unfold perform, start_monitoring, stop_monitoring, loop_iteration,
    reset_alert_counter, record_check_and_wait, _load_historical_reference_data,
    _calculate_correlations, get_event_history, set_data_pipeline,
    register_notification_callback, _check_market_conditions;
  frame_walk ltac:(first [ frame_step | frame_untouched weaken | apply handle ]).

Section Counters.

Context {ext : External}.

Lemma accepting_below_limit (d : Detector) (t : datetime) :
  gate_state d t = ACCEPTING -> alert_count_today d < max_alerts_per_day (cfg d).
Proof.
  unfold gate_state.
  destruct (Z.geb_spec (alert_count_today d) (max_alerts_per_day (cfg d)));
    [discriminate | lia].
Qed.

Lemma gate_handle_alerts (alerts : list Alert) :
  frame keeps_gate_consistent (_handle_alerts alerts).
Proof.
  intros w H. unfold run. rewrite handle_alerts_cases.
  destruct (gate_state _ _) eqn:Hstate; cbn [snd]; try exact H.
  apply accepting_below_limit in Hstate.
  destruct H as (H0 & Hmax & Hlast & Hevents).
  repeat split; simpl; try lia; eauto; try discriminate.
  intros Hnil.
  assert (Hl : last (detected_events (self (dispatched alerts w))) <> None).
  { simpl. destruct (_ >? _); [rewrite slice_last_snoc | rewrite last_snoc]; discriminate. }
  simpl in Hl. rewrite Hnil in Hl. contradiction.
Qed.

Lemma gate_perform (c : Call) : frame keeps_gate_consistent (perform c).
Proof. destruct c; frame_calls untouched_keeps_gate_consistent gate_handle_alerts. Qed.

Lemma configuration_handle_alerts (alerts : list Alert) :
  frame keeps_configuration (_handle_alerts alerts).
Proof.
  intros w. unfold run. rewrite handle_alerts_cases.
  destruct (gate_state _ _); split; reflexivity.
Qed.

Lemma configuration_perform (c : Call) :
  c <> call_start_monitoring -> c <> call_stop_monitoring ->
  frame keeps_configuration (perform c).
Proof.
  intros Hstart Hstop.
  destruct c; try congruence;
    frame_calls untouched_keeps_configuration configuration_handle_alerts.
Qed.

Lemma configuration_load : frame keeps_configuration _load_historical_reference_data.
Proof. apply (configuration_perform call_load_historical_reference_data); discriminate. Qed.

Lemma configuration_loop_iteration : frame keeps_configuration loop_iteration.
Proof. apply (configuration_perform call_loop_iteration); discriminate. Qed.

Lemma reachable_gate_consistent (w : World) : reachable w -> gate_consistent (self w).
Proof.
  induction 1 as [config|w c Hw IH].
  - unfold gate_consistent. simpl. repeat split; try lia; try discriminate.
  - apply gate_perform, IH.
Qed.

(** X3: in every state the detector can reach, [alert_count_today] lies
    between 0 and the daily limit (0 when the limit is negative): the quota
    is never exceeded.  A counted alert goes with a [last_alert_time], and
    the event history is empty exactly as long as [last_alert_time] is
    unset.  No method changes the configuration read at construction. *)
Theorem gate_counters_consistent :
  forall (w : World),
    reachable w ->
    0 <= alert_count_today (self w)
    /\ alert_count_today (self w) <= Z.max 0 (max_alerts_per_day (cfg (self w)))
    /\ (0 < alert_count_today (self w) -> is_Some (last_alert_time (self w)))
    /\ (detected_events (self w) = [] <-> last_alert_time (self w) = None)
    /\ forall c, cfg (self (run (perform c) w)) = cfg (self w).
Proof.
  intros w Hreach.
  destruct (reachable_gate_consistent w Hreach) as (H0 & Hmax & Hlast & Hevents).
  do 4 (split; [assumption|]).
  intros c. destruct c;
    try (apply configuration_perform; discriminate).
  - unfold perform. rewrite run_bind. change (run (ret tt) ?x) with x.
    unfold start_monitoring. rewrite run_bind.
    change (result get_self w) with (self w). change (run get_self w) with w.
    destruct (is_monitoring (self w)); [reflexivity|].
    rewrite !run_bind. change (run (ret true) ?x) with x.
    destruct (configuration_load (run (assign (set_is_monitoring true)) w)) as [Hcfg _].
    rewrite Hcfg. reflexivity.
  - unfold perform. rewrite run_bind. change (run (ret tt) ?x) with x.
    unfold stop_monitoring. rewrite run_bind.
    change (result get_self w) with (self w). change (run get_self w) with w.
    destruct (is_monitoring (self w)); reflexivity.
Qed.

End Counters.

(** ** The load of the baseline *)

Ltac frame_baseline_step :=
  solve [ let w := fresh "w" in
          intros w;
          unfold same_but_baseline, run, bind, get_self, assign, now, next_request;
          simpl; split; [reflexivity | destruct (self w); reflexivity] ].

Section Baseline.

Context {ext : External}.

Lemma keeps_baseline_consistent_preorder : PreOrder keeps_baseline_consistent.
Proof.
  split.
  - intros w H. exact H.
  - intros w1 w2 w3 H1 H2 H. auto.
Qed.

#[local] Existing Instance keeps_baseline_consistent_preorder.

Lemma untouched_keeps_baseline_consistent (w w' : World) :
  untouched w w' -> keeps_baseline_consistent w w'.
Proof. intros [Hs _] H. rewrite Hs. exact H. Qed.

Lemma load_same_but_baseline : frame same_but_baseline _load_historical_reference_data.
Proof.
  unfold _load_historical_reference_data, _calculate_correlations.
  frame_walk ltac:(first [ frame_baseline_step | frame_untouched untouched_same_but_baseline ]).
Qed.

Lemma baseline_entry (d : Detector) (symbol : string) (data : DataFrame) :
  data <> [] ->
  baseline_consistent d ->
  baseline_consistent
    (set_historical_stats (<[symbol := historical_stats_of data]> (historical_stats d))
       (set_historical_data (dict_set symbol data (historical_data d)) d)).
Proof.
  intros Hdata (Hnodup & Hentries & Hkeys & Hmatrix).
  unfold baseline_consistent. simpl. repeat split.
  - apply dict_set_NoDup, Hnodup.
  - apply dict_set_entries in H; [|exact Hnodup].
    destruct H as [[-> ->]|[Hne Hin]]; [exact Hdata | apply (Hentries _ _ Hin)].
  - apply dict_set_entries in H; [|exact Hnodup].
    destruct H as [[-> ->]|[Hne Hin]].
    + apply lookup_insert_eq.
    + rewrite lookup_insert_ne by congruence. apply (Hentries _ _ Hin).
  - intros symbol' Hsome. apply dict_set_keys.
    destruct (String.eqb_spec symbol' symbol) as [->|Hne]; [left; reflexivity|].
    right. apply Hkeys. rewrite lookup_insert_ne in Hsome by congruence. exact Hsome.
  - intros Hsome. pose proof (dict_set_length symbol data (historical_data d)).
    specialize (Hmatrix Hsome). lia.
Qed.

Lemma baseline_load : frame keeps_baseline_consistent _load_historical_reference_data.
Proof.
  intros w H. unfold _load_historical_reference_data.
  rewrite run_bind. change (result get_self w) with (self w). change (run get_self w) with w.
  destruct (data_pipeline (self w)) as [pipeline|]; [|exact H].
  rewrite !run_bind. cbv zeta.
  match goal with
  | |- context [run (for_each ?xs ?acc ?body) ?w0] =>
      assert (Hloop : baseline_consistent (self (run (for_each xs acc body) w0)));
      [ apply (for_each_invariant (fun _ w1 => baseline_consistent (self w1)))
      | destruct (result (for_each xs acc body) w0); [|exact Hloop];
        generalize dependent (run (for_each xs acc body) w0) ]
  end.
  - intros running symbol w1 _ Hw1.
    destruct running; [|exact Hw1].
    rewrite run_bind.
    change (run next_request w1) with
      {| self := self w1; now_calls := now_calls w1; requests := S (requests w1);
         trace := trace w1 |}.
    destruct (fetch_crypto_data _ _ _ _ _) as [[[|first others]|]|]; try exact Hw1.
    rewrite !run_bind.
    apply (baseline_entry (self w1) symbol (first :: others)); [discriminate | exact Hw1].
  - exact H.
  - intros w1 Hw1. rewrite run_bind.
    change (result get_self w1) with (self w1). change (run get_self w1) with w1.
    destruct (1 <? length (historical_data (self w1)))%nat eqn:Hlen; [|exact Hw1].
    unfold _calculate_correlations. rewrite run_bind.
    change (result get_self w1) with (self w1). change (run get_self w1) with w1.
    destruct (returns_corr _ _) as [matrix|]; [|exact Hw1].
    rewrite run_bind.
    destruct (untouched_save_correlation_plot
                (run (assign (set_correlation_matrix (Some matrix))) w1)) as [Hself _].
    rewrite Hself.
    destruct Hw1 as (Hnodup & Hentries & Hkeys & Hmatrix).
    repeat split; simpl; try assumption; try (apply (Hentries _ _ H0)).
    intros _. apply Nat.ltb_lt in Hlen. lia.
Qed.

Lemma baseline_kept_by_handle_alerts (alerts : list Alert) :
  frame keeps_baseline_consistent (_handle_alerts alerts).
Proof.
  intros w H. unfold run. rewrite handle_alerts_cases.
  destruct (gate_state _ _); exact H.
Qed.

Ltac frame_consistent_step :=
  solve [ intros ?w;
          unfold keeps_baseline_consistent, baseline_consistent,
            run, invoke, bind, get_self, assign, sleep, emit, now, next_request;
          simpl; auto ].

Lemma baseline_kept_by_perform (c : Call) : frame keeps_baseline_consistent (perform c).
Proof.
  destruct c;
    unfold perform, start_monitoring, stop_monitoring, loop_iteration,
      reset_alert_counter, record_check_and_wait, get_event_history, set_data_pipeline,
      register_notification_callback, _check_market_conditions;
    frame_walk ltac:(first [ apply baseline_load
                           | frame_consistent_step
                           | frame_untouched untouched_keeps_baseline_consistent
                           | apply baseline_kept_by_handle_alerts ]).
Qed.

(** X4: loading the baseline without a pipeline changes nothing.  With a
    pipeline it changes nothing but the baseline: the state of the alert
    gate, the registered callbacks, the flags and the configuration stay,
    and no callback is invoked.  Symbols that had data or statistics before
    the load still have them after it. *)
Theorem load_touches_only_baseline :
  forall (w : World),
    let w' := run _load_historical_reference_data w in
    (data_pipeline (self w) = None -> w' = w)
    /\ same_but_baseline w w'
    /\ alert_count_today (self w') = alert_count_today (self w)
    /\ last_alert_time (self w') = last_alert_time (self w)
    /\ detected_events (self w') = detected_events (self w)
    /\ notification_callbacks (self w') = notification_callbacks (self w)
    /\ is_monitoring (self w') = is_monitoring (self w)
    /\ cfg (self w') = cfg (self w).
Proof.
  intros w w'.
  pose proof (load_same_but_baseline w) as Hsame. fold w' in Hsame.
  split.
  - intros Hnone. subst w'. unfold _load_historical_reference_data.
    rewrite run_bind. change (result get_self w) with (self w).
    rewrite Hnone. reflexivity.
  - split; [exact Hsame|].
    destruct Hsame as [_ Hself]. rewrite Hself. destruct (self w). repeat split.
Qed.

(** X5: in every state the detector can reach, the baseline is
    consistent: the historical data holds one non-empty frame per symbol,
    the statistics of a symbol are those of its stored frame, there are no
    statistics without data, and a correlation matrix exists only when at
    least two symbols have data. *)
Theorem baseline_consistent_when_reachable :
  forall (w : World),
    reachable w ->
    NoDup (dict_keys (historical_data (self w)))
    /\ (forall symbol data,
          In (symbol, data) (historical_data (self w)) ->
          data <> [] /\ historical_stats (self w) !! symbol = Some (historical_stats_of data))
    /\ (forall symbol,
          is_Some (historical_stats (self w) !! symbol) ->
          exists data, In (symbol, data) (historical_data (self w)))
    /\ (is_Some (correlation_matrix (self w)) -> (2 <= length (historical_data (self w)))%nat).
Proof.
  intros w Hreach.
  assert (H : baseline_consistent (self w)).
  { induction Hreach as [config|w c Hw IH].
    - unfold baseline_consistent. simpl. repeat split.
      + apply NoDup_nil. exact I.
      + destruct H.
      + destruct H.
      + intros symbol [stats Hstats]. rewrite lookup_empty in Hstats. discriminate.
      + intros [matrix Hmatrix]. discriminate.
    - apply baseline_kept_by_perform, IH. }
  destruct H as (Hnodup & Hentries & Hkeys & Hmatrix).
  repeat split; try assumption; try (apply (Hentries _ _ H)).
  intros symbol Hsome. apply Hkeys in Hsome.
  unfold dict_keys in Hsome. apply in_map_iff in Hsome.
  destruct Hsome as ([symbol' data] & <- & Hin). exists data. exact Hin.
Qed.

End Baseline.

(** ** Starting, stopping and the loop *)

Lemma keeps_sleeps_preorder : PreOrder keeps_sleeps.
Proof.
  split.
  - intros w. reflexivity.
  - intros w1 w2 w3 H1 H2. unfold keeps_sleeps in *. congruence.
Qed.

#[local] Existing Instance keeps_sleeps_preorder.

Lemma untouched_keeps_sleeps (w w' : World) : untouched w w' -> keeps_sleeps w w'.
Proof. intros [_ Ht]. unfold keeps_sleeps. rewrite Ht. reflexivity. Qed.

Lemma sleeps_app (xs ys : list Effect) : sleeps (xs ++ ys) = (sleeps xs + sleeps ys)%nat.
Proof. unfold sleeps. rewrite List.filter_app, length_app. reflexivity. Qed.

Lemma sleeps_invocations (callbacks : list Callback) (event : Event) (d : Detector) :
  sleeps (invocations callbacks event d) = 0%nat.
Proof. induction callbacks as [|callback callbacks IH]; [reflexivity | exact IH]. Qed.

Ltac frame_sleeps_step :=
  solve [ intros ?w;
          unfold keeps_sleeps, run, bind, get_self, assign, now, next_request;
          simpl; reflexivity ].

Section Loop.

Context {ext : External}.

Lemma sleeps_handle_alerts (alerts : list Alert) : frame keeps_sleeps (_handle_alerts alerts).
Proof.
  intros w. unfold run, keeps_sleeps. rewrite handle_alerts_cases.
  destruct (gate_state _ _); try reflexivity.
  simpl. rewrite sleeps_app, sleeps_invocations. lia.
Qed.

Lemma sleeps_before_wait (w : World) :
  keeps_sleeps w (run _check_market_conditions (run reset_alert_counter w)).
Proof.
  assert (H : frame keeps_sleeps (reset_alert_counter ;; _check_market_conditions)).
  { unfold reset_alert_counter, _check_market_conditions.
    frame_walk ltac:(first [ frame_sleeps_step
                           | frame_untouched untouched_keeps_sleeps
                           | apply sleeps_handle_alerts ]). }
  specialize (H w). rewrite run_bind in H. exact H.
Qed.

Lemma loop_iteration_sleeps (w : World) :
  sleeps (trace (run loop_iteration w)) = S (sleeps (trace w))
  /\ is_monitoring (self (run loop_iteration w)) = is_monitoring (self w).
Proof.
  split; [|apply configuration_loop_iteration].
  unfold loop_iteration. rewrite !run_bind.
  destruct (record_check_and_wait_run
              (run _check_market_conditions (run reset_alert_counter w)))
    as (seconds & Htrace & _).
  pose proof (sleeps_before_wait w) as Hbefore. unfold keeps_sleeps in Hbefore.
  rewrite Htrace, sleeps_app, Hbefore.
  change (sleeps [Slept seconds]) with 1%nat. lia.
Qed.

Lemma iterations_shift (n : nat) (w : World) :
  iterations n (run loop_iteration w) = iterations (S n) w.
Proof. unfold iterations. symmetry. apply Nat.iter_succ_r. Qed.

(** X6: [start_monitoring] succeeds exactly when the detector was not
    monitoring and [stop_monitoring] exactly when it was; a refused call
    changes nothing.  After a start the flag is set, so that a second start
    is refused, and after a stop it is cleared.  A start changes the flag
    and the baseline only: the gate's state, the callbacks and the trace
    stay.  A stop changes the flag only. *)
Theorem start_stop_monitoring :
  forall (w : World),
    let started := run start_monitoring w in
    let stopped := run stop_monitoring w in
    result start_monitoring w = negb (is_monitoring (self w))
    /\ result stop_monitoring w = is_monitoring (self w)
    /\ (is_monitoring (self w) = true -> started = w)
    /\ (is_monitoring (self w) = false -> stopped = w)
    /\ is_monitoring (self started) = true
    /\ is_monitoring (self stopped) = false
    /\ start_monitoring started = (false, started)
    /\ stop_monitoring stopped = (false, stopped)
    /\ result stop_monitoring started = true
    /\ (trace started = trace w
        /\ alert_count_today (self started) = alert_count_today (self w)
        /\ last_alert_time (self started) = last_alert_time (self w)
        /\ detected_events (self started) = detected_events (self w)
        /\ notification_callbacks (self started) = notification_callbacks (self w)
        /\ cfg (self started) = cfg (self w))
    /\ stopped
       = {| self := set_is_monitoring false (self w); now_calls := now_calls w;
            requests := requests w; trace := trace w |}.
Proof.
  intros w started stopped.
  assert (Hstart : result start_monitoring w = negb (is_monitoring (self w))).
  { unfold start_monitoring. rewrite result_bind.
    change (result get_self w) with (self w).
    destruct (is_monitoring (self w)); [reflexivity|].
    rewrite !result_bind. reflexivity. }
  assert (Hstop : result stop_monitoring w = is_monitoring (self w)).
  { unfold result, stop_monitoring, bind, get_self.
    destruct (is_monitoring (self w)); reflexivity. }
  assert (Hstarted : is_monitoring (self started) = true
                     /\ (is_monitoring (self w) = true -> started = w)
                     /\ same_but_baseline
                          {| self := set_is_monitoring true (self w); now_calls := now_calls w;
                             requests := requests w; trace := trace w |} started).
  { subst started. unfold start_monitoring. rewrite run_bind.
    change (result get_self w) with (self w). change (run get_self w) with w.
    destruct (is_monitoring (self w)) eqn:Hflag.
    - change (run (ret false) w) with w.
      split; [exact Hflag|]. split; [reflexivity|]. split; [reflexivity|].
      simpl. destruct (self w). simpl in Hflag. subst. reflexivity.
    - rewrite !run_bind. change (run (ret true) ?x) with x.
      repeat split; try discriminate.
      + destruct (configuration_load (run (assign (set_is_monitoring true)) w)) as [_ Hm].
        rewrite Hm. reflexivity.
      + apply (load_same_but_baseline (run (assign (set_is_monitoring true)) w)).
      + apply (load_same_but_baseline (run (assign (set_is_monitoring true)) w)). }
  assert (Hstopped : stopped
                     = {| self := set_is_monitoring false (self w); now_calls := now_calls w;
                          requests := requests w; trace := trace w |}).
  { subst stopped. unfold run, stop_monitoring, bind, get_self, assign.
    destruct (is_monitoring (self w)) eqn:Hflag; simpl; [reflexivity|].
    destruct w as [d n r t]. simpl in *. destruct d. simpl in Hflag. subst. reflexivity. }
  destruct Hstarted as (Hflag & Hrefused & Htrace & Hself).
  clearbody started stopped.
  repeat split; try assumption.
  - intros Hoff. rewrite Hstopped. clear - Hoff. destruct w as [d n r t]. simpl in *.
    destruct d. simpl in Hoff. subst. reflexivity.
  - rewrite Hstopped. reflexivity.
  - unfold start_monitoring, bind, get_self. rewrite Hflag. reflexivity.
  - unfold stop_monitoring, bind, get_self. rewrite Hstopped. reflexivity.
  - unfold result, stop_monitoring, bind, get_self. rewrite Hflag. reflexivity.
  - rewrite Hself. simpl. destruct (self w). reflexivity.
  - rewrite Hself. simpl. destruct (self w). reflexivity.
  - rewrite Hself. simpl. destruct (self w). reflexivity.
  - rewrite Hself. simpl. destruct (self w). reflexivity.
  - rewrite Hself. simpl. destruct (self w). reflexivity.
Qed.

(** X7: [_monitoring_loop] does nothing when the flag is not set.  With
    the flag set, and nobody clearing it, it passes through the loop body
    again and again: every pass sleeps exactly once, after recording the
    time of the check, and leaves the flag set. *)
Theorem monitoring_loop_passes :
  forall (fuel : nat) (w : World),
    let w' := run (_monitoring_loop fuel) w in
    (is_monitoring (self w) = false -> w' = w)
    /\ (is_monitoring (self w) = true ->
        w' = iterations fuel w
        /\ is_monitoring (self w') = true
        /\ sleeps (trace w') = (sleeps (trace w) + fuel)%nat
        /\ ((0 < fuel)%nat ->
            is_Some (last_check_time (self w'))
            /\ exists seconds, last (trace w') = Some (Slept seconds))).
Proof.
  intros fuel w w'. subst w'. split.
  - intros Hoff. destruct fuel as [|fuel]; [reflexivity|].
    simpl. rewrite run_bind. change (result get_self w) with (self w).
    rewrite Hoff. reflexivity.
  - revert w. induction fuel as [|fuel IH]; intros w Hon.
    + change (run (_monitoring_loop 0) w) with w.
      split; [reflexivity|]. split; [exact Hon|]. split; [lia|]. intros Hfuel. lia.
    + assert (Hrun : run (_monitoring_loop (S fuel)) w
                     = run (_monitoring_loop fuel) (run loop_iteration w)).
      { simpl. rewrite run_bind. change (result get_self w) with (self w).
        change (run get_self w) with w. rewrite Hon, run_bind. reflexivity. }
      destruct (loop_iteration_sleeps w) as [Hsleeps Hflag].
      destruct (IH (run loop_iteration w)) as (Hiter & Hon' & Hcount & Hlast);
        [congruence|].
      rewrite Hrun.
      assert (Heq : run (_monitoring_loop fuel) (run loop_iteration w) = iterations (S fuel) w).
      { rewrite Hiter. apply iterations_shift. }
      repeat split.
      * exact Heq.
      * exact Hon'.
      * rewrite Hcount, Hsleeps. lia.
      * rewrite Heq. change (iterations (S fuel) w) with (run loop_iteration (iterations fuel w)).
        destruct (loop_iteration_completes (iterations fuel w)) as (seconds & _ & Hcheck).
        exact Hcheck.
      * rewrite Heq. change (iterations (S fuel) w) with (run loop_iteration (iterations fuel w)).
        destruct (loop_iteration_completes (iterations fuel w)) as (seconds & Hsl & _).
        exists seconds. exact Hsl.
Qed.

End Loop.

(** ** The outcomes of the manual check *)

Section ManualOutcomes.

Context {ext : External}.

Lemma alerts_from_single (trigger : string * DataFrame -> option (datetime -> Alert))
    (item : string * DataFrame) (n : nat) :
  alerts_from trigger [item] n
  = match trigger item with
    | Some alert_at => [alert_at (clock n)]
    | None => []
    end.
Proof. simpl. destruct (trigger item); reflexivity. Qed.

Lemma manual_check_success (symbol : string) (w : World) (pipeline : DataPipeline)
    (first : Bar) (others : list Bar) :
  data_pipeline (self w) = Some pipeline ->
  get_crypto_data pipeline (requests w) (base_symbol symbol) = Fetched (Some (first :: others)) ->
  exists report volatility_alerts volume_alerts n,
    result (manual_check symbol) w = CheckSuccess report
    /\ report_symbol report = symbol
    /\ current_price report = Fin (bar_close (List.last others first))
    /\ alert_count report = Z.of_nat (length (report_alerts report))
    /\ report_alerts report = volatility_alerts ++ volume_alerts
    /\ volatility_alerts
       = alerts_from (volatility_trigger (self w)) [(symbol, first :: others)] (now_calls w)
    /\ volume_alerts = alerts_from (volume_trigger (self w)) [(symbol, first :: others)] n.
Proof.
  intros Hpipeline Hfetch.
  unfold result, manual_check, bind, get_self, next_request.
  rewrite Hpipeline. cbn [fst snd requests]. rewrite Hfetch.
  rewrite check_volatility_pair. cbn [self now_calls requests trace].
  rewrite check_volume_pair. cbn [self now_calls requests trace].
  unfold now at 1. cbn [self now_calls requests trace].
  match goal with
  | |- context [suppression ?a ?w0] => destruct (suppression a w0) as [reason w1]
  end.
  unfold ret. cbn [fst].
  eexists _, _, _, _. split; [reflexivity|]. repeat split.
Qed.

(** X8: the manual check without a pipeline reports an error and
    requests nothing.  With a pipeline it makes one request, for the base
    name of the symbol, and succeeds exactly when that returns a non-empty
    frame; an exception of the pipeline ends up in the message of the error.
    A report is for the symbol asked, gives the close of the frame's last
    bar as the current price, and lists at most one volatility alert
    followed by at most one volume alert, both for the symbol and with a
    severity in [0,1]; [alert_count] is the length of that list. *)
Theorem manual_check_outcomes :
  forall (symbol : string) (w : World),
    let outcome := result (manual_check symbol) w in
    (data_pipeline (self w) = None ->
       manual_check symbol w = (CheckError "Keine Datenpipeline verfügbar", w))
    /\ (forall pipeline,
          data_pipeline (self w) = Some pipeline ->
          let fetched := get_crypto_data pipeline (requests w) (base_symbol symbol) in
          requests (run (manual_check symbol) w) = S (requests w)
          /\ ((exists report, outcome = CheckSuccess report)
              <-> (exists first others, fetched = Fetched (Some (first :: others))))
          /\ (forall e, fetched = FetchRaised e -> outcome = CheckError ("Fehler: " ++ e))
          /\ (forall report,
                outcome = CheckSuccess report ->
                exists first others,
                  fetched = Fetched (Some (first :: others))
                  /\ current_price report = Fin (bar_close (List.last others first))))
    /\ (forall report,
          outcome = CheckSuccess report ->
          report_symbol report = symbol
          /\ alert_count report = Z.of_nat (length (report_alerts report))
          /\ In (map alert_type (report_alerts report))
                [[]; ["volatility"]; ["volume"]; ["volatility"; "volume"]]
          /\ (forall a, In a (report_alerts report) ->
                alert_symbol a = Some symbol /\ in_unit_interval (alert_severity a))).
Proof.
  intros symbol w outcome. subst outcome.
  split; [|split].
  - intros Hnone. unfold manual_check, bind, get_self. rewrite Hnone. reflexivity.
  - intros pipeline Hpipeline fetched.
    assert (Hrequests : requests (run (manual_check symbol) w) = S (requests w)).
    { unfold manual_check. rewrite run_bind.
      change (result get_self w) with (self w). change (run get_self w) with w.
      rewrite Hpipeline, run_bind.
      change (result next_request w) with (requests w).
      set (w0 := run next_request w).
      assert (Hw0 : requests w0 = S (requests w)) by reflexivity.
      clearbody w0. fold fetched.
      destruct fetched as [[[|first others]|]|e]; try exact Hw0.
      rewrite !run_bind. change (run (ret ?x) ?y) with y.
      unfold run. rewrite check_volatility_pair. cbn [snd].
      rewrite check_volume_pair. cbn [snd self now_calls requests trace].
      unfold now at 1. cbn [snd self now_calls requests trace].
      match goal with
      | |- context [suppression ?a ?w1] =>
          pose proof (untouched_suppression a w1) as Hsup;
          assert (Hreq : requests (snd (suppression a w1)) = requests w1)
      end.
      { unfold suppression, bind, get_self, now.
        repeat match goal with
               | |- context [match ?x with _ => _ end] => destruct x
               end; reflexivity. }
      rewrite Hreq. exact Hw0. }
    split; [exact Hrequests|].
    destruct fetched as [[[|first others]|]|e] eqn:Hfetch.
    + assert (Hres : result (manual_check symbol) w
                     = CheckError ("Keine Daten für " ++ symbol ++ " verfügbar")).
      { unfold result, manual_check, bind, get_self, next_request.
        rewrite Hpipeline. cbn [fst snd requests]. subst fetched. rewrite Hfetch. reflexivity. }
      rewrite Hres. repeat split; try discriminate.
      * intros [report Hreport]. discriminate.
      * intros (first & others & Hne). discriminate.
    + destruct (manual_check_success symbol w pipeline first others Hpipeline Hfetch)
        as (report & va & vo & n & Hres & _ & Hprice & _).
      rewrite Hres. repeat split; try discriminate; eauto.
      intros report' [= <-]. eauto.
    + assert (Hres : result (manual_check symbol) w
                     = CheckError ("Keine Daten für " ++ symbol ++ " verfügbar")).
      { unfold result, manual_check, bind, get_self, next_request.
        rewrite Hpipeline. cbn [fst snd requests]. subst fetched. rewrite Hfetch. reflexivity. }
      rewrite Hres. repeat split; try discriminate.
      * intros [report Hreport]. discriminate.
      * intros (first & others & Hne). discriminate.
    + assert (Hres : result (manual_check symbol) w = CheckError ("Fehler: " ++ e)).
      { unfold result, manual_check, bind, get_self, next_request.
        rewrite Hpipeline. cbn [fst snd requests]. subst fetched. rewrite Hfetch. reflexivity. }
      rewrite Hres. repeat split; try discriminate.
      * intros [report Hreport]. discriminate.
      * intros (first & others & Hne). discriminate.
      * intros e' [= <-]. reflexivity.
  - intros report Hreport.
    destruct (data_pipeline (self w)) as [pipeline|] eqn:Hpipeline.
    2:{ unfold result, manual_check, bind, get_self in Hreport.
        rewrite Hpipeline in Hreport. discriminate. }
    destruct (get_crypto_data pipeline (requests w) (base_symbol symbol))
      as [[[|first others]|]|e] eqn:Hfetch;
      try (unfold result, manual_check, bind, get_self, next_request in Hreport;
           rewrite Hpipeline in Hreport; cbn [fst snd requests] in Hreport;
           rewrite Hfetch in Hreport; discriminate).
    destruct (manual_check_success symbol w pipeline first others Hpipeline Hfetch)
      as (report' & va & vo & n & Hres & Hsymbol & _ & Hcount & Halerts & Hva & Hvo).
    rewrite Hres in Hreport. injection Hreport as ->.
    split; [exact Hsymbol|]. split; [exact Hcount|].
    rewrite alerts_from_single in Hva, Hvo.
    rewrite Halerts, Hva, Hvo.
    destruct (volatility_trigger (self w) (symbol, first :: others)) as [va_at|] eqn:Eva;
      destruct (volume_trigger (self w) (symbol, first :: others)) as [vo_at|] eqn:Evo;
      try (apply volatility_trigger_inv in Eva; destruct Eva as (stats & _ & _ & ->));
      try (apply volume_trigger_inv in Evo; destruct Evo as (vol & stats' & _ & _ & _ & ->));
      (split; [simpl; tauto|]);
      intros a Ha; simpl in Ha;
      repeat (destruct Ha as [<-|Ha]; [split; [reflexivity | apply calculate_severity_unit]|]);
      destruct Ha.
Qed.

End ManualOutcomes.

(** ** Edges of the evaluators *)

Lemma pct_change_from_length (prev : float64) (xs : list float64) :
  length (pct_change_from prev xs) = length xs.
Proof.
  revert prev. induction xs as [|x xs IH]; intros prev; simpl; [reflexivity|].
  rewrite IH. reflexivity.
Qed.

Lemma dropna_length (xs : list float64) : (length (dropna xs) <= length xs)%nat.
Proof. apply length_filter. Qed.

Lemma dropna_pct_change_length (xs : list float64) :
  (length (dropna (pct_change xs)) <= length xs - 1)%nat.
Proof.
  destruct xs as [|x rest]; [reflexivity|].
  unfold pct_change, dropna. rewrite filter_cons_False by discriminate.
  pose proof (dropna_length (pct_change_from x rest)) as H.
  rewrite pct_change_from_length in H. unfold dropna in H. simpl. lia.
Qed.

Lemma var_short (xs : list float64) : (length xs <= 1)%nat -> var xs = NaN.
Proof.
  intros H. unfold var. pose proof (dropna_length xs) as Hlen.
  destruct (Nat.leb_spec (length (dropna xs)) 1); [reflexivity | lia].
Qed.

Section Edges.

Context {ext : External}.

Lemma current_volatility_short (data : DataFrame) :
  np_sqrt NaN = NaN -> (length data < 3)%nat -> current_volatility data = NaN.
Proof.
  intros Hsqrt Hlen. unfold current_volatility, std.
  rewrite var_short, Hsqrt; [reflexivity|].
  pose proof (dropna_pct_change_length (closes data)) as H.
  unfold closes in H. rewrite length_map in H. unfold closes. lia.
Qed.

(** X9: every volatility alert is for a symbol of the current data with a
    baseline and at least three bars: the variance of fewer than two
    returns is NaN, which exceeds no threshold (the square root of NaN
    being NaN). *)
Theorem volatility_needs_three_bars :
  np_sqrt NaN = NaN ->
  forall (w : World) (current_data : PyDict DataFrame) (a : Alert),
    In a (result (_check_volatility current_data) w) ->
    exists symbol data,
      alert_symbol a = Some symbol
      /\ In (symbol, data) current_data
      /\ (3 <= length data)%nat
      /\ is_Some (historical_stats (self w) !! symbol).
Proof.
  intros Hsqrt w current_data a Ha.
  rewrite check_volatility_alerts in Ha.
  destruct (in_alerts_from _ _ _ _ Ha) as ([symbol data] & alert_at & t & Hitem & Htr & ->).
  destruct (volatility_trigger_inv _ _ _ Htr) as (stats & Hstats & Hratio & ->).
  cbn [fst snd] in *.
  exists symbol, data. split; [reflexivity|]. split; [exact Hitem|]. split; [|eauto].
  destruct (Nat.lt_ge_cases (length data) 3) as [Hshort|Hlong]; [|exact Hlong].
  exfalso. unfold volatility_ratio in Hratio.
  change (std (dropna (pct_change (closes data))) * np_sqrt (Fin 24))%fl
    with (current_volatility data) in Hratio.
  rewrite (current_volatility_short data Hsqrt Hshort) in Hratio.
  discriminate.
Qed.

(** X10: a division by a baseline mean volume of zero does not raise.  A
    symbol whose baseline mean volume is 0 gets a volume alert of severity
    1 whenever its last bar has a positive volume (the threshold not being
    negative), and none when the last bar has no volume. *)
Theorem volume_alert_on_zero_baseline :
  forall (w : World) (current_data : PyDict DataFrame) (symbol : string) (data : DataFrame)
         (stats : Stats) (v : Q),
    NoDup (dict_keys current_data) ->
    In (symbol, data) current_data ->
    historical_stats (self w) !! symbol = Some stats ->
    (mean_volume stats =? Fin 0)%fl = true ->
    last (volumes data) = Some (Fin v) ->
    let alerts := result (_check_volume current_data) w in
    ((0 < v)%Q ->
     (0 <= volume_threshold (cfg (self w)))%Q ->
     exists a,
       In a alerts /\ alert_type a = "volume" /\ alert_symbol a = Some symbol
       /\ alert_severity a = Fin 1)
    /\ ((v == 0)%Q -> forall a, In a alerts -> alert_symbol a <> Some symbol).
Proof.
  intros w current_data symbol data stats v Hnodup Hin Hstats Hzero Hlast alerts.
  subst alerts. rewrite check_volume_alerts.
  destruct (mean_volume stats) as [m| | |] eqn:Hmean; try discriminate.
  cbn [Float.eqb] in Hzero.
  split.
  - intros Hv Hthreshold.
    assert (Hv0 : Qeq_bool v 0 = false).
    { destruct (Qeq_bool v 0) eqn:E; [|reflexivity].
      apply Qeq_bool_eq in E. rewrite E in Hv. exfalso. exact (Qlt_irrefl _ Hv). }
    assert (Hvpos : Float.nonneg v = true).
    { apply Qle_bool_iff, Qlt_le_weak, Hv. }
    assert (Hratio : (Fin v / mean_volume stats)%fl = PInf).
    { rewrite Hmean. unfold Float.div. rewrite Hzero, Hv0, Hvpos. reflexivity. }
    destruct (alerts_from_in (volume_trigger (self w)) current_data (now_calls w)
                (symbol, data) (volume_alert (self w) symbol (Fin v) stats) Hin)
      as [t Ht].
    { unfold volume_trigger. cbn [fst snd]. rewrite Hlast, Hstats, Hratio. reflexivity. }
    eexists. split; [exact Ht|]. split; [reflexivity|]. split; [reflexivity|].
    cbn [alert_severity volume_alert]. rewrite Hratio.
    unfold _calculate_severity. cbn [String.eqb Ascii.eqb Bool.eqb].
    assert (Hdiv : Float.nonneg (3 * volume_threshold (cfg (self w))) = true).
    { apply Qle_bool_iff. apply Qmult_le_0_compat; [discriminate | exact Hthreshold]. }
    unfold Float.sub, Float.neg, Float.add, Float.div. rewrite Hdiv. reflexivity.
  - intros Hv a Ha Hsym.
    destruct (in_alerts_from _ _ _ _ Ha) as ([symbol' data'] & alert_at & t & Hitem & Htr & ->).
    destruct (volume_trigger_inv _ _ _ Htr) as (vol & stats' & Hvol & Hstats' & Hratio & ->).
    cbn [fst snd alert_symbol volume_alert] in *. injection Hsym as ->.
    rewrite (dict_key_unique _ _ _ _ Hnodup Hitem Hin) in *.
    assert (vol = Fin v) by congruence. assert (stats' = stats) by congruence. subst.
    rewrite Hmean in Hratio. unfold Float.div in Hratio. rewrite Hzero in Hratio.
    apply Qeq_bool_iff in Hv. rewrite Hv in Hratio. discriminate.
Qed.

End Edges.

(** ** Registration and dispatch *)

Section Registration.

Context {ext : External}.

(** X11: a registration appends the callback and changes nothing else.
    At the next dispatch the callback is invoked once more than before, after
    all the callbacks registered earlier and with the same event; nothing
    else about the dispatch changes, and a suppressed tick invokes it as
    little as the others. *)
Theorem registered_callback_invoked_last :
  forall (w : World) (callback : Callback) (alerts : list Alert),
    let w1 := run (register_notification_callback callback) w in
    let w' := run (_handle_alerts alerts) w in
    let w1' := run (_handle_alerts alerts) w1 in
    w1 = {| self := set_notification_callbacks (notification_callbacks (self w) ++ [callback])
                      (self w);
            now_calls := now_calls w; requests := requests w; trace := trace w |}
    /\ snapshot (self w1') = snapshot (self w')
    /\ match gate_state (self w) (clock (now_calls w)) with
       | ACCEPTING =>
           exists event,
             last (detected_events (self w')) = Some event
             /\ trace w1'
                = trace w'
                  ++ [Invoked (callback_id callback) event (snapshot (self w'))
                        (callback_run callback (snapshot (self w')) event)]
       | _ => trace w1' = trace w'
       end.
Proof.
  intros w callback alerts w1 w' w1'.
  assert (Hw1 : w1 = {| self := set_notification_callbacks
                                  (notification_callbacks (self w) ++ [callback]) (self w);
                        now_calls := now_calls w; requests := requests w;
                        trace := trace w |}) by reflexivity.
  split; [exact Hw1|].
  assert (Hgate : gate_state (self w1) (clock (now_calls w1))
                  = gate_state (self w) (clock (now_calls w))).
  { rewrite Hw1. reflexivity. }
  subst w' w1'. unfold run. rewrite !handle_alerts_cases, Hgate. cbn [snd].
  destruct (gate_state (self w) (clock (now_calls w))).
  - split; [rewrite Hw1; reflexivity | reflexivity].
  - split; [rewrite Hw1; reflexivity | rewrite Hw1; reflexivity].
  - assert (Hsnap : snapshot (self (dispatched alerts w1)) = snapshot (self (dispatched alerts w))).
    { rewrite Hw1. reflexivity. }
    split; [exact Hsnap|].
    eexists. split.
    + simpl. destruct (_ >? _); [apply slice_last_snoc | apply last_snoc].
    + unfold dispatched at 1. cbn [trace].
      fold (dispatched alerts w1).
      change (trace (dispatched alerts w))
        with (trace w ++ invocations (notification_callbacks (self w))
                           (combined_alert_of alerts
                              (clock (now_calls w + cooldown_reads (self w))))
                           (self (dispatched alerts w))).
      rewrite Hw1. cbn [self trace now_calls notification_callbacks set_notification_callbacks].
      unfold invocations. rewrite map_app, app_assoc. reflexivity.
Qed.

End Registration.

(** ** The status report *)

Section StatusReport.

Context {ext : External}.

(** X12: in every state the detector can reach, [get_current_status]
    changes nothing and reports consistent counts: at most 100 events, of
    which the events of high severity are a part; a count of alerts between
    0 and the daily limit; and a [last_alert_time] exactly when there is an
    event. *)
Theorem current_status_counts :
  forall (w : World),
    reachable w ->
    let status := result get_current_status w in
    run get_current_status w = w
    /\ (status_high_severity_count status <= status_event_count status)%nat
    /\ (status_event_count status <= 100)%nat
    /\ 0 <= status_alert_count_today status
    /\ status_alert_count_today status <= Z.max 0 (status_max_alerts_per_day status)
    /\ (status_event_count status = 0%nat <-> status_last_alert_time status = None).
Proof.
  intros w Hreach status. subst status.
  destruct (reachable_history_bounded w Hreach) as [_ Hlen].
  destruct (reachable_gate_consistent w Hreach) as (H0 & Hmax & _ & Hevents).
  unfold result, get_current_status, bind, get_self. cbn [fst ret].
  cbn [status_high_severity_count status_event_count status_alert_count_today
       status_max_alerts_per_day status_last_alert_time].
  split; [reflexivity|]. split; [apply List.filter_length_le|].
  do 3 (split; [assumption|]).
  rewrite <- Hevents. split.
  - apply length_zero_iff_nil.
  - intros ->. reflexivity.
Qed.

End StatusReport.

(** ** Symbol names *)

Lemma str_before_spec (sep : Ascii.ascii) (s : string) :
  ~ In sep (list_ascii_of_string (str_before sep s))
  /\ (str_before sep s = s
      \/ exists rest, s = (str_before sep s ++ String sep rest)%string).
Proof.
  induction s as [|c s [IHnot IHsplit]]; simpl.
  - split; [tauto | left; reflexivity].
  - destruct (Ascii.eqb_spec c sep) as [->|Hne]; simpl.
    + split; [tauto|]. right. exists s. reflexivity.
    + split; [intros [H|H]; [congruence | exact (IHnot H)]|].
      destruct IHsplit as [->|[rest Hrest]].
      * left. reflexivity.
      * right. exists rest. rewrite Hrest at 1. reflexivity.
Qed.

Lemma str_before_append (sep : Ascii.ascii) (a b : string) :
  ~ In sep (list_ascii_of_string a) ->
  str_before sep a = a /\ str_before sep (a ++ String sep b) = a.
Proof.
  induction a as [|c a IH]; simpl; intros Hnot.
  - rewrite Ascii.eqb_refl. split; reflexivity.
  - destruct (Ascii.eqb_spec c sep) as [->|Hne]; [tauto|].
    destruct IH as [IH1 IH2]; [tauto|]. rewrite IH1, IH2. split; reflexivity.
Qed.

Lemma str_replace_spec (old new : Ascii.ascii) (s : string) :
  String.length (str_replace old new s) = String.length s
  /\ (old <> new -> ~ In old (list_ascii_of_string (str_replace old new s)))
  /\ (forall c, In c (list_ascii_of_string (str_replace old new s)) ->
                c = new \/ In c (list_ascii_of_string s))
  /\ (~ In old (list_ascii_of_string s) -> str_replace old new s = s).
Proof.
  induction s as [|c s (IHlen & IHnot & IHin & IHid)]; simpl.
  - repeat split; tauto.
  - split; [rewrite IHlen; reflexivity|]. split; [|split].
    + intros Hne [H|H]; [|exact (IHnot Hne H)].
      destruct (Ascii.eqb_spec c old); congruence.
    + intros c' [H|H].
      * destruct (Ascii.eqb_spec c old); [left | right; left]; congruence.
      * destruct (IHin c' H); [left | right; right]; assumption.
    + intros Hnot. destruct (Ascii.eqb_spec c old) as [->|Hne]; [tauto|].
      rewrite IHid by tauto. reflexivity.
Qed.

(** X13: the name a symbol is requested under is the part of the symbol
    before its first colon: it contains no colon, it is the whole symbol
    when that has none, and whatever follows the first colon is dropped. *)
Theorem base_symbol_before_first_colon :
  forall (symbol : string),
    ~ In ":"%char (list_ascii_of_string (base_symbol symbol))
    /\ (base_symbol symbol = symbol
        \/ exists rest, symbol = (base_symbol symbol ++ String ":"%char rest)%string)
    /\ base_symbol (base_symbol symbol) = base_symbol symbol
    /\ (forall rest, base_symbol (base_symbol symbol ++ String ":"%char rest) = base_symbol symbol)
    /\ base_symbol "BTC/USDT:USDT" = "BTC/USDT".
Proof.
  intros symbol. unfold base_symbol.
  destruct (str_before_spec ":"%char symbol) as [Hnot Hsplit].
  destruct (str_before_append ":"%char (str_before ":"%char symbol) "" Hnot) as [Hid _].
  repeat split; try assumption.
  intros rest. apply str_before_append, Hnot.
Qed.

Lemma dict_set_length_le {V : Type} (k : string) (v : V) (d : PyDict V) :
  (length (dict_set k v d) <= S (length d))%nat.
Proof.
  induction d as [|[k0 v0] rest IH]; simpl; [lia|].
  destruct (String.eqb k0 k); simpl; lia.
Qed.

Lemma price_data_fold (items : PyDict DataFrame) (acc : PyDict (list (datetime * Q))) :
  let price_data :=
    fold_left (fun price_data item =>
                 dict_set (clean_symbol (fst item)) (close_series (snd item)) price_data)
              items acc in
  NoDup (dict_keys acc) ->
  NoDup (dict_keys price_data)
  /\ (forall k, In k (dict_keys price_data)
                <-> In k (dict_keys acc)
                    \/ exists symbol, In symbol (dict_keys items) /\ k = clean_symbol symbol)
  /\ (length price_data <= length acc + length items)%nat.
Proof.
  revert acc. induction items as [|[symbol data] items IH]; intros acc price_data Hnodup.
  - subst price_data. simpl. split; [exact Hnodup|]. split; [|lia].
    intros k. split; [tauto|]. intros [H|(symbol & [] & _)]. exact H.
  - subst price_data. cbn [fold_left fst snd].
    destruct (IH (dict_set (clean_symbol symbol) (close_series data) acc))
      as (IH1 & IH2 & IH3); [apply dict_set_NoDup, Hnodup|].
    split; [exact IH1|]. split.
    + intros k. rewrite IH2, dict_set_keys. simpl. split.
      * intros [[->|H]|(symbol' & H & ->)]; eauto 6.
      * intros [H|(symbol' & [<-|H] & ->)]; eauto 6.
    + pose proof (dict_set_length_le (clean_symbol symbol) (close_series data) acc).
      simpl length. lia.
Qed.

(** X14: the columns of prices that the correlations are computed from
    are named by the symbols with their separators replaced: a name is as
    long as its symbol and contains neither a slash nor a colon.  There is
    one column per name, for exactly the names of the symbols with data, so
    that symbols which differ in their separators only share a column. *)
Theorem price_data_columns :
  forall (items : PyDict DataFrame),
    let columns := dict_keys (price_data_of items) in
    NoDup columns
    /\ (forall name, In name columns
                     <-> exists symbol, In symbol (dict_keys items) /\ name = clean_symbol symbol)
    /\ (length columns <= length items)%nat
    /\ (forall symbol,
          String.length (clean_symbol symbol) = String.length symbol
          /\ ~ In "/"%char (list_ascii_of_string (clean_symbol symbol))
          /\ ~ In ":"%char (list_ascii_of_string (clean_symbol symbol)))
    /\ clean_symbol "BTC/USDT:USDT" = "BTC_USDT_USDT"
    /\ clean_symbol "BTC/USDT" = clean_symbol "BTC:USDT".
Proof.
  intros items columns. subst columns.
  destruct (price_data_fold items []) as (Hnodup & Hkeys & Hlen); [apply NoDup_nil; exact I|].
  fold (price_data_of items) in Hnodup, Hkeys, Hlen.
  split; [exact Hnodup|]. split; [|split; [|split]].
  - intros name. rewrite Hkeys. simpl. tauto.
  - unfold dict_keys. rewrite length_map. simpl in Hlen. lia.
  - intros symbol. unfold clean_symbol.
    destruct (str_replace_spec "/"%char "_"%char symbol) as (Hlen1 & Hnot1 & _ & _).
    destruct (str_replace_spec ":"%char "_"%char (str_replace "/"%char "_"%char symbol))
      as (Hlen2 & Hnot2 & Hin2 & _).
    split; [congruence|]. split.
    + intros H. destruct (Hin2 _ H) as [Heq|Hin]; [discriminate|].
      apply Hnot1; [discriminate | exact Hin].
    + apply Hnot2. discriminate.
  - split; reflexivity.
Qed.

(** ** The trading connector *)

Section ConnectorProperties.

Import Connector.

Context {ext : External}.

Lemma connector_run_bind {A B : Type} (m : M A) (k : A -> M B) (w : World) :
  run (bind m k) w = run (k (result m w)) (run m w).
Proof. unfold run, result, bind. destruct (m w). reflexivity. Qed.

Lemma connector_result_bind {A B : Type} (m : M A) (k : A -> M B) (w : World) :
  result (bind m k) w = result (k (result m w)) (run m w).
Proof. unfold run, result, bind. destruct (m w). reflexivity. Qed.

Lemma total_seconds_positive (microseconds : Z) :
  0 < microseconds -> (0 < total_seconds microseconds)%Q.
Proof. intros H. unfold total_seconds, Qlt. simpl. lia. Qed.

(** [_handle_rate_limit] on a bucket that exists, in closed form: the
    bucket after the call, the readings of the clock and the wait. *)
Lemma handle_rate_limit_run (rate_limit_type : string) (w : World) (rate_limit : RateLimit) :
  rate_limits (self w) !! rate_limit_type = Some rate_limit ->
  let t := clock (now_calls w) in
  let due := t >=? reset_time rate_limit in
  let topped := if due then limit rate_limit else remaining rate_limit in
  let reset := if due then t + one_second else reset_time rate_limit in
  let waits := (topped <=? 0) && (reset - t >? 0) in
  run (_handle_rate_limit rate_limit_type) w
  = {| self :=
         set_rate_limits
           (<[rate_limit_type :=
                {| limit := limit rate_limit;
                   remaining := (if waits then limit rate_limit else topped) - 1;
                   reset_time := if waits then clock (S (now_calls w)) + one_second
                                 else reset |}]>
              (rate_limits (self w)))
           (self w);
       now_calls := if waits then S (S (now_calls w)) else S (now_calls w);
       calls := calls w;
       trace := if waits then trace w ++ [Throttled (total_seconds (reset - t))]
                else trace w |}.
Proof.
  intros Hlookup t due topped reset waits.
  subst waits reset topped due t.
  unfold _handle_rate_limit, run, bind, get_self, now, store, assign, emit, ret.
  rewrite Hlookup. cbn [self now_calls calls trace fst snd].
  destruct (clock (now_calls w) >=? reset_time rate_limit);
    cbn [self now_calls calls trace fst snd limit remaining reset_time];
    destruct (_ <=? 0); cbn [andb];
    cbn [self now_calls calls trace fst snd limit remaining reset_time];
    try destruct (_ >? 0);
    cbn [self now_calls calls trace fst snd limit remaining reset_time
         rate_limits set_rate_limits];
    rewrite ?insert_insert_eq; destruct (self w); reflexivity.
Qed.

(** X15: [_handle_rate_limit] does nothing at all for a type of request
    it has no bucket for.  For a bucket with a limit of at least 1 it takes
    one token and leaves at least 0 of them, whatever the bucket held: the
    count never gets negative; and fewer than [limit] when the bucket did
    not hold more than that.  It waits at most once, and
    only when the bucket is empty and its reset time lies ahead.  The other
    buckets, the rest of the connector and the count of exchange calls stay
    as they were. *)
Theorem handle_rate_limit_bucket :
  forall (rate_limit_type : string) (w : World),
    let w' := run (_handle_rate_limit rate_limit_type) w in
    (rate_limits (self w) !! rate_limit_type = None -> w' = w)
    /\ (forall rate_limit,
          rate_limits (self w) !! rate_limit_type = Some rate_limit ->
          1 <= limit rate_limit ->
          exists rate_limit',
            rate_limits (self w') !! rate_limit_type = Some rate_limit'
            /\ limit rate_limit' = limit rate_limit
            /\ 0 <= remaining rate_limit'
            /\ (remaining rate_limit <= limit rate_limit ->
                remaining rate_limit' < limit rate_limit)
            /\ (remaining rate_limit' = remaining rate_limit - 1
                \/ remaining rate_limit' = limit rate_limit - 1)
            /\ (forall other,
                  other <> rate_limit_type ->
                  rate_limits (self w') !! other = rate_limits (self w) !! other)
            /\ self w' = set_rate_limits (rate_limits (self w')) (self w)
            /\ calls w' = calls w
            /\ (trace w' = trace w
                \/ exists seconds,
                     trace w' = trace w ++ [Throttled seconds]
                     /\ (0 < seconds)%Q
                     /\ remaining rate_limit <= 0
                     /\ clock (now_calls w) < reset_time rate_limit)).
Proof.
  intros rate_limit_type w w'. subst w'. split.
  - intros Hnone. unfold _handle_rate_limit, run, bind, get_self.
    cbn [fst snd]. rewrite Hnone. reflexivity.
  - intros rate_limit Hlookup Hlimit.
    rewrite (handle_rate_limit_run rate_limit_type w rate_limit Hlookup).
    cbn [self now_calls calls trace rate_limits set_rate_limits].
    eexists. split; [apply lookup_insert_eq|]. cbn [limit remaining reset_time].
    split; [reflexivity|].
    destruct (Z.geb_spec (clock (now_calls w)) (reset_time rate_limit)) as [Hdue|Hdue].
    + destruct (Z.leb_spec (limit rate_limit) 0) as [Hle|Hgt]; [lia|]. cbn [andb]. cbv beta iota.
      split; [lia|]. split; [lia|]. split; [right; reflexivity|].
      split; [intros other Hne; apply lookup_insert_ne; congruence|].
      split; [reflexivity|]. split; [reflexivity|]. left. reflexivity.
    + destruct (Z.leb_spec (remaining rate_limit) 0) as [Hle|Hgt]; cbn [andb]; cbv beta iota.
      * destruct (Z.gtb_spec (reset_time rate_limit - clock (now_calls w)) 0) as [Hpos|Hneg];
          [|lia].
        cbv beta iota. split; [lia|]. split; [lia|]. split; [right; reflexivity|].
        split; [intros other Hne; apply lookup_insert_ne; congruence|].
        split; [reflexivity|]. split; [reflexivity|].
        right. eexists. split; [reflexivity|].
        split; [apply total_seconds_positive; lia|]. split; lia.
      * split; [lia|]. split; [lia|]. split; [left; reflexivity|].
        split; [intros other Hne; apply lookup_insert_ne; congruence|].
        split; [reflexivity|]. split; [reflexivity|]. left. reflexivity.
Qed.

Lemma handle_rate_limit_frame (rate_limit_type : string) (w : World) :
  let w1 := run (_handle_rate_limit rate_limit_type) w in
  self w1 = set_rate_limits (rate_limits (self w1)) (self w)
  /\ calls w1 = calls w
  /\ backoffs (trace w1) = backoffs (trace w)
  /\ notifications (trace w1) = notifications (trace w).
Proof.
  intros w1. subst w1.
  destruct (rate_limits (self w) !! rate_limit_type) as [rate_limit|] eqn:Hlookup.
  - rewrite (handle_rate_limit_run rate_limit_type w rate_limit Hlookup).
    cbn [self now_calls calls trace rate_limits set_rate_limits].
    split; [reflexivity|]. split; [reflexivity|].
    destruct (_ && _); [|split; reflexivity].
    unfold backoffs, notifications. rewrite !omap_app. cbn [omap].
    rewrite !app_nil_r. split; reflexivity.
  - unfold _handle_rate_limit, run, bind, get_self. cbn [fst snd]. rewrite Hlookup.
    cbn [ret snd]. split; [destruct (self w); reflexivity|]. repeat split.
Qed.

Lemma notify_all (callbacks : list ErrorCallback) (message context : string) (w : World) :
  for_each callbacks tt (fun _ callback =>
    bind now (fun t =>
    bind get_self (fun c =>
    notify callback
      {| report_timestamp := t; report_message := message; report_context := context;
         report_consecutive_errors := consecutive_errors c |}))) w
  = (tt, {| self := self w; now_calls := (now_calls w + length callbacks)%nat;
            calls := calls w;
            trace := trace w
                     ++ error_notifications callbacks message context
                          (consecutive_errors (self w)) (now_calls w) |}).
Proof.
  revert w. induction callbacks as [|callback callbacks IH]; intros w.
  - cbn [for_each error_notifications length]. unfold ret.
    rewrite Nat.add_0_r, app_nil_r. destruct w. reflexivity.
  - cbn [for_each error_notifications length].
    unfold bind at 1. unfold bind at 1. unfold now at 1.
    unfold bind at 1. unfold get_self at 1. unfold notify at 1. unfold emit at 1.
    cbn [self now_calls calls trace].
    rewrite IH. cbn [self now_calls calls trace].
    rewrite <- app_assoc, Nat.add_succ_r. reflexivity.
Qed.

Lemma handle_error_run (exception context : string) (w : World) :
  run (_handle_error exception context) w
  = {| self :=
         (if consecutive_errors (self w) >=? 5 then set_is_trading_active false
          else fun c => c)
           (set_error_count (error_count (self w) + 1) (self w));
       now_calls := (now_calls w + length (error_callbacks (self w)))%nat;
       calls := calls w;
       trace := trace w
                ++ error_notifications (error_callbacks (self w))
                     (context ++ ": " ++ exception)%string context
                     (consecutive_errors (self w)) (now_calls w) |}.
Proof.
  unfold _handle_error, run.
  unfold bind at 1. unfold assign at 1.
  unfold bind at 1. unfold get_self at 1. cbn [self now_calls calls trace].
  unfold bind at 1.
  cbn [consecutive_errors set_error_count].
  destruct (consecutive_errors (self w) >=? 5).
  - unfold assign at 1. unfold bind at 1. unfold get_self at 1.
    cbn [self now_calls calls trace].
    rewrite notify_all. destruct (self w). reflexivity.
  - unfold ret at 1. unfold bind at 1. unfold get_self at 1.
    cbn [self now_calls calls trace].
    rewrite notify_all. destruct (self w). reflexivity.
Qed.

Lemma notifications_notified (id : nat) (report : ErrorReport) (outcome : CallbackOutcome)
    (effects : list Effect) :
  notifications (Notified id report outcome :: effects) = (id, report) :: notifications effects
  /\ backoffs (Notified id report outcome :: effects) = backoffs effects.
Proof. split; reflexivity. Qed.

Lemma error_notifications_ids (callbacks : list ErrorCallback) (message context : string)
    (consecutive : Z) (n : nat) :
  let reports := notifications (error_notifications callbacks message context consecutive n) in
  backoffs (error_notifications callbacks message context consecutive n) = []
  /\ map fst reports = map error_callback_id callbacks
  /\ Forall (fun p => report_message (snd p) = message
                      /\ report_context (snd p) = context
                      /\ report_consecutive_errors (snd p) = consecutive) reports
  /\ map (fun p => report_timestamp (snd p)) reports
     = map (fun i => clock (n + i)%nat) (seq 0 (length callbacks)).
Proof.
  revert n. induction callbacks as [|callback callbacks IH]; intros n reports; subst reports.
  - repeat split. constructor.
  - destruct (IH (S n)) as (IH1 & IH2 & IH3 & IH4).
    cbn [error_notifications].
    match goal with
    | |- context [Notified ?id ?report ?outcome :: ?effects] =>
        destruct (notifications_notified id report outcome effects) as [-> ->]
    end.
    split; [exact IH1|].
    cbn [map fst snd report_timestamp report_message report_context
         report_consecutive_errors length seq].
    split; [rewrite IH2; reflexivity|]. split.
    + constructor; [repeat split | exact IH3].
    + rewrite IH4, Nat.add_0_r. f_equal.
      rewrite <- seq_shift, map_map. apply map_ext. intros i. f_equal. lia.
Qed.

(** X16: [_handle_error] counts the error, leaves [consecutive_errors]
    alone and switches trading off when that has reached 5; it never
    switches trading on.  Every error callback is called once, in the order
    of the list and whatever the others did, with the message
    [context: exception] and the count of consecutive errors; each call
    reads the clock once.  The exchange is not called. *)
Theorem handle_error_reports :
  forall (exception context : string) (w : World),
    let w' := run (_handle_error exception context) w in
    let reports := notifications (skipn (length (trace w)) (trace w')) in
    error_count (self w') = error_count (self w) + 1
    /\ consecutive_errors (self w') = consecutive_errors (self w)
    /\ is_trading_active (self w')
       = is_trading_active (self w) && (consecutive_errors (self w) <? 5)
    /\ settings_kept (self w) (self w')
    /\ rate_limits (self w') = rate_limits (self w)
    /\ orderbook_cache (self w') = orderbook_cache (self w)
    /\ calls w' = calls w
    /\ firstn (length (trace w)) (trace w') = trace w
    /\ map fst reports = map error_callback_id (error_callbacks (self w))
    /\ Forall (fun p => report_message (snd p) = (context ++ ": " ++ exception)%string
                        /\ report_context (snd p) = context
                        /\ report_consecutive_errors (snd p) = consecutive_errors (self w))
              reports
    /\ map (fun p => report_timestamp (snd p)) reports
       = map (fun i => clock (now_calls w + i)%nat)
             (seq 0 (length (error_callbacks (self w)))).
Proof.
  intros exception context w w' reports. subst reports w'.
  rewrite handle_error_run. cbn [self now_calls calls trace].
  rewrite skipn_app, Nat.sub_diag, skipn_all, app_nil_l. cbn [skipn].
  rewrite firstn_app, Nat.sub_diag, firstn_all. cbn [firstn]. rewrite app_nil_r.
  destruct (error_notifications_ids (error_callbacks (self w))
              (context ++ ": " ++ exception)%string context
              (consecutive_errors (self w)) (now_calls w)) as (_ & Hids & Hall & Htimes).
  assert (Hflag : (consecutive_errors (self w) <? 5) = negb (consecutive_errors (self w) >=? 5)).
  { destruct (Z.ltb_spec (consecutive_errors (self w)) 5);
      destruct (Z.geb_spec (consecutive_errors (self w)) 5); try reflexivity; lia. }
  rewrite Hflag.
  destruct (consecutive_errors (self w) >=? 5); cbn [negb];
    rewrite ?andb_false_r, ?andb_true_r;
    repeat split; assumption.
Qed.

Lemma handle_rate_limit_world (rate_limit_type : string) (w : World) :
  exists buckets readings effects,
    run (_handle_rate_limit rate_limit_type) w
    = {| self := set_rate_limits buckets (self w); now_calls := readings;
         calls := calls w; trace := effects |}
    /\ backoffs effects = backoffs (trace w)
    /\ notifications effects = notifications (trace w).
Proof.
  destruct (handle_rate_limit_frame rate_limit_type w) as (Hself & Hcalls & Hb & Hn).
  destruct (run (_handle_rate_limit rate_limit_type) w) as [c1 n1 k1 t1].
  cbn [self calls trace] in *. subst k1.
  exists (rate_limits c1), n1, t1. rewrite <- Hself. auto.
Qed.

Lemma retry_loop_step {R : Type} (fuel : nat) (func : nat -> CallOutcome R)
    (rate_limit_type : string) (attempts : Z) (w : World) :
  attempts < max_retry_attempts (self w) ->
  retry_loop (S fuel) func rate_limit_type attempts w
  = let w1 := run (_handle_rate_limit rate_limit_type) w in
    let w2 := {| self := self w1; now_calls := now_calls w1; calls := S (calls w1);
                 trace := trace w1 |} in
    match func (calls w1) with
    | Result r =>
        (Returned (Some r),
         {| self := set_consecutive_errors 0 (self w1); now_calls := now_calls w1;
            calls := S (calls w1); trace := trace w1 |})
    | NetworkError e =>
        let w3 := run count_error w2 in
        if attempts + 1 <? max_retry_attempts (self w3) then
          let seconds := (retry_delay (self w3) * inject_Z (2 ^ (attempts + 1 - 1)))%Q in
          if Float.Qltb seconds 0 then (Escaped, w3)
          else retry_loop fuel func rate_limit_type (attempts + 1)
                 {| self := self w3; now_calls := now_calls w3; calls := calls w3;
                    trace := trace w3 ++ [BackedOff seconds] |}
        else (Returned None,
              run (_handle_error e "Maximale Wiederholungsversuche erreicht") w3)
    | ExchangeError e =>
        (Returned None, run (_handle_error e "Exchange-Fehler") (run count_error w2))
    | OtherError e =>
        (Returned None, run (_handle_error e "Unerwarteter Fehler") (run count_error w2))
    end.
Proof.
  intros Hlt. apply Z.ltb_lt in Hlt.
  cbn [retry_loop]. unfold bind at 1. unfold get_self at 1. rewrite Hlt.
  unfold run, bind.
  destruct (_handle_rate_limit rate_limit_type w) as [[] w1].
  unfold next_call. cbn [snd self now_calls calls trace].
  destruct (func (calls w1)) as [r|e|e|e]; try reflexivity.
  - unfold count_error, bind, assign, now, get_self, emit.
    cbn [snd self now_calls calls trace].
    destruct (attempts + 1 <? _).
    + destruct (Float.Qltb _ 0); reflexivity.
    + destruct (_handle_error _ _ _) as [[] w4]. reflexivity.
  - unfold count_error, bind, assign, now. cbn [snd self now_calls calls trace].
    destruct (_handle_error _ _ _) as [[] w4]. reflexivity.
  - unfold count_error, bind, assign, now. cbn [snd self now_calls calls trace].
    destruct (_handle_error _ _ _) as [[] w4]. reflexivity.
Qed.

Lemma retry_loop_done {R : Type} (fuel : nat) (func : nat -> CallOutcome R)
    (rate_limit_type : string) (attempts : Z) (w : World) :
  max_retry_attempts (self w) <= attempts ->
  retry_loop fuel func rate_limit_type attempts w = (Returned None, w).
Proof.
  intros Hge. destruct fuel; cbn [retry_loop]; unfold bind, get_self;
    destruct (Z.ltb_spec attempts (max_retry_attempts (self w))); try lia; reflexivity.
Qed.

Ltac connector_fields :=
  cbn [self now_calls calls trace fst snd
       exchange is_ready is_trading_active error_count last_error_time consecutive_errors
       max_retry_attempts retry_delay cache_ttl rate_limits orderbook_cache error_callbacks
       set_is_trading_active set_error_count set_last_error_time set_consecutive_errors
       set_rate_limits set_orderbook_cache] in *.

Lemma count_error_run (w : World) :
  run count_error w
  = {| self := set_last_error_time (Some (clock (now_calls w)))
                 (set_consecutive_errors (consecutive_errors (self w) + 1) (self w));
       now_calls := S (now_calls w); calls := calls w; trace := trace w |}.
Proof. reflexivity. Qed.

Lemma backoff_not_negative (delay : Q) (k : Z) :
  Float.Qltb (delay * inject_Z (2 ^ k)) 0 = true -> (delay < 0)%Q.
Proof.
  intros H. apply Qltb_lt in H.
  destruct (Qlt_le_dec delay 0) as [Hneg|Hpos]; [exact Hneg|].
  exfalso. apply (Qlt_not_le _ _ H). apply Qmult_le_0_compat; [exact Hpos|].
  unfold Qle. simpl. pose proof (Z.pow_nonneg 2 k). lia.
Qed.

(** After a failed call: the error is counted and reported. *)
Lemma failed_call_world (e context : string) (w : World) :
  let w' := run (_handle_error e context) (run count_error w) in
  settings_kept (self w) (self w')
  /\ orderbook_cache (self w') = orderbook_cache (self w)
  /\ calls w' = calls w
  /\ error_count (self w') = error_count (self w) + 1
  /\ consecutive_errors (self w') = consecutive_errors (self w) + 1
  /\ (is_trading_active (self w') = true -> is_trading_active (self w) = true)
  /\ backoffs (trace w') = backoffs (trace w)
  /\ is_trading_active (self w')
     = is_trading_active (self w) && (consecutive_errors (self w) + 1 <? 5).
Proof.
  intros w'. subst w'. rewrite handle_error_run, count_error_run. connector_fields.
  destruct (error_notifications_ids (error_callbacks (self w))
              (context ++ ": " ++ e)%string context
              (consecutive_errors (self w) + 1) (S (now_calls w))) as (Hb & _).
  unfold backoffs in *. rewrite omap_app, Hb, app_nil_r.
  destruct (Z.geb_spec (consecutive_errors (self w) + 1) 5);
    destruct (Z.ltb_spec (consecutive_errors (self w) + 1) 5); try lia;
    connector_fields; rewrite ?andb_false_r, ?andb_true_r;
    unfold settings_kept; connector_fields; repeat split; congruence.
Qed.

Lemma retry_loop_spec {R : Type} (func : nat -> CallOutcome R) (rate_limit_type : string) :
  forall (fuel : nat) (attempts : Z) (w : World),
    (Z.to_nat (max_retry_attempts (self w) - attempts) <= fuel)%nat ->
    let outcome := result (retry_loop fuel func rate_limit_type attempts) w in
    let w' := run (retry_loop fuel func rate_limit_type attempts) w in
    outcome <> OutOfFuel
    /\ settings_kept (self w) (self w')
    /\ orderbook_cache (self w') = orderbook_cache (self w)
    /\ (calls w <= calls w')%nat
    /\ (calls w' <= calls w + Z.to_nat (max_retry_attempts (self w) - attempts))%nat
    /\ (forall r,
          outcome = Returned (Some r) ->
          consecutive_errors (self w') = 0
          /\ (calls w < calls w')%nat
          /\ func (pred (calls w')) = Result r
          /\ error_count (self w') = error_count (self w))
    /\ (outcome = Returned None ->
        attempts < max_retry_attempts (self w) ->
        error_count (self w') = error_count (self w) + 1
        /\ (calls w < calls w')%nat
        /\ consecutive_errors (self w')
           = consecutive_errors (self w) + Z.of_nat (calls w' - calls w))
    /\ (outcome = Escaped -> (retry_delay (self w) < 0)%Q)
    /\ (is_trading_active (self w') = true -> is_trading_active (self w) = true).
Proof.
  induction fuel as [|fuel IH]; intros attempts w Hfuel outcome w'; subst outcome w'.
  - unfold result, run. rewrite retry_loop_done by lia. connector_fields.
    unfold settings_kept. repeat split; try discriminate; try lia; try tauto.
  - destruct (Z.lt_ge_cases attempts (max_retry_attempts (self w))) as [Hlt|Hge].
    2:{ unfold result, run. rewrite retry_loop_done by lia. connector_fields.
        unfold settings_kept. repeat split; try discriminate; try lia; try tauto. }
    unfold result, run. rewrite retry_loop_step by exact Hlt. cbv zeta.
    destruct (handle_rate_limit_world rate_limit_type w)
      as (buckets & readings & effects & -> & Hb & Hn).
    connector_fields.
    destruct (func (calls w)) as [r|e|e|e] eqn:Hfunc.
    + connector_fields. unfold settings_kept. connector_fields.
      repeat split; try discriminate; try lia; try tauto.
      cbn [Init.Nat.pred]. congruence.
    + rewrite count_error_run. connector_fields.
      destruct (Z.ltb_spec (attempts + 1) (max_retry_attempts (self w))) as [Hmore|Hlast].
      * destruct (Float.Qltb _ 0) eqn:Hdelay.
        -- connector_fields. unfold settings_kept. connector_fields.
           repeat split; try discriminate; try lia; try tauto.
           intros _. eapply backoff_not_negative, Hdelay.
        -- match goal with
           | |- context [retry_loop fuel func rate_limit_type (attempts + 1) ?w4] =>
               specialize (IH (attempts + 1) w4)
           end.
           connector_fields.
           destruct IH as (I1 & I2 & I3 & I4 & I5 & I6 & I7 & I8 & I9); [lia|].
           unfold result, run, settings_kept in *. connector_fields.
           split; [exact I1|]. split; [exact I2|]. split; [exact I3|].
           split; [lia|]. split; [lia|]. split; [|split; [|split; [exact I8 | exact I9]]].
           ++ intros r Hr. destruct (I6 r Hr) as (? & ? & ? & ?). repeat split; try assumption; lia.
           ++ intros Hnone _. destruct (I7 Hnone Hmore) as (? & ? & ?).
              repeat split; try assumption; lia.
      * pose proof (failed_call_world e "Maximale Wiederholungsversuche erreicht"
                      {| self := set_rate_limits buckets (self w); now_calls := readings;
                         calls := S (calls w); trace := effects |}) as Hfail.
        rewrite count_error_run in Hfail. cbv zeta in Hfail. connector_fields.
        destruct Hfail as (F1 & F2 & F3 & F4 & F5 & F6 & _).
        unfold settings_kept in *. connector_fields. rewrite F3.
        repeat split; try discriminate; try tauto; try lia.
    + pose proof (failed_call_world e "Exchange-Fehler"
                    {| self := set_rate_limits buckets (self w); now_calls := readings;
                       calls := S (calls w); trace := effects |}) as Hfail.
      cbv zeta in Hfail. connector_fields.
      destruct Hfail as (F1 & F2 & F3 & F4 & F5 & F6 & _).
      unfold settings_kept in *. connector_fields. rewrite F3.
      repeat split; try discriminate; try tauto; try lia.
    + pose proof (failed_call_world e "Unerwarteter Fehler"
                    {| self := set_rate_limits buckets (self w); now_calls := readings;
                       calls := S (calls w); trace := effects |}) as Hfail.
      cbv zeta in Hfail. connector_fields.
      destruct Hfail as (F1 & F2 & F3 & F4 & F5 & F6 & _).
      unfold settings_kept in *. connector_fields. rewrite F3.
      repeat split; try discriminate; try tauto; try lia.
Qed.

Lemma execute_with_retry_loop {R : Type} (func : nat -> CallOutcome R)
    (rate_limit_type : string) (w : World) :
  _execute_with_retry func rate_limit_type w
  = retry_loop (Z.to_nat (max_retry_attempts (self w))) func rate_limit_type 0 w.
Proof. reflexivity. Qed.

(** X17: [_execute_with_retry] comes to an end, after at most
    [max_retry_attempts] calls of the exchange, and after none when that
    number is not positive.  When it returns a result, that is the result
    of the last call made, and [consecutive_errors] is 0; when it returns
    [None] after a call, every call made has failed and been counted in
    [consecutive_errors], and the failure has been reported once.  No
    exception leaves it unless [retry_delay] is negative.  It never switches
    trading on, and leaves the settings and the orderbook cache alone. *)
Theorem execute_with_retry_attempts :
  forall (R : Type) (func : nat -> CallOutcome R) (rate_limit_type : string) (w : World),
    let outcome := result (_execute_with_retry func rate_limit_type) w in
    let w' := run (_execute_with_retry func rate_limit_type) w in
    outcome <> OutOfFuel
    /\ (calls w <= calls w')%nat
    /\ (calls w' <= calls w + Z.to_nat (max_retry_attempts (self w)))%nat
    /\ (max_retry_attempts (self w) <= 0 -> outcome = Returned None /\ w' = w)
    /\ (forall r,
          outcome = Returned (Some r) ->
          consecutive_errors (self w') = 0
          /\ (calls w < calls w')%nat
          /\ func (pred (calls w')) = Result r
          /\ error_count (self w') = error_count (self w))
    /\ (outcome = Returned None ->
        0 < max_retry_attempts (self w) ->
        error_count (self w') = error_count (self w) + 1
        /\ (calls w < calls w')%nat
        /\ consecutive_errors (self w')
           = consecutive_errors (self w) + Z.of_nat (calls w' - calls w))
    /\ (outcome = Escaped -> (retry_delay (self w) < 0)%Q)
    /\ (is_trading_active (self w') = true -> is_trading_active (self w) = true)
    /\ settings_kept (self w) (self w')
    /\ orderbook_cache (self w') = orderbook_cache (self w).
Proof.
  intros R func rate_limit_type w outcome w'. subst outcome w'.
  unfold result, run. rewrite execute_with_retry_loop.
  destruct (retry_loop_spec func rate_limit_type
              (Z.to_nat (max_retry_attempts (self w))) 0 w)
    as (H1 & H2 & H3 & H4 & H5 & H6 & H7 & H8 & H9); [lia|].
  unfold result, run in *.
  rewrite Z.sub_0_r in H5.
  repeat split; try assumption;
    try (rewrite retry_loop_done by lia; reflexivity);
    try (eapply H6; eassumption);
    try (apply H7; assumption);
    try (apply H8; assumption);
    try (apply H2).
Qed.

Lemma backoffs_backed_off (effects : list Effect) (seconds : Q) :
  backoffs (effects ++ [BackedOff seconds]) = backoffs effects ++ [seconds].
Proof. unfold backoffs. rewrite omap_app. reflexivity. Qed.

Lemma backoff_delays_shift (delay : Q) (first : Z) (count : nat) :
  (delay * inject_Z (2 ^ (first + 1 - 1)))%Q :: backoff_delays delay (first + 1) count
  = backoff_delays delay first (S count).
Proof.
  unfold backoff_delays. cbn [seq map]. f_equal.
  - do 3 f_equal. lia.
  - rewrite <- seq_shift, map_map. apply map_ext. intros i. do 3 f_equal. lia.
Qed.

Lemma retry_loop_network_errors {R : Type} (func : nat -> CallOutcome R)
    (rate_limit_type : string) :
  forall (fuel : nat) (attempts : Z) (w : World),
    attempts < max_retry_attempts (self w) ->
    (Z.to_nat (max_retry_attempts (self w) - attempts) <= fuel)%nat ->
    (0 <= retry_delay (self w))%Q ->
    (forall n,
        (calls w <= n < calls w + Z.to_nat (max_retry_attempts (self w) - attempts))%nat ->
        exists e, func n = NetworkError e) ->
    let w' := run (retry_loop fuel func rate_limit_type attempts) w in
    result (retry_loop fuel func rate_limit_type attempts) w = Returned None
    /\ calls w' = (calls w + Z.to_nat (max_retry_attempts (self w) - attempts))%nat
    /\ backoffs (trace w')
       = backoffs (trace w)
         ++ backoff_delays (retry_delay (self w)) attempts
              (Z.to_nat (max_retry_attempts (self w) - attempts - 1))
    /\ is_trading_active (self w')
       = is_trading_active (self w)
         && (consecutive_errors (self w) + (max_retry_attempts (self w) - attempts) <? 5).
Proof.
  induction fuel as [|fuel IH]; intros attempts w Hlt Hfuel Hdelay Hfunc w'; subst w';
    [lia|].
  unfold result, run. rewrite retry_loop_step by exact Hlt. cbv zeta.
  destruct (Hfunc (calls w)) as [e He]; [lia|].
  destruct (handle_rate_limit_world rate_limit_type w)
    as (buckets & readings & effects & -> & Hb & Hn).
  connector_fields. rewrite He, count_error_run. connector_fields.
  destruct (Z.ltb_spec (attempts + 1) (max_retry_attempts (self w))) as [Hmore|Hlast].
  - destruct (Float.Qltb _ 0) eqn:Hneg.
    { apply backoff_not_negative in Hneg. exfalso. exact (Qlt_not_le _ _ Hneg Hdelay). }
    match goal with
    | |- context [retry_loop fuel func rate_limit_type (attempts + 1) ?w4] =>
        specialize (IH (attempts + 1) w4)
    end.
    connector_fields.
    destruct IH as (I1 & I2 & I3 & I4); [lia | lia | exact Hdelay | |].
    { intros n Hrange. apply Hfunc. lia. }
    unfold result, run in *. connector_fields.
    split; [exact I1|]. split; [rewrite I2; lia|]. split.
    + rewrite I3, backoffs_backed_off, Hb, <- app_assoc. cbn [app].
      rewrite backoff_delays_shift. do 2 f_equal. lia.
    + rewrite I4. do 2 f_equal. lia.
  - pose proof (failed_call_world e "Maximale Wiederholungsversuche erreicht"
                  {| self := set_rate_limits buckets (self w); now_calls := readings;
                     calls := S (calls w); trace := effects |}) as Hfail.
    rewrite count_error_run in Hfail. cbv zeta in Hfail. connector_fields.
    destruct Hfail as (_ & _ & F3 & _ & _ & _ & F7 & F8).
    split; [reflexivity|]. split; [rewrite F3; lia|]. split.
    + rewrite F7, Hb.
      replace (Z.to_nat (max_retry_attempts (self w) - attempts - 1)) with 0%nat by lia.
      unfold backoff_delays. cbn [seq map]. rewrite app_nil_r. reflexivity.
    + rewrite F8. do 2 f_equal. lia.
Qed.

(** X18: when the network fails at every attempt (and [retry_delay] is
    not negative), [_execute_with_retry] makes exactly [max_retry_attempts]
    calls and returns [None]; between them it waits [retry_delay],
    [2 * retry_delay], [4 * retry_delay] and so on, one wait fewer than
    calls; [consecutive_errors] grows by the number of calls, the failure is
    reported once, and trading stays active only if it was and fewer than 5
    consecutive errors have been counted. *)
Theorem network_errors_back_off :
  forall (R : Type) (func : nat -> CallOutcome R) (rate_limit_type : string) (w : World),
    1 <= max_retry_attempts (self w) ->
    (0 <= retry_delay (self w))%Q ->
    (forall n,
        (calls w <= n < calls w + Z.to_nat (max_retry_attempts (self w)))%nat ->
        exists e, func n = NetworkError e) ->
    let w' := run (_execute_with_retry func rate_limit_type) w in
    result (_execute_with_retry func rate_limit_type) w = Returned None
    /\ calls w' = (calls w + Z.to_nat (max_retry_attempts (self w)))%nat
    /\ backoffs (trace w')
       = backoffs (trace w)
         ++ backoff_delays (retry_delay (self w)) 0
              (Z.to_nat (max_retry_attempts (self w) - 1))
    /\ consecutive_errors (self w')
       = consecutive_errors (self w) + max_retry_attempts (self w)
    /\ error_count (self w') = error_count (self w) + 1
    /\ is_trading_active (self w')
       = is_trading_active (self w)
         && (consecutive_errors (self w) + max_retry_attempts (self w) <? 5).
Proof.
  intros R func rate_limit_type w Hmax Hdelay Hfunc w'. subst w'.
  unfold result, run. rewrite execute_with_retry_loop.
  destruct (retry_loop_network_errors func rate_limit_type
              (Z.to_nat (max_retry_attempts (self w))) 0 w)
    as (N1 & N2 & N3 & N4); [lia | lia | exact Hdelay | |].
  { intros n Hn. apply Hfunc. lia. }
  destruct (retry_loop_spec func rate_limit_type
              (Z.to_nat (max_retry_attempts (self w))) 0 w)
    as (_ & _ & _ & _ & _ & _ & H7 & _); [lia|].
  destruct (H7 N1) as (E1 & E2 & E3); [lia|].
  unfold result, run in *. rewrite Z.sub_0_r in *.
  split; [exact N1|]. split; [exact N2|]. split; [exact N3|].
  split; [rewrite E3, N2; lia|]. split; [exact E1|]. exact N4.
Qed.

Lemma get_orderbook_hit (symbol : string) (limit : Z) (w : World) (data : Orderbook)
    (timestamp : datetime) :
  orderbook_cache (self w) !! symbol = Some (data, timestamp) ->
  (total_seconds (clock (now_calls w) - timestamp) < cache_ttl (self w))%Q ->
  get_orderbook symbol limit w
  = (Returned (Some data),
     {| self := self w; now_calls := S (now_calls w); calls := calls w; trace := trace w |}).
Proof.
  intros Hcache Hfresh. apply Qltb_lt in Hfresh.
  unfold get_orderbook, bind, now, get_self. connector_fields.
  unfold datetime in *. rewrite Hcache, Hfresh. reflexivity.
Qed.

Lemma get_orderbook_miss (symbol : string) (limit : Z) (w : World) :
  (forall data timestamp,
      orderbook_cache (self w) !! symbol = Some (data, timestamp) ->
      ~ (total_seconds (clock (now_calls w) - timestamp) < cache_ttl (self w))%Q) ->
  let w1 := {| self := self w; now_calls := S (now_calls w); calls := calls w;
               trace := trace w |} in
  let fetch := _execute_with_retry
                 (fun n => fetch_order_book (exchange (self w)) n symbol limit)
                 "market_data" in
  get_orderbook symbol limit w
  = match result fetch w1 with
    | Returned (Some orderbook) =>
        (Returned (Some orderbook),
         {| self := set_orderbook_cache
                      (<[symbol := (orderbook, clock (now_calls w))]>
                         (orderbook_cache (self (run fetch w1))))
                      (self (run fetch w1));
            now_calls := now_calls (run fetch w1); calls := calls (run fetch w1);
            trace := trace (run fetch w1) |})
    | outcome => (outcome, run fetch w1)
    end.
Proof.
  intros Hstale w1 fetch. subst w1 fetch.
  unfold get_orderbook. unfold bind at 1. unfold now at 1.
  unfold bind at 1. unfold get_self at 1. connector_fields.
  assert (Hcached :
            match orderbook_cache (self w) !! symbol with
            | Some (data, timestamp) =>
                if Float.Qltb (total_seconds (clock (now_calls w) - timestamp))
                              (cache_ttl (self w))
                then Some data else None
            | None => None
            end = None).
  { destruct (orderbook_cache (self w) !! symbol) as [[data timestamp]|] eqn:Hcache;
      [|reflexivity].
    destruct (Float.Qltb _ _) eqn:Hfresh; [|reflexivity].
    apply Qltb_lt in Hfresh. exfalso. exact (Hstale data timestamp eq_refl Hfresh). }
  unfold datetime in *. rewrite Hcached. unfold bind at 1. unfold result, run.
  destruct (_execute_with_retry _ _ _) as [[[orderbook|]| |] w2]; reflexivity.
Qed.

Lemma get_orderbook_miss_cases (symbol : string) (limit : Z) (w : World) :
  (forall data timestamp,
      orderbook_cache (self w) !! symbol = Some (data, timestamp) ->
      ~ (total_seconds (clock (now_calls w) - timestamp) < cache_ttl (self w))%Q) ->
  (forall orderbook,
      result (get_orderbook symbol limit) w = Returned (Some orderbook) ->
      exists timestamp,
        orderbook_cache (self (run (get_orderbook symbol limit) w)) !! symbol
        = Some (orderbook, timestamp)
        /\ (timestamp = clock (now_calls w)
            \/ (total_seconds (clock (now_calls w) - timestamp) < cache_ttl (self w))%Q)
        /\ forall limit',
             (total_seconds (clock (now_calls (run (get_orderbook symbol limit) w))
                             - timestamp)
              < cache_ttl (self w))%Q ->
             result (get_orderbook symbol limit') (run (get_orderbook symbol limit) w)
             = Returned (Some orderbook)
             /\ calls (run (get_orderbook symbol limit')
                         (run (get_orderbook symbol limit) w))
                = calls (run (get_orderbook symbol limit) w)
             /\ self (run (get_orderbook symbol limit')
                        (run (get_orderbook symbol limit) w))
                = self (run (get_orderbook symbol limit) w))
  /\ (result (get_orderbook symbol limit) w = Returned None ->
      orderbook_cache (self (run (get_orderbook symbol limit) w))
      = orderbook_cache (self w))
  /\ (forall other,
        other <> symbol ->
        orderbook_cache (self (run (get_orderbook symbol limit) w)) !! other
        = orderbook_cache (self w) !! other)
  /\ cache_ttl (self (run (get_orderbook symbol limit) w)) = cache_ttl (self w).
Proof.
  intros Hstale.
  pose proof (get_orderbook_miss symbol limit w Hstale) as Hmiss. cbv zeta in Hmiss.
  unfold result, run. rewrite Hmiss. clear Hmiss.
  match goal with
  | |- context [result ?m ?w0] => set (fetch := m); set (w1 := w0)
  end.
  destruct (retry_loop_spec (fun n => fetch_order_book (exchange (self w)) n symbol limit)
              "market_data" (Z.to_nat (max_retry_attempts (self w1))) 0 w1)
    as (_ & Hkept & Hcache & _); [lia|].
  change (run (retry_loop (Z.to_nat (max_retry_attempts (self w1)))
                 (fun n => fetch_order_book (exchange (self w)) n symbol limit)
                 "market_data" 0) w1) with (run fetch w1) in Hkept, Hcache.
  destruct Hkept as (_ & _ & _ & _ & Httl & _).
  change (self w1) with (self w) in Hcache, Httl.
  destruct (result fetch w1) as [[orderbook|]| |]; connector_fields.
  - split; [|split; [discriminate|split]].
    + intros orderbook' [= <-]. exists (clock (now_calls w)).
      split; [apply lookup_insert_eq|]. split; [left; reflexivity|].
      intros limit' Hfresh.
      rewrite (get_orderbook_hit symbol limit' _ orderbook (clock (now_calls w)));
        connector_fields.
      * repeat split.
      * apply lookup_insert_eq.
      * rewrite Httl. exact Hfresh.
    + intros other Hne. rewrite lookup_insert_ne by congruence. rewrite Hcache. reflexivity.
    + exact Httl.
  - split; [discriminate|]. split; [intros _; exact Hcache|].
    split; [intros other _; rewrite Hcache; reflexivity | exact Httl].
  - split; [discriminate|]. split; [intros _; exact Hcache|].
    split; [intros other _; rewrite Hcache; reflexivity | exact Httl].
  - split; [discriminate|]. split; [intros _; exact Hcache|].
    split; [intros other _; rewrite Hcache; reflexivity | exact Httl].
Qed.

(** X19: [get_orderbook] answers from the cache, without calling the
    exchange or changing the connector, when the symbol has an entry younger
    than [cache_ttl] seconds.  An orderbook it returns is in the cache
    afterwards, so that the next request for the symbol within [cache_ttl]
    seconds of the entry's time returns the same orderbook without a call.
    A request that fails leaves the cache as it was, and no request touches
    the entries of other symbols. *)
Theorem orderbook_cache_round_trip :
  forall (symbol : string) (limit : Z) (w : World),
    let t := clock (now_calls w) in
    let outcome := result (get_orderbook symbol limit) w in
    let w' := run (get_orderbook symbol limit) w in
    (forall data timestamp,
        orderbook_cache (self w) !! symbol = Some (data, timestamp) ->
        (total_seconds (t - timestamp) < cache_ttl (self w))%Q ->
        outcome = Returned (Some data)
        /\ w' = {| self := self w; now_calls := S (now_calls w); calls := calls w;
                   trace := trace w |})
    /\ (forall orderbook,
          outcome = Returned (Some orderbook) ->
          exists timestamp,
            orderbook_cache (self w') !! symbol = Some (orderbook, timestamp)
            /\ (timestamp = t \/ (total_seconds (t - timestamp) < cache_ttl (self w))%Q)
            /\ forall limit',
                 (total_seconds (clock (now_calls w') - timestamp) < cache_ttl (self w))%Q ->
                 result (get_orderbook symbol limit') w' = Returned (Some orderbook)
                 /\ calls (run (get_orderbook symbol limit') w') = calls w'
                 /\ self (run (get_orderbook symbol limit') w') = self w')
    /\ (outcome = Returned None -> orderbook_cache (self w') = orderbook_cache (self w))
    /\ (forall other,
          other <> symbol ->
          orderbook_cache (self w') !! other = orderbook_cache (self w) !! other)
    /\ cache_ttl (self w') = cache_ttl (self w).
Proof.
  intros symbol limit w t outcome w'. subst t outcome w'.
  assert (Hhit : forall data timestamp,
             orderbook_cache (self w) !! symbol = Some (data, timestamp) ->
             (total_seconds (clock (now_calls w) - timestamp) < cache_ttl (self w))%Q ->
             get_orderbook symbol limit w
             = (Returned (Some data),
                {| self := self w; now_calls := S (now_calls w); calls := calls w;
                   trace := trace w |})).
  { intros data timestamp. apply get_orderbook_hit. }
  split.
  { intros data timestamp Hcache Hfresh. unfold result, run.
    rewrite (Hhit data timestamp Hcache Hfresh). split; reflexivity. }
  destruct (orderbook_cache (self w) !! symbol) as [[data timestamp]|] eqn:Hcache.
  - destruct (Qlt_le_dec (total_seconds (clock (now_calls w) - timestamp)) (cache_ttl (self w)))
      as [Hfresh|Hstale].
    + unfold result, run. rewrite (Hhit data timestamp eq_refl Hfresh).
      connector_fields.
      split; [|split; [discriminate|split; [reflexivity|reflexivity]]].
      intros orderbook [= <-]. exists timestamp.
      split; [exact Hcache|]. split; [right; exact Hfresh|].
      intros limit' Hfresh'.
      rewrite (get_orderbook_hit symbol limit' _ data timestamp); connector_fields;
        auto.
    + apply (get_orderbook_miss_cases symbol limit w).
      intros data' timestamp' H.
      pose proof (eq_trans (eq_sym H) Hcache) as E. injection E as -> ->.
      apply Qle_not_lt, Hstale.
  - apply (get_orderbook_miss_cases symbol limit w).
    intros data' timestamp' H.
    pose proof (eq_trans (eq_sym H) Hcache) as E. discriminate.
Qed.

(** X20: [get_open_positions] never returns [None]: when the request
    fails, or the exchange reports no position, it returns the empty list.
    Every position it returns has a positive number of contracts and was
    reported by the last call of the exchange, in the same order.  It raises
    when a reported position has no number of contracts (or, as every
    request does, when [retry_delay] is negative). *)
Theorem get_open_positions_active :
  forall (w : World),
    let outcome := result get_open_positions w in
    let w' := run get_open_positions w in
    outcome <> OutOfFuel
    /\ outcome <> Returned None
    /\ (forall active,
          outcome = Returned (Some active) ->
          Forall (fun p => exists q, contracts p = Some q /\ (0 < q)%Q) active
          /\ (active = []
              \/ exists positions,
                   (calls w < calls w')%nat
                   /\ fetch_positions (exchange (self w)) (pred (calls w')) = Result positions
                   /\ active = List.filter has_contracts positions))
    /\ (outcome = Escaped ->
        (retry_delay (self w) < 0)%Q
        \/ exists positions p,
             fetch_positions (exchange (self w)) (pred (calls w')) = Result positions
             /\ In p positions /\ contracts p = None)
    /\ (calls w' <= calls w + Z.to_nat (max_retry_attempts (self w)))%nat.
Proof.
  intros w outcome w'. subst outcome w'.
  unfold result, run, get_open_positions, bind, get_self.
  destruct (retry_loop_spec (fetch_positions (exchange (self w))) "orders"
              (Z.to_nat (max_retry_attempts (self w))) 0 w)
    as (H1 & _ & _ & _ & H5 & H6 & _ & H8 & _); [lia|].
  rewrite Z.sub_0_r in H5.
  unfold result, run in H1, H5, H6, H8.
  rewrite execute_with_retry_loop.
  destruct (retry_loop _ _ _ _ w) as [[[[|p positions]|]| |] w2];
    cbn [fst snd] in *; try congruence.
  - split; [discriminate|]. split; [discriminate|]. split; [|split; [discriminate | exact H5]].
    intros active [= <-]. split; [constructor | left; reflexivity].
  - destruct (H6 _ eq_refl) as (_ & Hcalls & Hlast & _).
    assert (Hne : p :: positions <> []) by discriminate.
    generalize dependent (p :: positions). clear p positions. intros positions Hlast Hne.
    destruct (forallb _ positions) eqn:Hall; cbn [fst snd].
    + split; [discriminate|]. split; [discriminate|].
      split; [|split; [discriminate | exact H5]].
      intros active [= <-]. split.
      * apply Forall_forall. intros p' Hp'.
        apply list_elem_of_In, filter_In in Hp'. destruct Hp' as [_ Hp'].
        unfold has_contracts in Hp'. destruct (contracts p') as [q|]; [|discriminate].
        exists q. split; [reflexivity | apply Qltb_lt, Hp'].
      * right. exists positions. auto.
    + split; [discriminate|]. split; [discriminate|].
      split; [discriminate|]. split; [|exact H5].
      intros _. right.
      assert (Hex : exists p', In p' positions /\ contracts p' = None).
      { clear - Hall. induction positions as [|p' rest IH]; [discriminate|].
        cbn [forallb] in Hall. destruct (contracts p') eqn:Hc.
        - destruct IH as (p'' & Hin & Hnone); [exact Hall|].
          exists p''. split; [right; exact Hin | exact Hnone].
        - exists p'. split; [left; reflexivity | exact Hc]. }
      destruct Hex as (p' & Hin & Hnone). exists positions, p'. auto.
  - split; [discriminate|]. split; [discriminate|]. split; [|split; [discriminate | exact H5]].
    intros active [= <-]. split; [constructor | left; reflexivity].
  - split; [discriminate|]. split; [discriminate|].
    split; [discriminate|]. split; [|exact H5].
    intros _. left. apply H8. reflexivity.
Qed.

End ConnectorProperties.

(** * The further properties at the sample data *)

Lemma fetch_current_data_entries_witness :
  result (fetch_current_data Sample.pipeline [Sample.symbol]) Sample.loaded
  = Some Sample.current_data
  /\ current_data_from [Sample.symbol] Sample.current_data
  /\ (length Sample.current_data <= 1)%nat.
Proof.
  assert (H : result (fetch_current_data Sample.pipeline [Sample.symbol]) Sample.loaded
              = Some Sample.current_data) by reflexivity.
  split; [exact H|].
  destruct (fetch_current_data_entries Sample.pipeline [Sample.symbol] Sample.loaded
              Sample.current_data H) as (Hfrom & Hlen & _).
  split; assumption.
Defined.

Lemma gate_counters_consistent_witness :
  reachable Sample.full
  /\ alert_count_today (self Sample.full) = 100
  /\ alert_count_today (self Sample.full)
     <= Z.max 0 (max_alerts_per_day (cfg (self Sample.full)))
  /\ is_Some (last_alert_time (self Sample.full))
  /\ detected_events (self Sample.full) <> [].
Proof.
  assert (H : reachable Sample.full)
    by exact (reachable_iterated (call_handle_alerts Sample.severe_alerts) 100 _
                (reachable_init Sample.busy_config)).
  assert (Hcount : alert_count_today (self Sample.full) = 100) by (vm_compute; reflexivity).
  do 2 (split; [assumption|]).
  destruct (gate_counters_consistent Sample.full H) as (_ & Hmax & Hlast & Hevents & _).
  split; [exact Hmax|].
  assert (Hsome : is_Some (last_alert_time (self Sample.full)))
    by (apply Hlast; rewrite Hcount; lia).
  split; [exact Hsome|].
  intros Hnil. apply Hevents in Hnil. destruct Hsome as [t Ht]. congruence.
Defined.

Lemma baseline_consistent_when_reachable_witness :
  reachable Sample.started
  /\ NoDup (dict_keys (historical_data (self Sample.started)))
  /\ forall symbol,
       is_Some (historical_stats (self Sample.started) !! symbol) ->
       exists data, In (symbol, data) (historical_data (self Sample.started)).
Proof.
  assert (H : reachable Sample.started) by (apply reachable_call, reachable_call, reachable_init).
  split; [exact H|].
  destruct (baseline_consistent_when_reachable Sample.started H) as (Hnodup & _ & Hstats & _).
  split; assumption.
Defined.

Lemma current_status_counts_witness :
  reachable Sample.full
  /\ status_event_count (result get_current_status Sample.full) = 100%nat
  /\ status_alert_count_today (result get_current_status Sample.full) = 100
  /\ (status_high_severity_count (result get_current_status Sample.full) <= 100)%nat
  /\ status_alert_count_today (result get_current_status Sample.full)
     <= Z.max 0 (status_max_alerts_per_day (result get_current_status Sample.full))
  /\ status_last_alert_time (result get_current_status Sample.full) <> None.
Proof.
  assert (H : reachable Sample.full)
    by exact (reachable_iterated (call_handle_alerts Sample.severe_alerts) 100 _
                (reachable_init Sample.busy_config)).
  assert (Hevents : status_event_count (result get_current_status Sample.full) = 100%nat)
    by (vm_compute; reflexivity).
  assert (Hcount : status_alert_count_today (result get_current_status Sample.full) = 100)
    by (vm_compute; reflexivity).
  do 3 (split; [assumption|]).
  pose proof (current_status_counts Sample.full H) as Hstatus. cbv zeta in Hstatus.
  destruct Hstatus as (_ & Hhigh & _ & _ & Hmax & Hiff).
  split; [rewrite <- Hevents; exact Hhigh|]. split; [exact Hmax|].
  intros Hnone. apply Hiff in Hnone. rewrite Hevents in Hnone. discriminate.
Defined.

Lemma volatility_needs_three_bars_witness :
  np_sqrt NaN = NaN
  /\ exists a symbol data,
       In a (result (_check_volatility Sample.current_data) Sample.loaded)
       /\ alert_symbol a = Some symbol
       /\ In (symbol, data) Sample.current_data
       /\ (3 <= length data)%nat.
Proof.
  split; [reflexivity|].
  destruct (result (_check_volatility Sample.current_data) Sample.loaded) as [|a rest] eqn:E;
    [vm_compute in E; discriminate|].
  assert (Ha : In a (result (_check_volatility Sample.current_data) Sample.loaded))
    by (rewrite E; left; reflexivity).
  destruct (@volatility_needs_three_bars Sample.environment eq_refl Sample.loaded
              Sample.current_data a Ha)
    as (symbol & data & Hsymbol & Hin & Hlen & _).
  exists a, symbol, data. rewrite <- E. auto.
Defined.

Lemma volume_alert_on_zero_baseline_witness :
  NoDup (dict_keys Sample.current_data)
  /\ In (Sample.symbol, Sample.data) Sample.current_data
  /\ historical_stats (self Sample.flat) !! Sample.symbol = Some Sample.flat_stats
  /\ (mean_volume Sample.flat_stats =? Fin 0)%fl = true
  /\ last (volumes Sample.data) = Some (Fin 900)
  /\ exists a,
       In a (result (_check_volume Sample.current_data) Sample.flat)
       /\ alert_severity a = Fin 1.
Proof.
  assert (H1 : NoDup (dict_keys Sample.current_data)) by (apply NoDup_singleton).
  assert (H2 : In (Sample.symbol, Sample.data) Sample.current_data) by (left; reflexivity).
  assert (H3 : historical_stats (self Sample.flat) !! Sample.symbol = Some Sample.flat_stats)
    by (vm_compute; reflexivity).
  assert (H4 : (mean_volume Sample.flat_stats =? Fin 0)%fl = true) by reflexivity.
  assert (H5 : last (volumes Sample.data) = Some (Fin 900)) by reflexivity.
  do 5 (split; [assumption|]).
  destruct (volume_alert_on_zero_baseline Sample.flat Sample.current_data Sample.symbol
              Sample.data Sample.flat_stats 900 H1 H2 H3 H4 H5) as [H _].
  destruct H as (a & Ha & _ & _ & Hseverity).
  - reflexivity.
  - discriminate.
  - exists a. split; assumption.
Defined.

Lemma network_errors_back_off_witness :
  Connector.result
    (Connector._execute_with_retry
       (fun n => Connector.fetch_order_book ConnectorSample.unreachable n "BTC/USDT:USDT" 20)
       "market_data")
    ConnectorSample.world
  = Connector.Returned None
  /\ Connector.calls
       (Connector.run
          (Connector._execute_with_retry
             (fun n => Connector.fetch_order_book ConnectorSample.unreachable n
                         "BTC/USDT:USDT" 20)
             "market_data")
          ConnectorSample.world)
     = 3%nat
  /\ Connector.is_trading_active
       (Connector.self
          (Connector.run
             (Connector._execute_with_retry
                (fun n => Connector.fetch_order_book ConnectorSample.unreachable n
                            "BTC/USDT:USDT" 20)
                "market_data")
             ConnectorSample.world))
     = false.
Proof.
  destruct (network_errors_back_off Connector.Orderbook
              (fun n => Connector.fetch_order_book ConnectorSample.unreachable n
                          "BTC/USDT:USDT" 20)
              "market_data" ConnectorSample.world)
    as (Hnone & Hcalls & _ & _ & _ & Hactive).
  - simpl. lia.
  - discriminate.
  - intros n _. exists "timeout". reflexivity.
  - split; [exact Hnone|]. split; [exact Hcalls | exact Hactive].
Defined.
